(** * The SQLite store of Delta Chat core (src/dc_sqlite3.c)

    A shallow embedding of [dc_sqlite3.c]: the store handle, the cache of
    predefined statements, the bootstrap and the migration ladder of
    [dc_sqlite3_open__], the config store and the nested transactions.

    SQLite itself is a library the file calls; it is represented by a small
    relational engine (tables of rows, prepare and step, read-only
    connections, one open transaction per connection) that covers the
    statements this file sends to it. *)

From Stdlib Require Import ZArith Lia String Ascii.
From stdpp Require Import base option list strings gmap.

Local Open Scope string_scope.
Local Open Scope Z_scope.
Local Open Scope list_scope.

(** ** Values, rows, tables *)

Inductive value : Type :=
| VNull
| VInt (z : Z)
| VText (s : string)
| VBlob (s : string).

#[export] Instance value_eq_dec : EqDecision value.
Proof. solve_decision. Defined.

(** The declared type of a column; [NOTYPE] is a column declared by its name
    alone, as [private_key] and [public_key] are. *)
Inductive coltype : Type := INTEGER | TEXT | NOTYPE.

#[export] Instance coltype_eq_dec : EqDecision coltype.
Proof. solve_decision. Defined.

Record column : Type := Column {
  col_name : string;
  col_type : coltype;
  col_pk : bool;          (* INTEGER PRIMARY KEY: the alias of the rowid *)
  col_default : value;    (* VNull when no DEFAULT is given *)
  col_nocase : bool       (* COLLATE NOCASE *)
}.

#[export] Instance column_eq_dec : EqDecision column.
Proof. solve_decision. Defined.

Record table : Type := Table {
  t_cols : list column;
  t_rows : list (gmap string value)
}.

#[export] Instance table_eq_dec : EqDecision table.
Proof. solve_decision. Defined.

(** An index is known by its name; it records the table and the column. *)
Record database : Type := Database {
  db_tables : gmap string table;
  db_indexes : gmap string (string * string)
}.

#[export] Instance database_eq_dec : EqDecision database.
Proof. solve_decision. Defined.

Definition empty_db : database := Database ∅ ∅.

Definition col_names (t : table) : list string := col_name <$> t_cols t.

Definition has_col (t : table) (c : string) : bool :=
  bool_decide (c ∈ col_names t).

Definition pk_of (t : table) : option string :=
  col_name <$> List.find col_pk (t_cols t).

Definition default_row (t : table) : gmap string value :=
  foldr (λ c r, <[col_name c := col_default c]> r) ∅ (t_cols t).

Definition rowid_of (k : string) (r : gmap string value) : Z :=
  match r !! k with Some (VInt z) => z | _ => 0 end.

(** The rowid SQLite gives to a row inserted without one: one more than the
    largest in the table. *)
Definition next_rowid (k : string) (rows : list (gmap string value)) : Z :=
  1 + foldr (λ r m, Z.max (rowid_of k r) m) 0 rows.

(** ** SQL statements

    The statements of the file, as syntax trees of their text. *)

Inductive expr : Type :=
| EInt (z : Z)            (* 262144 *)
| EText (s : string)      (* 'self' *)
| ECol (c : string)       (* gossip_key *)
| EParam (n : nat).       (* the n-th ?, counted from 1 *)

Inductive cond : Type :=
| CTrue                               (* no WHERE *)
| CEq (c : string) (e : expr)         (* c = e *)
| COr (a b : cond).

Inductive sql : Type :=
| CREATE_TABLE (t : string) (cols : list column)
| CREATE_INDEX (i t c : string) (nocase : bool)
| ALTER_TABLE_ADD_COLUMN (t : string) (c : column)
| INSERT_INTO (t : string) (cols : list string) (rows : list (list expr))
| DELETE_FROM (t : string) (w : cond)
| UPDATE (t : string) (sets : list (string * expr)) (w : cond)
| SELECT (c t : string) (w : cond)
| PRAGMA_table_info (t : string)
| BEGIN
| ROLLBACK
| COMMIT.

#[export] Instance expr_eq_dec : EqDecision expr.
Proof. solve_decision. Defined.
#[export] Instance cond_eq_dec : EqDecision cond.
Proof. solve_decision. Defined.
#[export] Instance sql_eq_dec : EqDecision sql.
Proof. solve_decision. Defined.

(** Column declarations, in the order of their frequency in the file. *)
Definition pk (n : string) : column := Column n INTEGER true VNull false.
Definition int_ (n : string) (d : Z) : column := Column n INTEGER false (VInt d) false.
Definition int_nodef (n : string) : column := Column n INTEGER false VNull false.
Definition text_ (n : string) : column := Column n TEXT false (VText "") false.
Definition text_nodef (n : string) : column := Column n TEXT false VNull false.
Definition text_nocase (n : string) : column := Column n TEXT false (VText "") true.
Definition bare (n : string) : column := Column n NOTYPE false VNull false.

(** The table a statement reads or writes. *)
Definition sql_table (q : sql) : option string :=
  match q with
  | CREATE_TABLE t _ | CREATE_INDEX _ t _ _ | ALTER_TABLE_ADD_COLUMN t _
  | INSERT_INTO t _ _ | DELETE_FROM t _ | UPDATE t _ _ | SELECT _ t _
  | PRAGMA_table_info t => Some t
  | BEGIN | ROLLBACK | COMMIT => None
  end.

Definition sql_writes (q : sql) : bool :=
  match q with
  | SELECT _ _ _ | PRAGMA_table_info _ | BEGIN | ROLLBACK | COMMIT => false
  | _ => true
  end.

(** ** Evaluation of a statement on a database *)

Definition bindings : Type := list (nat * string).

Definition binding (args : bindings) (n : nat) : value :=
  match List.find (λ a, Nat.eqb a.1 n) args with
  | Some a => VText a.2
  | None => VNull
  end.

Definition eval_expr (args : bindings) (r : gmap string value) (e : expr) : value :=
  match e with
  | EInt z => VInt z
  | EText s => VText s
  | ECol c => default VNull (r !! c)
  | EParam n => binding args n
  end.

(** A comparison with NULL is never true. *)
Definition value_eqb (a b : value) : bool :=
  match a, b with
  | VNull, _ | _, VNull => false
  | _, _ => bool_decide (a = b)
  end.

Fixpoint eval_cond (args : bindings) (r : gmap string value) (w : cond) : bool :=
  match w with
  | CTrue => true
  | CEq c e => value_eqb (default VNull (r !! c)) (eval_expr args r e)
  | COr a b => eval_cond args r a || eval_cond args r b
  end.

Definition expr_ok (t : table) (e : expr) : bool :=
  match e with ECol c => has_col t c | _ => true end.

Fixpoint cond_ok (t : table) (w : cond) : bool :=
  match w with
  | CTrue => true
  | CEq c e => has_col t c && expr_ok t e
  | COr a b => cond_ok t a && cond_ok t b
  end.

(** What [sqlite3_prepare_v2] checks: the names the statement uses exist (or,
    for a creation, do not exist yet). *)
Definition sql_valid (db : database) (q : sql) : bool :=
  match q with
  | CREATE_TABLE t cols =>
      bool_decide (db_tables db !! t = None) && bool_decide (db_indexes db !! t = None)
      && bool_decide (cols ≠ [])
  | CREATE_INDEX i t c _ =>
      bool_decide (db_indexes db !! i = None) && bool_decide (db_tables db !! i = None)
      && match db_tables db !! t with Some tb => has_col tb c | None => false end
  | ALTER_TABLE_ADD_COLUMN t c =>
      match db_tables db !! t with Some tb => negb (has_col tb (col_name c)) | None => false end
  | INSERT_INTO t cols rows =>
      match db_tables db !! t with
      | Some tb => forallb (has_col tb) cols
                   && forallb (λ es, Nat.eqb (length es) (length cols)) rows
      | None => false
      end
  | DELETE_FROM t w =>
      match db_tables db !! t with Some tb => cond_ok tb w | None => false end
  | UPDATE t sets w =>
      match db_tables db !! t with
      | Some tb => forallb (λ s, has_col tb s.1 && expr_ok tb s.2) sets && cond_ok tb w
      | None => false
      end
  | SELECT c t w =>
      match db_tables db !! t with Some tb => has_col tb c && cond_ok tb w | None => false end
  | PRAGMA_table_info _ | BEGIN | ROLLBACK | COMMIT => true
  end.

Definition set_cols (args : bindings) (old : gmap string value)
    (sets : list (string * expr)) (r : gmap string value) : gmap string value :=
  foldl (λ acc s, <[s.1 := eval_expr args old s.2]> acc) r sets.

(** One tuple of an INSERT: the defaults, then the given columns, then the
    rowid. [None] is a constraint failure: the given id is taken, or is not
    an integer. *)
Definition insert_row (args : bindings) (t : table) (cols : list string)
    (es : list expr) : option table :=
  let r := set_cols args ∅ (zip cols es) (default_row t) in
  match pk_of t with
  | None => Some (Table (t_cols t) (t_rows t ++ [r]))
  | Some k =>
      if bool_decide (k ∈ cols) then
        match r !! k with
        | Some (VInt z) =>
            if bool_decide (z ∈ rowid_of k <$> t_rows t) then None
            else Some (Table (t_cols t) (t_rows t ++ [r]))
        | Some VNull =>
            Some (Table (t_cols t) (t_rows t ++ [<[k := VInt (next_rowid k (t_rows t))]> r]))
        | _ => None
        end
      else Some (Table (t_cols t) (t_rows t ++ [<[k := VInt (next_rowid k (t_rows t))]> r]))
  end.

Fixpoint insert_rows (args : bindings) (t : table) (cols : list string)
    (rows : list (list expr)) : option table :=
  match rows with
  | [] => Some t
  | es :: rest =>
      match insert_row args t cols es with
      | Some t' => insert_rows args t' cols rest
      | None => None
      end
  end.

Definition put_table (db : database) (n : string) (t : table) : database :=
  Database (<[n := t]> (db_tables db)) (db_indexes db).

(** The rows a SELECT yields, each as the value of its one result column. *)
Definition select_rows (args : bindings) (db : database) (c t : string) (w : cond)
    : list value :=
  match db_tables db !! t with
  | Some tb => (λ r, default VNull (r !! c)) <$> List.filter (λ r, eval_cond args r w) (t_rows tb)
  | None => []
  end.

(** A data statement run to its end: the new database, or [None] when a
    constraint fails. Statements that return rows, and the transaction
    statements, leave the database as it is. *)
Definition sql_exec (args : bindings) (db : database) (q : sql) : option database :=
  match q with
  | CREATE_TABLE t cols => Some (put_table db t (Table cols []))
  | CREATE_INDEX i t c _ => Some (Database (db_tables db) (<[i := (t, c)]> (db_indexes db)))
  | ALTER_TABLE_ADD_COLUMN t c =>
      tb ← db_tables db !! t;
      Some (put_table db t (Table (t_cols tb ++ [c])
                                  ((λ r, <[col_name c := col_default c]> r) <$> t_rows tb)))
  | INSERT_INTO t cols rows =>
      tb ← db_tables db !! t;
      tb' ← insert_rows args tb cols rows;
      Some (put_table db t tb')
  | DELETE_FROM t w =>
      tb ← db_tables db !! t;
      Some (put_table db t (Table (t_cols tb)
                                  (List.filter (λ r, negb (eval_cond args r w)) (t_rows tb))))
  | UPDATE t sets w =>
      tb ← db_tables db !! t;
      Some (put_table db t (Table (t_cols tb)
              ((λ r, if eval_cond args r w then set_cols args r sets r else r) <$> t_rows tb)))
  | SELECT _ _ _ | PRAGMA_table_info _ | BEGIN | ROLLBACK | COMMIT => Some db
  end.

(** ** The engine: connections, compiled statements, result codes *)

Definition SQLITE_OK : Z := 0.
Definition SQLITE_ERROR : Z := 1.
Definition SQLITE_READONLY : Z := 8.
Definition SQLITE_CANTOPEN : Z := 14.
Definition SQLITE_CONSTRAINT : Z := 19.
Definition SQLITE_MISUSE : Z := 21.
Definition SQLITE_ROW : Z := 100.
Definition SQLITE_DONE : Z := 101.

Definition sqlite3_errstr (rc : Z) : string :=
  if rc =? SQLITE_OK then "not an error"
  else if rc =? SQLITE_READONLY then "attempt to write a readonly database"
  else if rc =? SQLITE_CANTOPEN then "unable to open database file"
  else if rc =? SQLITE_CONSTRAINT then "constraint failed"
  else if rc =? SQLITE_MISUSE then "bad parameter or other API misuse"
  else "SQL logic error".

(** What lives at a path: a database, or something that cannot be opened as
    one (a directory, a file without permission). *)
Inductive file : Type :=
| DbFile (db : database)
| Unopenable.

(** A connection [sqlite3*]. [c_data] is the database as the connection sees
    it, with the changes of its open transaction; the file holds what is
    committed. Outside a transaction every change is written to both. *)
Record sqlite3 : Type := Sqlite3 {
  c_path : string;
  c_readonly : bool;
  c_intxn : bool;
  c_data : database;
  c_errmsg : string
}.

(** A compiled statement [sqlite3_stmt*]: its text, the bound parameters, the
    rows still to come ([None] before the first step) and the current row. *)
Record sqlite3_stmt : Type := Stmt {
  st_sql : sql;
  st_args : bindings;
  st_rest : option (list value);
  st_row : option value
}.

Inductive event : Type :=
| EvPrepare (q : sql) (rc : Z)
| EvStep (q : sql) (args : bindings) (rc : Z).

Definition ev_sql (e : event) : sql :=
  match e with EvPrepare q _ | EvStep q _ _ => q end.

(** A line of the log of the host context: its level and its format string
    (the arguments of the format are not kept). *)
Inductive log_entry : Type :=
| Info (msg : string)
| Error (msg : string).

(** ** The store handle and the world around it *)

(** [dc_sqlite3_t]. The mutex [m_critical_] has no part in the sequential
    behaviour. [m_transactionCount] is the counter of nested transactions, an
    integer that begin increments and commit and rollback decrement. *)
Record dc_sqlite3_t : Type := Handle {
  m_cobj : option sqlite3;
  m_pd : list (option sqlite3_stmt);
  m_transactionCount : Z
}.

(** The pointer [ths] of every function: NULL, or the one store object. *)
Inductive ptr : Type := NULL | THS.

(** [trace] is what a spy on the connection sees: every statement handed to
    [sqlite3_prepare_v2] and every [sqlite3_step], oldest first. [log] is
    the log of the host context. *)
Record world : Type := World {
  store : dc_sqlite3_t;
  files : gmap string file;
  threadsafe : Z;
  trace : list event;
  log : list log_entry
}.

Definition set_store (h : dc_sqlite3_t) (w : world) : world :=
  World h (files w) (threadsafe w) (trace w) (log w).
Definition set_files (f : gmap string file) (w : world) : world :=
  World (store w) f (threadsafe w) (trace w) (log w).
Definition add_event (e : event) (w : world) : world :=
  World (store w) (files w) (threadsafe w) (trace w ++ [e]) (log w).
Definition add_log (e : log_entry) (w : world) : world :=
  World (store w) (files w) (threadsafe w) (trace w) (log w ++ [e]).

Definition set_cobj (c : option sqlite3) (h : dc_sqlite3_t) : dc_sqlite3_t :=
  Handle c (m_pd h) (m_transactionCount h).
Definition set_pd (pd : list (option sqlite3_stmt)) (h : dc_sqlite3_t) : dc_sqlite3_t :=
  Handle (m_cobj h) pd (m_transactionCount h).
Definition set_transactionCount (n : Z) (h : dc_sqlite3_t) : dc_sqlite3_t :=
  Handle (m_cobj h) (m_pd h) n.

Definition set_errmsg (rc : Z) (c : sqlite3) : sqlite3 :=
  Sqlite3 (c_path c) (c_readonly c) (c_intxn c) (c_data c) (sqlite3_errstr rc).
Definition set_data (db : database) (c : sqlite3) : sqlite3 :=
  Sqlite3 (c_path c) (c_readonly c) (c_intxn c) db (c_errmsg c).
Definition set_intxn (b : bool) (c : sqlite3) : sqlite3 :=
  Sqlite3 (c_path c) (c_readonly c) b (c_data c) (c_errmsg c).

(** The state monad of the C functions. *)
Definition M (A : Type) : Type := world → A * world.

#[export] Instance M_ret : MRet M := λ A a w, (a, w).
#[export] Instance M_bind : MBind M := λ A B f m w, let '(a, w') := m w in f a w'.

Definition dc_log_info (msg : string) : M unit := λ w, (tt, add_log (Info msg) w).
Definition dc_log_error (msg : string) : M unit := λ w, (tt, add_log (Error msg) w).

(** The character [34], which delimits file names and statements in the log. *)
Definition dq : string := String (ascii_of_nat 34) EmptyString.

(** ** The engine calls *)

Definition sqlite3_threadsafe : M Z := λ w, (threadsafe w, w).

(** [sqlite3_open_v2(dbfile, &ths->m_cobj, flags, NULL)]: the connection object
    is set up even when the file cannot be opened. READWRITE|CREATE creates a
    missing file. *)
Definition sqlite3_open_v2 (filename : string) (readonly : bool) : M Z := λ w,
  match files w !! filename with
  | Some (DbFile db) =>
      (SQLITE_OK,
       set_store (set_cobj (Some (Sqlite3 filename readonly false db (sqlite3_errstr SQLITE_OK)))
                           (store w)) w)
  | Some Unopenable =>
      (SQLITE_CANTOPEN,
       set_store (set_cobj (Some (Sqlite3 filename readonly false empty_db
                                          (sqlite3_errstr SQLITE_CANTOPEN))) (store w)) w)
  | None =>
      if readonly then
        (SQLITE_CANTOPEN,
         set_store (set_cobj (Some (Sqlite3 filename readonly false empty_db
                                            (sqlite3_errstr SQLITE_CANTOPEN))) (store w)) w)
      else
        (SQLITE_OK,
         set_files (<[filename := DbFile empty_db]> (files w))
           (set_store (set_cobj (Some (Sqlite3 filename readonly false empty_db
                                               (sqlite3_errstr SQLITE_OK))) (store w)) w))
  end.

(** [sqlite3_busy_timeout] changes how long a step waits for a lock, which a
    single connection never does. *)
Definition sqlite3_busy_timeout (ms : Z) : M unit := mret tt.

(** [sqlite3_close]: a transaction still open is rolled back, so the file keeps
    what was committed. *)
Definition sqlite3_close (c : sqlite3) : M unit := mret tt.

Definition sqlite3_finalize (stmt : option sqlite3_stmt) : M unit := mret tt.

Definition sqlite3_reset (st : sqlite3_stmt) : sqlite3_stmt :=
  Stmt (st_sql st) [] None None.

(** [sqlite3_prepare_v2] on the connection of the store. *)
Definition sqlite3_prepare_v2 (q : sql) : M (Z * option sqlite3_stmt) := λ w,
  match m_cobj (store w) with
  | None => ((SQLITE_MISUSE, None), w)
  | Some c =>
      if sql_valid (c_data c) q then
        ((SQLITE_OK, Some (Stmt q [] None None)), add_event (EvPrepare q SQLITE_OK) w)
      else
        ((SQLITE_ERROR, None),
         add_event (EvPrepare q SQLITE_ERROR)
           (set_store (set_cobj (Some (set_errmsg SQLITE_ERROR c)) (store w)) w))
  end.

(** [sqlite3_bind_text(stmt, i, s, -1, SQLITE_STATIC)]. *)
Definition sqlite3_bind_text (stmt : option sqlite3_stmt) (i : nat) (s : string)
    : option sqlite3_stmt :=
  (λ st, Stmt (st_sql st) ((i, s) :: st_args st) (st_rest st) (st_row st)) <$> stmt.

(** The text of a value, as [sqlite3_column_text] converts it; NULL for NULL. *)
Fixpoint digits_of (fuel : nat) (n : Z) (acc : string) : string :=
  match fuel with
  | O => acc
  | S f =>
      let acc' := String (ascii_of_nat (48 + Z.to_nat (n mod 10))) acc in
      if n <? 10 then acc' else digits_of f (n / 10) acc'
  end.

Definition decimal (z : Z) : string :=
  if z <? 0 then String "-" (digits_of 20 (- z) "") else digits_of 20 z "".

Definition value_text (v : value) : option string :=
  match v with
  | VNull => None
  | VInt z => Some (decimal z)
  | VText s | VBlob s => Some s
  end.

Definition sqlite3_column_text (stmt : option sqlite3_stmt) : option string :=
  st ← stmt; v ← st_row st; value_text v.

(** The next row of a cursor. *)
Definition cursor_step (st : sqlite3_stmt) (rows : list value) : Z * sqlite3_stmt :=
  match default rows (st_rest st) with
  | [] => (SQLITE_DONE, Stmt (st_sql st) (st_args st) (Some []) None)
  | v :: l => (SQLITE_ROW, Stmt (st_sql st) (st_args st) (Some l) (Some v))
  end.

Definition committed (f : gmap string file) (path : string) : database :=
  match f !! path with Some (DbFile db) => db | _ => empty_db end.

(** One [sqlite3_step] of a statement on a connection. A statement whose
    names have gone since it was compiled fails, as does one that writes
    through a read-only connection. *)
Definition engine_step (c : sqlite3) (f : gmap string file) (st : sqlite3_stmt)
    : Z * sqlite3_stmt * sqlite3 * gmap string file :=
  let q := st_sql st in
  if negb (sql_valid (c_data c) q) then (SQLITE_ERROR, st, set_errmsg SQLITE_ERROR c, f)
  else match q with
  | BEGIN =>
      if c_intxn c then (SQLITE_ERROR, st, set_errmsg SQLITE_ERROR c, f)
      else (SQLITE_DONE, st, set_intxn true c, f)
  | COMMIT =>
      if c_intxn c then
        (SQLITE_DONE, st, set_intxn false c,
         if c_readonly c then f else <[c_path c := DbFile (c_data c)]> f)
      else (SQLITE_ERROR, st, set_errmsg SQLITE_ERROR c, f)
  | ROLLBACK =>
      if c_intxn c then
        (SQLITE_DONE, st, set_intxn false (set_data (committed f (c_path c)) c), f)
      else (SQLITE_ERROR, st, set_errmsg SQLITE_ERROR c, f)
  | SELECT col t w =>
      let '(rc, st') := cursor_step st (select_rows (st_args st) (c_data c) col t w) in
      (rc, st', c, f)
  | PRAGMA_table_info t =>
      let cols := match db_tables (c_data c) !! t with Some tb => t_cols tb | None => [] end in
      let '(rc, st') := cursor_step st (imap (λ i _, VInt (Z.of_nat i)) cols) in
      (rc, st', c, f)
  | _ =>
      if c_readonly c then (SQLITE_READONLY, st, set_errmsg SQLITE_READONLY c, f)
      else match sql_exec (st_args st) (c_data c) q with
      | None => (SQLITE_CONSTRAINT, st, set_errmsg SQLITE_CONSTRAINT c, f)
      | Some db' =>
          (SQLITE_DONE, st, set_data db' c,
           if c_intxn c then f else <[c_path c := DbFile db']> f)
      end
  end.

(** [sqlite3_step(stmt)]; a NULL statement is a misuse. *)
Definition sqlite3_step (stmt : option sqlite3_stmt) : M (Z * option sqlite3_stmt) := λ w,
  match stmt, m_cobj (store w) with
  | Some st, Some c =>
      let '(rc, st', c', f') := engine_step c (files w) st in
      ((rc, Some st'),
       add_event (EvStep (st_sql st) (st_args st) rc)
         (set_files f' (set_store (set_cobj (Some c') (store w)) w)))
  | _, _ => ((SQLITE_MISUSE, None), w)
  end.

(** ** Tools *)

Definition notSetUp : string := "SQLite object not set up.".

(** [dc_sqlite3_log_error]: the message, then what SQLite says. *)
Definition dc_sqlite3_log_error (msg_format : string) : M unit := λ w,
  dc_log_error
    (msg_format +:+ " SQLite says: " +:+
     match m_cobj (store w) with Some c => c_errmsg c | None => notSetUp end) w.

Definition dc_sqlite3_prepare_v2_ (ths : ptr) (querystr : option sql)
    : M (option sqlite3_stmt) := λ w,
  match ths, querystr, m_cobj (store w) with
  | THS, Some q, Some _ =>
      let '((rc, retStmt), w') := sqlite3_prepare_v2 q w in
      if rc =? SQLITE_OK then (retStmt, w')
      else (None, (dc_sqlite3_log_error "Query failed: %s" w').2)
  | _, _, _ => (None, w)
  end.

Definition dc_sqlite3_execute__ (ths : ptr) (querystr : sql) : M Z :=
  stmt ← dc_sqlite3_prepare_v2_ ths (Some querystr);
  match stmt with
  | None => mret 0
  | Some _ =>
      '(sqlState, _) ← sqlite3_step stmt;
      if negb (sqlState =? SQLITE_DONE) && negb (sqlState =? SQLITE_ROW) then
        dc_sqlite3_log_error ("Cannot excecute " +:+ dq +:+ "%s" +:+ dq +:+ ".");;
        sqlite3_finalize stmt;;
        mret 0
      else
        sqlite3_finalize stmt;;
        mret 1
  end.

(** ** Main interface *)

(** Modelled from the spec: the enumeration of the predefined statements and
    [PREDEFINED_CNT] are declared in the header of the store, which is not
    among the sources. The slots this file uses are numbered in the order of
    their first use by the transaction and config functions. *)
Definition BEGIN_transaction : nat := 0.
Definition ROLLBACK_transaction : nat := 1.
Definition COMMIT_transaction : nat := 2.
Definition SELECT_v_FROM_config_k : nat := 3.
Definition INSERT_INTO_config_kv : nat := 4.
Definition UPDATE_config_vk : nat := 5.
Definition DELETE_FROM_config_k : nat := 6.
Definition PREDEFINED_CNT : nat := 7.

(** Modelled from the spec: the open flag READONLY of the bit field [flags];
    its definition is in a header that is not among the sources. *)
Definition MR_OPEN_READONLY : Z := 1.

Definition dc_sqlite3_new : M ptr := λ w,
  (THS, set_store (Handle None (replicate PREDEFINED_CNT None) 0) w).

Definition clear_slot (pd : list (option sqlite3_stmt)) (i : nat)
    : list (option sqlite3_stmt) :=
  match pd !! i with
  | Some (Some _) => <[i := None]> pd
  | _ => pd
  end.

Definition dc_sqlite3_close__ (ths : ptr) : M unit :=
  match ths with
  | NULL => mret tt
  | THS => λ w,
      let w' :=
        match m_cobj (store w) with
        | Some c =>
            let pd := foldl clear_slot (m_pd (store w)) (seq 0 PREDEFINED_CNT) in
            (sqlite3_close c (set_store (set_cobj None (set_pd pd (store w))) w)).2
        | None => w
        end in
      dc_log_info "Database closed." w'
  end.

Definition dc_sqlite3_is_open (ths : ptr) : M Z := λ w,
  match ths, m_cobj (store w) with
  | THS, Some _ => (1, w)
  | _, _ => (0, w)
  end.

Definition dc_sqlite3_unref (ths : ptr) : M unit :=
  match ths with
  | NULL => mret tt
  | THS => λ w,
      match m_cobj (store w) with
      | Some _ => dc_sqlite3_close__ ths w
      | None => (tt, w)
      end
  end.

(** Predefines a statement or resets and reuses a statement. *)
Definition dc_sqlite3_predefine__ (ths : ptr) (idx : nat) (querystr : option sql)
    : M (option sqlite3_stmt) := λ w,
  match ths, m_cobj (store w) with
  | THS, Some _ =>
      if (PREDEFINED_CNT <=? idx)%nat then (None, w)
      else match m_pd (store w) !! idx with
      | Some (Some st) => (Some (sqlite3_reset st), w)
      | _ =>
          match querystr with
          | None => (None, w)
          | Some q =>
              let '((rc, stmt), w') := sqlite3_prepare_v2 q w in
              if rc =? SQLITE_OK then
                (stmt, set_store (set_pd (<[idx := stmt]> (m_pd (store w'))) (store w')) w')
              else
                (None, (dc_sqlite3_log_error
                          ("Preparing statement " +:+ dq +:+ "%s" +:+ dq +:+ " failed.") w').2)
          end
      end
  | _, _ => (None, w)
  end.

Definition dc_sqlite3_reset_all_predefinitions (ths : ptr) : M unit := λ w,
  (tt, set_store (set_pd ((λ s : option sqlite3_stmt, sqlite3_reset <$> s) <$> m_pd (store w)) (store w)) w).

Definition dc_sqlite3_table_exists__ (ths : ptr) (name : string) : M Z :=
  stmt ← dc_sqlite3_prepare_v2_ ths (Some (PRAGMA_table_info name));
  match stmt with
  | None => mret 0
  | Some _ =>
      '(sqlState, _) ← sqlite3_step stmt;
      sqlite3_finalize stmt;;
      mret (if sqlState =? SQLITE_ROW then 1 else 0)
  end.

(** ** Handle configuration *)

Definition SELECT_v_FROM_config_k_STATEMENT : sql :=
  SELECT "value" "config" (CEq "keyname" (EParam 1)).
Definition INSERT_INTO_config_kv_STATEMENT : sql :=
  INSERT_INTO "config" ["keyname"; "value"] [[EParam 1; EParam 2]].
Definition UPDATE_config_vk_STATEMENT : sql :=
  UPDATE "config" [("value", EParam 1)] (CEq "keyname" (EParam 2)).
Definition DELETE_FROM_config_k_STATEMENT : sql :=
  DELETE_FROM "config" (CEq "keyname" (EParam 1)).

(** [ths->m_context] of a NULL [ths] has no defined behaviour in C; the
    functions that reach it without a check do nothing on NULL here and are
    only ever stated on [THS]. *)
Definition dc_sqlite3_set_config__ (ths : ptr) (key value : option string) : M Z :=
  match key with
  | None => dc_log_error "dc_sqlite3_set_config(): Bad parameter.";; mret 0
  | Some key =>
      is_open ← dc_sqlite3_is_open ths;
      if is_open =? 0 then
        dc_log_error "dc_sqlite3_set_config(): Database not ready.";; mret 0
      else
        state ←
          match value with
          | Some value =>
              (* insert/update key=value *)
              stmt ← dc_sqlite3_predefine__ ths SELECT_v_FROM_config_k
                       (Some SELECT_v_FROM_config_k_STATEMENT);
              '(state, _) ← sqlite3_step (sqlite3_bind_text stmt 1 key);
              if state =? SQLITE_DONE then
                stmt ← dc_sqlite3_predefine__ ths INSERT_INTO_config_kv
                         (Some INSERT_INTO_config_kv_STATEMENT);
                '(state, _) ← sqlite3_step
                   (sqlite3_bind_text (sqlite3_bind_text stmt 1 key) 2 value);
                mret (Some state)
              else if state =? SQLITE_ROW then
                stmt ← dc_sqlite3_predefine__ ths UPDATE_config_vk
                         (Some UPDATE_config_vk_STATEMENT);
                '(state, _) ← sqlite3_step
                   (sqlite3_bind_text (sqlite3_bind_text stmt 1 value) 2 key);
                mret (Some state)
              else
                dc_log_error "dc_sqlite3_set_config(): Cannot read value.";;
                mret None
          | None =>
              (* delete key *)
              stmt ← dc_sqlite3_predefine__ ths DELETE_FROM_config_k
                       (Some DELETE_FROM_config_k_STATEMENT);
              '(state, _) ← sqlite3_step (sqlite3_bind_text stmt 1 key);
              mret (Some state)
          end;
        match state with
        | None => mret 0
        | Some state =>
            if negb (state =? SQLITE_DONE) then
              dc_log_error "dc_sqlite3_set_config(): Cannot change value.";; mret 0
            else mret 1
        end
  end.

(** Modelled from the spec: [safe_strdup] and [strdup_keep_null] are string
    helpers of the repository that are not among the sources: a copy of the
    string, where [safe_strdup] turns NULL into the empty string and
    [strdup_keep_null] keeps it ("NULL is only returned if def is NULL"). *)
Definition safe_strdup (s : option string) : string := default "" s.
Definition strdup_keep_null (s : option string) : option string := s.

Definition dc_sqlite3_get_config__ (ths : ptr) (key def : option string)
    : M (option string) :=
  is_open ← dc_sqlite3_is_open ths;
  match key with
  | Some key =>
      if is_open =? 0 then mret (strdup_keep_null def)
      else
        stmt ← dc_sqlite3_predefine__ ths SELECT_v_FROM_config_k
                 (Some SELECT_v_FROM_config_k_STATEMENT);
        '(rc, stmt) ← sqlite3_step (sqlite3_bind_text stmt 1 key);
        if rc =? SQLITE_ROW then
          match sqlite3_column_text stmt with
          | Some p => mret (Some (safe_strdup (Some p)))
          | None => mret (strdup_keep_null def)
          end
        else mret (strdup_keep_null def)
  | None => mret (strdup_keep_null def)
  end.

(** [atol] of the C library: white space, an optional sign, then the decimal
    digits up to the first other character; no digit gives 0. The value is
    held in a [long] of 64 bits. *)
Definition isspace (c : ascii) : bool :=
  let n := nat_of_ascii c in (n =? 32)%nat || ((9 <=? n)%nat && (n <=? 13)%nat).

Definition isdigit (c : ascii) : bool :=
  let n := nat_of_ascii c in (48 <=? n)%nat && (n <=? 57)%nat.

Fixpoint skip_space (s : string) : string :=
  match s with
  | String c s' => if isspace c then skip_space s' else s
  | EmptyString => s
  end.

Fixpoint parse_digits (acc : Z) (s : string) : Z :=
  match s with
  | String c s' =>
      if isdigit c then parse_digits (acc * 10 + (Z.of_nat (nat_of_ascii c) - 48)) s'
      else acc
  | EmptyString => acc
  end.

Definition LONG_MAX : Z := 2 ^ 63 - 1.
Definition LONG_MIN : Z := - 2 ^ 63.

Definition atol (s : string) : Z :=
  let v :=
    match skip_space s with
    | String c s' =>
        if Ascii.eqb c "-" then - parse_digits 0 s'
        else if Ascii.eqb c "+" then parse_digits 0 s'
        else parse_digits 0 (String c s')
    | EmptyString => 0
    end in
  Z.max LONG_MIN (Z.min LONG_MAX v).

(** The conversion of a [long] to [int32_t]: the low 32 bits, signed. *)
Definition to_int32 (z : Z) : Z := (z + 2 ^ 31) mod 2 ^ 32 - 2 ^ 31.

Definition dc_sqlite3_get_config_int__ (ths : ptr) (key : option string) (def : Z) : M Z :=
  str ← dc_sqlite3_get_config__ ths key None;
  match str with
  | None => mret def
  | Some str => mret (to_int32 (atol str))
  end.

(** Modelled from the spec: [dc_mprintf] is the printf of the repository's
    string tools, not among the sources; with the format [%i] it gives the
    digits of the integer in base 10, after a minus sign when it is negative. *)
Definition dc_mprintf_i (value : Z) : string := decimal value.

Definition dc_sqlite3_set_config_int__ (ths : ptr) (key : option string) (value : Z) : M Z :=
  let value_str := dc_mprintf_i value in
  dc_sqlite3_set_config__ ths key (Some value_str).

(** ** Transactions *)

Definition get_transactionCount : M Z := λ w, (m_transactionCount (store w), w).

(** [ths->m_transactionCount++] and [ths->m_transactionCount--]. *)
Definition add_transactionCount (d : Z) : M unit := λ w,
  (tt, set_store (set_transactionCount (m_transactionCount (store w) + d) (store w)) w).

Definition dc_sqlite3_begin_transaction__ (ths : ptr) : M unit :=
  match ths with
  | NULL => mret tt
  | THS =>
      add_transactionCount 1;;
      count ← get_transactionCount;
      if count =? 1 then
        stmt ← dc_sqlite3_predefine__ ths BEGIN_transaction (Some BEGIN);
        '(rc, _) ← sqlite3_step stmt;
        if negb (rc =? SQLITE_DONE) then dc_sqlite3_log_error "Cannot begin transaction."
        else mret tt
      else mret tt
  end.

Definition dc_sqlite3_rollback__ (ths : ptr) : M unit :=
  match ths with
  | NULL => mret tt
  | THS =>
      count ← get_transactionCount;
      if 1 <=? count then
        (if count =? 1 then
           stmt ← dc_sqlite3_predefine__ ths ROLLBACK_transaction (Some ROLLBACK);
           '(rc, _) ← sqlite3_step stmt;
           if negb (rc =? SQLITE_DONE) then dc_sqlite3_log_error "Cannot rollback transaction."
           else mret tt
         else mret tt);;
        add_transactionCount (-1)
      else mret tt
  end.

Definition dc_sqlite3_commit__ (ths : ptr) : M unit :=
  match ths with
  | NULL => mret tt
  | THS =>
      count ← get_transactionCount;
      if 1 <=? count then
        (if count =? 1 then
           stmt ← dc_sqlite3_predefine__ ths COMMIT_transaction (Some COMMIT);
           '(rc, _) ← sqlite3_step stmt;
           if negb (rc =? SQLITE_DONE) then dc_sqlite3_log_error "Cannot commit transaction."
           else mret tt
         else mret tt);;
        add_transactionCount (-1)
      else mret tt
  end.

(** ** Opening: bootstrap and migration ladder *)

Section Open.

(** Modelled from the spec: the peer-state collaborator (load by address,
    recalculate the fingerprints, save without creating) belongs to a file of
    the repository that is not among the sources. It recomputes the two
    fingerprints of the rows of one address from their key material;
    [fingerprint] is the function from a key to its fingerprint. *)
Variable fingerprint : value → value.

Definition dc_apeerstate_recalc (addr : string) (db : database) : database :=
  match db_tables db !! "acpeerstates" with
  | Some tb =>
      put_table db "acpeerstates"
        (Table (t_cols tb)
           ((λ r, if value_eqb (default VNull (r !! "addr")) (VText addr) then
                    <["public_key_fingerprint" :=
                        fingerprint (default VNull (r !! "public_key"))]>
                      (<["gossip_key_fingerprint" :=
                           fingerprint (default VNull (r !! "gossip_key"))]> r)
                  else r) <$> t_rows tb))
  | None => db
  end.

Definition dc_apeerstate_resave (ths : ptr) (addr : option string) : M unit := λ w,
  match addr, m_cobj (store w) with
  | Some addr, Some c =>
      let db' := dc_apeerstate_recalc addr (c_data c) in
      (tt, set_files (if c_intxn c then files w else <[c_path c := DbFile db']> (files w))
             (set_store (set_cobj (Some (set_data db' c)) (store w)) w))
  | _, _ => (tt, w)
  end.

(** [while( sqlite3_step(stmt) == SQLITE_ROW )]: the cursor yields every row
    once, so one round more than there are rows ends the loop. *)
Fixpoint recalc_loop (fuel : nat) (ths : ptr) (stmt : option sqlite3_stmt) : M unit :=
  match fuel with
  | O => mret tt
  | S fuel =>
      '(rc, stmt) ← sqlite3_step stmt;
      if rc =? SQLITE_ROW then
        dc_apeerstate_resave ths (sqlite3_column_text stmt);;
        recalc_loop fuel ths stmt
      else mret tt
  end.

Definition row_count (t : string) : M nat := λ w,
  (match m_cobj (store w) with
   | Some c => match db_tables (c_data c) !! t with Some tb => length (t_rows tb) | None => O end
   | None => O
   end, w).

(** The tables and the reserved rows of a new database (dbversion 0). *)
Definition CREATE_config : sql :=
  CREATE_TABLE "config" [pk "id"; text_nodef "keyname"; text_nodef "value"].

Definition CREATE_contacts : sql :=
  CREATE_TABLE "contacts"
    [pk "id"; text_ "name"; text_nocase "addr"; int_ "origin" 0; int_ "blocked" 0;
     int_ "last_seen" 0; text_ "param"].

Definition reserved_contact (id : Z) (name : string) : list expr :=
  [EInt id; EText name; EInt 262144].

Definition INSERT_contacts : sql :=
  INSERT_INTO "contacts" ["id"; "name"; "origin"]
    [reserved_contact 1 "self"; reserved_contact 2 "device"; reserved_contact 3 "rsvd";
     reserved_contact 4 "rsvd"; reserved_contact 5 "rsvd"; reserved_contact 6 "rsvd";
     reserved_contact 7 "rsvd"; reserved_contact 8 "rsvd"; reserved_contact 9 "rsvd"].

Definition CREATE_chats : sql :=
  CREATE_TABLE "chats"
    [pk "id"; int_ "type" 0; text_ "name"; int_ "draft_timestamp" 0; text_ "draft_txt";
     int_ "blocked" 0; text_ "grpid"; text_ "param"].

Definition INSERT_chats : sql :=
  INSERT_INTO "chats" ["id"; "type"; "name"]
    [[EInt 1; EInt 120; EText "deaddrop"]; [EInt 2; EInt 120; EText "rsvd"];
     [EInt 3; EInt 120; EText "trash"]; [EInt 4; EInt 120; EText "msgs_in_creation"];
     [EInt 5; EInt 120; EText "starred"]; [EInt 6; EInt 120; EText "archivedlink"];
     [EInt 7; EInt 100; EText "rsvd"]; [EInt 8; EInt 100; EText "rsvd"];
     [EInt 9; EInt 100; EText "rsvd"]].

Definition CREATE_msgs : sql :=
  CREATE_TABLE "msgs"
    [pk "id"; text_ "rfc724_mid"; text_ "server_folder"; int_ "server_uid" 0;
     int_ "chat_id" 0; int_ "from_id" 0; int_ "to_id" 0; int_ "timestamp" 0;
     int_ "type" 0; int_ "state" 0; int_ "msgrmsg" 1; int_ "bytes" 0; text_ "txt";
     text_ "txt_raw"; text_ "param"].

Definition INSERT_msgs : sql :=
  INSERT_INTO "msgs" ["id"; "msgrmsg"; "txt"]
    [[EInt 1; EInt 0; EText "marker1"]; [EInt 2; EInt 0; EText "rsvd"];
     [EInt 3; EInt 0; EText "rsvd"]; [EInt 4; EInt 0; EText "rsvd"];
     [EInt 5; EInt 0; EText "rsvd"]; [EInt 6; EInt 0; EText "rsvd"];
     [EInt 7; EInt 0; EText "rsvd"]; [EInt 8; EInt 0; EText "rsvd"];
     [EInt 9; EInt 0; EText "daymarker"]].

Definition CREATE_jobs : sql :=
  CREATE_TABLE "jobs"
    [pk "id"; int_nodef "added_timestamp"; int_ "desired_timestamp" 0; int_nodef "action";
     int_nodef "foreign_id"; text_ "param"].

(** The condition [!dc_sqlite3_table_exists__(ths, "config") || ... ||
    !dc_sqlite3_table_exists__(ths, "jobs")], evaluated from the left until
    one table is missing. *)
Definition open_tables_missing (ths : ptr) : M bool :=
  e ← dc_sqlite3_table_exists__ ths "config";
  if e =? 0 then mret true else
  e ← dc_sqlite3_table_exists__ ths "contacts";
  if e =? 0 then mret true else
  e ← dc_sqlite3_table_exists__ ths "chats";
  if e =? 0 then mret true else
  e ← dc_sqlite3_table_exists__ ths "chats_contacts";
  if e =? 0 then mret true else
  e ← dc_sqlite3_table_exists__ ths "msgs";
  if e =? 0 then mret true else
  e ← dc_sqlite3_table_exists__ ths "jobs";
  mret (e =? 0).

(** Init tables to dbversion=0. [false] is [goto cleanup]. *)
Definition open_init_tables (ths : ptr) : M bool :=
  dc_log_info ("First time init: creating tables in " +:+ dq +:+ "%s" +:+ dq +:+ ".");;
  dc_sqlite3_execute__ ths CREATE_config;;
  dc_sqlite3_execute__ ths (CREATE_INDEX "config_index1" "config" "keyname" false);;
  dc_sqlite3_execute__ ths CREATE_contacts;;
  dc_sqlite3_execute__ ths (CREATE_INDEX "contacts_index1" "contacts" "name" true);;
  dc_sqlite3_execute__ ths (CREATE_INDEX "contacts_index2" "contacts" "addr" true);;
  dc_sqlite3_execute__ ths INSERT_contacts;;
  dc_sqlite3_execute__ ths CREATE_chats;;
  dc_sqlite3_execute__ ths (CREATE_INDEX "chats_index1" "chats" "grpid" false);;
  dc_sqlite3_execute__ ths
    (CREATE_TABLE "chats_contacts" [int_nodef "chat_id"; int_nodef "contact_id"]);;
  dc_sqlite3_execute__ ths
    (CREATE_INDEX "chats_contacts_index1" "chats_contacts" "chat_id" false);;
  dc_sqlite3_execute__ ths INSERT_chats;;
  dc_sqlite3_execute__ ths CREATE_msgs;;
  dc_sqlite3_execute__ ths (CREATE_INDEX "msgs_index1" "msgs" "rfc724_mid" false);;
  dc_sqlite3_execute__ ths (CREATE_INDEX "msgs_index2" "msgs" "chat_id" false);;
  dc_sqlite3_execute__ ths (CREATE_INDEX "msgs_index3" "msgs" "timestamp" false);;
  dc_sqlite3_execute__ ths (CREATE_INDEX "msgs_index4" "msgs" "state" false);;
  dc_sqlite3_execute__ ths INSERT_msgs;;
  dc_sqlite3_execute__ ths CREATE_jobs;;
  dc_sqlite3_execute__ ths (CREATE_INDEX "jobs_index1" "jobs" "desired_timestamp" false);;
  missing ← open_tables_missing ths;
  if (missing : bool) then
    dc_sqlite3_log_error
      ("Cannot create tables in new database " +:+ dq +:+ "%s" +:+ dq +:+ ".");;
    mret false
  else
    dc_sqlite3_set_config_int__ ths (Some "dbversion") 0;;
    mret true.

(** One rung of the ladder:
    [if( dbversion < NEW_DB_VERSION ) { ...; dbversion = NEW_DB_VERSION;
    dc_sqlite3_set_config_int__(ths, "dbversion", NEW_DB_VERSION); }]. *)
Definition rung (ths : ptr) (dbversion NEW_DB_VERSION : Z) (body : M unit) : M Z :=
  if dbversion <? NEW_DB_VERSION then
    body;;
    dc_sqlite3_set_config_int__ ths (Some "dbversion") NEW_DB_VERSION;;
    mret NEW_DB_VERSION
  else mret dbversion.

Definition UPDATE_verified_from_gossip : sql :=
  UPDATE "acpeerstates"
    [("verified_key", ECol "gossip_key");
     ("verified_key_fingerprint", ECol "gossip_key_fingerprint")]
    (CEq "gossip_key_verified" (EInt 2)).

Definition UPDATE_verified_from_public : sql :=
  UPDATE "acpeerstates"
    [("verified_key", ECol "public_key");
     ("verified_key_fingerprint", ECol "public_key_fingerprint")]
    (CEq "public_key_verified" (EInt 2)).

Definition rung_1 (ths : ptr) : M unit :=
  dc_sqlite3_execute__ ths (CREATE_TABLE "leftgrps" [pk "id"; text_ "grpid"]);;
  dc_sqlite3_execute__ ths (CREATE_INDEX "leftgrps_index1" "leftgrps" "grpid" false);;
  mret tt.

Definition rung_2 (ths : ptr) : M unit :=
  dc_sqlite3_execute__ ths (ALTER_TABLE_ADD_COLUMN "contacts" (text_ "authname"));;
  mret tt.

Definition rung_7 (ths : ptr) : M unit :=
  dc_sqlite3_execute__ ths
    (CREATE_TABLE "keypairs"
       [pk "id"; text_nocase "addr"; int_ "is_default" 0; bare "private_key";
        bare "public_key"; int_ "created" 0]);;
  mret tt.

Definition rung_10 (ths : ptr) : M unit :=
  dc_sqlite3_execute__ ths
    (CREATE_TABLE "acpeerstates"
       [pk "id"; text_nocase "addr"; int_ "last_seen" 0; int_ "last_seen_autocrypt" 0;
        bare "public_key"; int_ "prefer_encrypted" 0]);;
  dc_sqlite3_execute__ ths (CREATE_INDEX "acpeerstates_index1" "acpeerstates" "addr" false);;
  mret tt.

Definition rung_12 (ths : ptr) : M unit :=
  dc_sqlite3_execute__ ths
    (CREATE_TABLE "msgs_mdns" [int_nodef "msg_id"; int_nodef "contact_id"]);;
  dc_sqlite3_execute__ ths (CREATE_INDEX "msgs_mdns_index1" "msgs_mdns" "msg_id" false);;
  mret tt.

Definition rung_17 (ths : ptr) : M unit :=
  dc_sqlite3_execute__ ths (ALTER_TABLE_ADD_COLUMN "chats" (int_ "archived" 0));;
  dc_sqlite3_execute__ ths (CREATE_INDEX "chats_index2" "chats" "archived" false);;
  dc_sqlite3_execute__ ths (ALTER_TABLE_ADD_COLUMN "msgs" (int_ "starred" 0));;
  dc_sqlite3_execute__ ths (CREATE_INDEX "msgs_index5" "msgs" "starred" false);;
  mret tt.

Definition rung_18 (ths : ptr) : M unit :=
  dc_sqlite3_execute__ ths (ALTER_TABLE_ADD_COLUMN "acpeerstates" (int_ "gossip_timestamp" 0));;
  dc_sqlite3_execute__ ths (ALTER_TABLE_ADD_COLUMN "acpeerstates" (bare "gossip_key"));;
  mret tt.

Definition rung_27 (ths : ptr) : M unit :=
  dc_sqlite3_execute__ ths
    (DELETE_FROM "msgs" (COr (CEq "chat_id" (EInt 1)) (CEq "chat_id" (EInt 2))));;
  dc_sqlite3_execute__ ths
    (CREATE_INDEX "chats_contacts_index2" "chats_contacts" "contact_id" false);;
  dc_sqlite3_execute__ ths (ALTER_TABLE_ADD_COLUMN "msgs" (int_ "timestamp_sent" 0));;
  dc_sqlite3_execute__ ths (ALTER_TABLE_ADD_COLUMN "msgs" (int_ "timestamp_rcvd" 0));;
  mret tt.

Definition rung_34 (ths : ptr) : M unit :=
  dc_sqlite3_execute__ ths (ALTER_TABLE_ADD_COLUMN "msgs" (int_ "hidden" 0));;
  dc_sqlite3_execute__ ths (ALTER_TABLE_ADD_COLUMN "msgs_mdns" (int_ "timestamp_sent" 0));;
  dc_sqlite3_execute__ ths
    (ALTER_TABLE_ADD_COLUMN "acpeerstates" (text_ "public_key_fingerprint"));;
  dc_sqlite3_execute__ ths
    (ALTER_TABLE_ADD_COLUMN "acpeerstates" (text_ "gossip_key_fingerprint"));;
  dc_sqlite3_execute__ ths
    (CREATE_INDEX "acpeerstates_index3" "acpeerstates" "public_key_fingerprint" false);;
  dc_sqlite3_execute__ ths
    (CREATE_INDEX "acpeerstates_index4" "acpeerstates" "gossip_key_fingerprint" false);;
  mret tt.

Definition rung_39 (ths : ptr) (dbversion_before_update : Z) : M unit :=
  dc_sqlite3_execute__ ths
    (CREATE_TABLE "tokens"
       [pk "id"; int_ "namespc" 0; int_ "foreign_id" 0; text_ "token"; int_ "timestamp" 0]);;
  dc_sqlite3_execute__ ths (ALTER_TABLE_ADD_COLUMN "acpeerstates" (bare "verified_key"));;
  dc_sqlite3_execute__ ths
    (ALTER_TABLE_ADD_COLUMN "acpeerstates" (text_ "verified_key_fingerprint"));;
  dc_sqlite3_execute__ ths
    (CREATE_INDEX "acpeerstates_index5" "acpeerstates" "verified_key_fingerprint" false);;
  if dbversion_before_update =? 34 then
    (* migrate database from the use of verified-flags to verified_key,
       _only_ version 34 (0.17.0) has the fields public_key_verified and
       gossip_key_verified *)
    dc_sqlite3_execute__ ths UPDATE_verified_from_gossip;;
    dc_sqlite3_execute__ ths UPDATE_verified_from_public;;
    mret tt
  else mret tt.

Definition rung_40 (ths : ptr) : M unit :=
  dc_sqlite3_execute__ ths (ALTER_TABLE_ADD_COLUMN "jobs" (int_ "thread" 0));;
  mret tt.

(** (2) updates that require high-level objects. *)
Definition open_recalc_fingerprints (ths : ptr) : M unit :=
  stmt ← dc_sqlite3_prepare_v2_ ths (Some (SELECT "addr" "acpeerstates" CTrue));
  n ← row_count "acpeerstates";
  recalc_loop (S n) ths stmt;;
  sqlite3_finalize stmt.

(** (1) update low-level database structure, then (2). [recalc_fingerprints]
    is set by the rung of version 34, that is, when that rung runs. *)
Definition open_update (ths : ptr) (dbversion_before_update : Z) : M unit :=
  let dbversion := dbversion_before_update in
  dbversion ← rung ths dbversion 1 (rung_1 ths);
  dbversion ← rung ths dbversion 2 (rung_2 ths);
  dbversion ← rung ths dbversion 7 (rung_7 ths);
  dbversion ← rung ths dbversion 10 (rung_10 ths);
  dbversion ← rung ths dbversion 12 (rung_12 ths);
  dbversion ← rung ths dbversion 17 (rung_17 ths);
  dbversion ← rung ths dbversion 18 (rung_18 ths);
  dbversion ← rung ths dbversion 27 (rung_27 ths);
  let recalc_fingerprints := dbversion <? 34 in
  dbversion ← rung ths dbversion 34 (rung_34 ths);
  dbversion ← rung ths dbversion 39 (rung_39 ths dbversion_before_update);
  dbversion ← rung ths dbversion 40 (rung_40 ths);
  if recalc_fingerprints then open_recalc_fingerprints ths else mret tt.

(** The branch [if( !(flags&MR_OPEN_READONLY) )]. [false] is [goto cleanup]. *)
Definition open_readwrite (ths : ptr) : M bool :=
  exists_ ← dc_sqlite3_table_exists__ ths "config";
  if exists_ =? 0 then
    ok ← open_init_tables ths;
    if (ok : bool) then open_update ths 0;; mret true else mret false
  else
    dbversion_before_update ← dc_sqlite3_get_config_int__ ths (Some "dbversion") 0;
    open_update ths dbversion_before_update;;
    mret true.

Definition open_cleanup (ths : ptr) : M Z :=
  dc_sqlite3_close__ ths;;
  mret 0.

Definition dc_sqlite3_open__ (ths : ptr) (dbfile : option string) (flags : Z) : M Z :=
  match ths, dbfile with
  | THS, Some dbfile =>
      threadsafe ← sqlite3_threadsafe;
      if threadsafe =? 0 then
        dc_log_error "Sqlite3 compiled thread-unsafe; this is not supported.";;
        open_cleanup ths
      else
        is_open ← dc_sqlite3_is_open ths;
        if negb (is_open =? 0) then
          dc_log_error
            ("Cannot open, database " +:+ dq +:+ "%s" +:+ dq +:+ " already opened.");;
          open_cleanup ths
        else
          rc ← sqlite3_open_v2 dbfile (negb (Z.land flags MR_OPEN_READONLY =? 0));
          if negb (rc =? SQLITE_OK) then
            dc_sqlite3_log_error
              ("Cannot open database " +:+ dq +:+ "%s" +:+ dq +:+ ".");;
            open_cleanup ths
          else
            sqlite3_busy_timeout (10 * 1000);;
            ok ← (if Z.land flags MR_OPEN_READONLY =? 0 then open_readwrite ths
                  else mret true);
            if (ok : bool) then
              dc_log_info ("Opened " +:+ dq +:+ "%s" +:+ dq +:+ " successfully.");;
              mret 1
            else open_cleanup ths
  | _, _ => open_cleanup ths
  end.

End Open.

(** ** What the properties observe *)

(** The statements that reached [sqlite3_step], oldest first. *)
Definition stepped (tr : list event) : list sql :=
  omap (λ e, match e with EvStep q _ _ => Some q | EvPrepare _ _ => None end) tr.

(** The statements handed to [sqlite3_prepare_v2], oldest first. *)
Definition prepared (tr : list event) : list sql :=
  omap (λ e, match e with EvPrepare q _ => Some q | EvStep _ _ _ => None end) tr.

(** The writes to the config table that succeeded: a step of the INSERT or of
    the UPDATE of the config store that returned SQLITE_DONE, as the pair of
    its key and its value. *)
Definition config_write (e : event) : option (string * string) :=
  match e with
  | EvStep q args rc =>
      if rc =? SQLITE_DONE then
        if bool_decide (q = INSERT_INTO_config_kv_STATEMENT) then
          match binding args 1, binding args 2 with
          | VText k, VText v => Some (k, v)
          | _, _ => None
          end
        else if bool_decide (q = UPDATE_config_vk_STATEMENT) then
          match binding args 2, binding args 1 with
          | VText k, VText v => Some (k, v)
          | _, _ => None
          end
        else None
      else None
  | EvPrepare _ _ => None
  end.

Definition config_writes (tr : list event) : list (string * string) :=
  omap config_write tr.

(** The values written under the key [dbversion], oldest first. *)
Definition dbversion_writes (tr : list event) : list string :=
  snd <$> List.filter (λ p, bool_decide (p.1 = "dbversion")) (config_writes tr).

(** The rule of the cache: a slot is empty or holds the compilation of the one
    statement registered under its index. *)
Definition slot_ok (idx : nat) (q : sql) (pd : list (option sqlite3_stmt)) : bool :=
  match pd !! idx with
  | Some (Some st) => bool_decide (st_sql st = q)
  | _ => true
  end.

(** The statements of this file's slots. *)
Definition predefined_statements : list (nat * sql) :=
  [(BEGIN_transaction, BEGIN); (ROLLBACK_transaction, ROLLBACK); (COMMIT_transaction, COMMIT);
   (SELECT_v_FROM_config_k, SELECT_v_FROM_config_k_STATEMENT);
   (INSERT_INTO_config_kv, INSERT_INTO_config_kv_STATEMENT);
   (UPDATE_config_vk, UPDATE_config_vk_STATEMENT);
   (DELETE_FROM_config_k, DELETE_FROM_config_k_STATEMENT)].

Definition cache_ok (pd : list (option sqlite3_stmt)) : bool :=
  forallb (λ p, slot_ok p.1 p.2 pd) predefined_statements.

(** [n] calls in a row. *)
Fixpoint repeat_call (n : nat) (m : M unit) : M unit :=
  match n with
  | O => mret tt
  | S k => m;; repeat_call k m
  end.

Inductive txn_op : Type := OpBegin | OpCommit | OpRollback.

Definition run_op (o : txn_op) : M unit :=
  match o with
  | OpBegin => dc_sqlite3_begin_transaction__ THS
  | OpCommit => dc_sqlite3_commit__ THS
  | OpRollback => dc_sqlite3_rollback__ THS
  end.

Fixpoint run_ops (ops : list txn_op) : M unit :=
  match ops with
  | [] => mret tt
  | o :: rest => run_op o;; run_ops rest
  end.

Definition with_count (n : Z) (w : world) : world :=
  set_store (set_transactionCount n (store w)) w.

(** A cached statement run once, as begin, commit and rollback do. *)
Definition run_cached (idx : nat) (q : sql) (msg : string) : M unit :=
  stmt ← dc_sqlite3_predefine__ THS idx (Some q);
  '(rc, _) ← sqlite3_step stmt;
  if negb (rc =? SQLITE_DONE) then dc_sqlite3_log_error msg else mret tt.


(** ** The store, read as data *)

(** A statement run on the data of a connection that may write. *)
Definition run_sql (args : bindings) (db : database) (q : sql) : database :=
  if sql_valid db q then default db (sql_exec args db q) else db.

(** The connection of the store: read-only or not, and the database it sees. *)
Definition view (ro : bool) (db : database) (w : world) : Prop :=
  ∃ c, m_cobj (store w) = Some c ∧ c_readonly c = ro ∧ c_data c = db.

Definition table_exists_db (db : database) (name : string) : Z :=
  match db_tables db !! name with
  | Some tb => match t_cols tb with [] => 0 | _ => 1 end
  | None => 0
  end.

Definition config_rows (db : database) (key : string) : list value :=
  select_rows [(1%nat, key)] db "value" "config" (CEq "keyname" (EParam 1)).

(** The stored string of a key: the value of its first row (none when the
    key has no row, or the row holds NULL). *)
Definition config_get (db : database) (key : string) : option string :=
  if sql_valid db SELECT_v_FROM_config_k_STATEMENT then
    match config_rows db key with v :: _ => value_text v | [] => None end
  else None.

Definition config_set (db : database) (key value : string) : database :=
  match config_rows db key with
  | [] => run_sql [(2%nat, value); (1%nat, key)] db INSERT_INTO_config_kv_STATEMENT
  | _ => run_sql [(2%nat, key); (1%nat, value)] db UPDATE_config_vk_STATEMENT
  end.

Definition config_del (db : database) (key : string) : database :=
  run_sql [(1%nat, key)] db DELETE_FROM_config_k_STATEMENT.

(** The config table can take the statements of the config store: it has the
    columns [keyname] and [value], and neither is the rowid. *)
Definition config_ok (db : database) : bool :=
  match db_tables db !! "config" with
  | Some t => has_col t "keyname" && has_col t "value"
              && bool_decide (pk_of t ≠ Some "keyname")
              && bool_decide (pk_of t ≠ Some "value")
  | None => false
  end.

Definition key_matches (key : string) (r : gmap string value) : bool :=
  value_eqb (default VNull (r !! "keyname")) (VText key).

(** The store is open and its cache obeys the rule. *)
Definition store_open (w : world) : bool :=
  match m_cobj (store w) with
  | Some _ => cache_ok (m_pd (store w))
  | None => false
  end.

(** The store is open for writing on a database with a config table, and its
    cache obeys the rule: what a successful read-write open leaves. *)
Definition store_writable (w : world) : bool :=
  match m_cobj (store w) with
  | Some c => negb (c_readonly c) && config_ok (c_data c) && cache_ok (m_pd (store w))
  | None => false
  end.

(** The string stored under a key, as the connection of the store sees it. *)
Definition stored (w : world) (key : string) : option string :=
  match m_cobj (store w) with
  | Some c => config_get (c_data c) key
  | None => None
  end.

Definition starts_with_digit (s : string) : bool :=
  match s with String c _ => isdigit c | EmptyString => false end.

(** No digit after the white space and the optional sign. *)
Definition no_leading_integer (s : string) : bool :=
  match skip_space s with
  | String c s' =>
      if Ascii.eqb c "-" || Ascii.eqb c "+" then negb (starts_with_digit s')
      else negb (isdigit c)
  | EmptyString => true
  end.

(** The statement leaves the table [config] as it is. *)
Definition keeps_config (q : sql) : bool :=
  match q with
  | CREATE_TABLE t _ | ALTER_TABLE_ADD_COLUMN t _ | INSERT_INTO t _ _
  | DELETE_FROM t _ | UPDATE t _ _ => negb (String.eqb t "config")
  | ROLLBACK => false
  | _ => true
  end.

(** The store during a read-write open: it writes to [db], its cache obeys
    the rule, and since the trace [tr0] the values written under [dbversion]
    are [L]. *)
Definition opening (db : database) (L : list string) (tr0 : list event) (w : world) : Prop :=
  view false db w
  ∧ cache_ok (m_pd (store w)) = true
  ∧ ∃ evs, trace w = tr0 ++ evs ∧ dbversion_writes evs = L.

(** The same, for a database known by its config table alone: the table can be
    written, and [sv] is the string stored under [dbversion]. *)
Definition migrating (sv : option string) (L : list string) (tr0 : list event)
    (w : world) : Prop :=
  ∃ db, opening db L tr0 w ∧ config_ok db = true ∧ config_get db "dbversion" = sv.

(** The config table, where there is one, can take the statements of the
    config store. *)
Definition schema_ok (db : database) : bool :=
  (table_exists_db db "config" =? 0) || config_ok db.

(** The condition of the check after the creation of the tables, on the
    database. *)
Definition tables_missing_db (db : database) : bool :=
  (table_exists_db db "config" =? 0) || (table_exists_db db "contacts" =? 0)
  || (table_exists_db db "chats" =? 0) || (table_exists_db db "chats_contacts" =? 0)
  || (table_exists_db db "msgs" =? 0) || (table_exists_db db "jobs" =? 0).

(** The store while the tables of a new database are created. *)
Definition bootstrapping (tr0 : list event) (w : world) : Prop :=
  ∃ db, opening db [] tr0 w ∧ schema_ok db = true.

(** Neither of the two statements that copy a verified key. *)
Definition not_copy (q : sql) : bool :=
  negb (bool_decide (q = UPDATE_verified_from_gossip))
  && negb (bool_decide (q = UPDATE_verified_from_public)).

(** [emits allowed m]: on an open store [m] keeps the store open and hands to
    [sqlite3_prepare_v2] only statements that [allowed] accepts. *)
Definition allowed_event (allowed : sql → bool) (e : event) : Prop :=
  match e with
  | EvPrepare q _ => allowed q = true
  | EvStep _ _ _ => True
  end.

Definition emits {A} (allowed : sql → bool) (m : M A) : Prop :=
  ∀ w, is_Some (m_cobj (store w)) →
       is_Some (m_cobj (store (m w).2))
       ∧ ∃ evs, trace (m w).2 = trace w ++ evs ∧ Forall (allowed_event allowed) evs.

(** The statements of the config store are among those [allowed] accepts. *)
Definition allows_config (allowed : sql → bool) : Prop :=
  allowed SELECT_v_FROM_config_k_STATEMENT = true
  ∧ allowed INSERT_INTO_config_kv_STATEMENT = true
  ∧ allowed UPDATE_config_vk_STATEMENT = true
  ∧ allowed DELETE_FROM_config_k_STATEMENT = true.

(** The row of a table with a given [id]. *)
Definition row_by_id (db : database) (t : string) (id : Z) : option (gmap string value) :=
  tb ← db_tables db !! t;
  List.find (λ r, bool_decide (r !! "id" = Some (VInt id))) (t_rows tb).

(** The ids of the reserved rows, and the tables that have them. *)
Definition reserved_ids : list Z := [1; 2; 3; 4; 5; 6; 7; 8; 9].

Definition reserved_tables : list string := ["contacts"; "chats"; "msgs"].

Definition column_of (db : database) (t : string) (id : Z) (c : string) : option value :=
  r ← row_by_id db t id; r !! c.

(** Every reserved id has its row in each of the three tables; the contact 1
    is [self], and the reserved contacts have the origin 262144. *)
Definition reserved_seeded (db : database) : bool :=
  forallb (λ t, forallb (λ id, bool_decide (is_Some (row_by_id db t id))) reserved_ids)
          reserved_tables
  && bool_decide (column_of db "contacts" 1 "name" = Some (VText "self"))
  && forallb (λ id, bool_decide (column_of db "contacts" id "origin" = Some (VInt 262144)))
             reserved_ids.

(** The primary key of a table of the database. *)
Definition pk_of_table (db : database) (t : string) : option string :=
  tb ← db_tables db !! t; pk_of tb.

(** The ids of the rows of a table, in the order of the rows. *)
Definition ids_of (db : database) (t : string) : list Z :=
  match db_tables db !! t with
  | Some tb => rowid_of "id" <$> t_rows tb
  | None => []
  end.

(** What a new database holds after a read-write open: the reserved rows and
    no others in the three tables, each with [id] as its rowid, and the latest
    version. *)
Definition fresh_ok (db : database) : bool :=
  reserved_seeded db
  && forallb (λ t, bool_decide (ids_of db t = reserved_ids)
                   && bool_decide (pk_of_table db t = Some "id")) reserved_tables
  && bool_decide (config_get db "dbversion" = Some "40").

(** The targets of the ladder. *)
Definition ladder_targets : list Z := [1; 2; 7; 10; 12; 17; 18; 27; 34; 39; 40].

(** What a rung does to the version in hand, the stored version and the list
    of the versions written. *)
Definition rung_state (target : Z) (s : Z * option string * list string)
    : Z * option string * list string :=
  if s.1.1 <? target then (target, Some (decimal target), s.2 ++ [decimal target]) else s.

(** The version a read-write open starts the ladder from: 0 after a
    bootstrap, else what the config store holds under [dbversion]. *)
Definition dbversion_at_open (db : database) : Z :=
  if table_exists_db db "config" =? 0 then 0
  else match config_get db "dbversion" with
       | Some s => to_int32 (atol s)
       | None => 0
       end.

(** The database a path holds for an open that may create it. *)
Definition database_at (w : world) (dbfile : string) : option database :=
  match files w !! dbfile with
  | Some (DbFile db) => Some db
  | Some Unopenable => None
  | None => Some empty_db
  end.

(** ** The connection and its file *)

#[export] Instance file_eq_dec : EqDecision file.
Proof. solve_decision. Defined.

(** A transaction is open on the connection of the store. *)
Definition in_transaction (w : world) : bool :=
  match m_cobj (store w) with Some c => c_intxn c | None => false end.

(** The database the connection of the store sees. *)
Definition seen (w : world) : option database := c_data <$> m_cobj (store w).

(** The database in the file of the connection. *)
Definition disk (w : world) : option database :=
  match m_cobj (store w) with
  | Some c => match files w !! c_path c with Some (DbFile db) => Some db | _ => None end
  | None => None
  end.

(** The string the file of the connection holds under a key. *)
Definition on_disk (w : world) (key : string) : option string :=
  db ← disk w; config_get db key.

(** The file holds what the connection sees. *)
Definition synced (w : world) : bool :=
  match seen w with
  | Some db => bool_decide (disk w = Some db)
  | None => false
  end.

(** The path of the file of the connection. *)
Definition store_path (w : world) : option string := c_path <$> m_cobj (store w).

(** The connection of the store is read-only. *)
Definition read_only (w : world) : bool :=
  match m_cobj (store w) with Some c => c_readonly c | None => false end.

(** The engine would compile the statement on the connection of the store. *)
Definition compiles (w : world) (q : sql) : bool :=
  match m_cobj (store w) with Some c => sql_valid (c_data c) q | None => false end.

(** The slot of the cache is there and holds nothing. *)
Definition slot_empty (w : world) (idx : nat) : bool :=
  match m_pd (store w) !! idx with Some None => true | _ => false end.

(** The statements that begin and end a transaction. *)
Definition is_txn_sql (q : sql) : bool :=
  match q with BEGIN | ROLLBACK | COMMIT => true | _ => false end.

(** [tied p b F dbf w]: the store is open for writing on the file [p], in a
    transaction or not ([b]), and its cache obeys the rule; the files are
    those of [F] but for [p], which holds [dbf] while a transaction is open
    and what the connection sees otherwise. *)
Definition tied (p : string) (b : bool) (F : gmap string file) (dbf : database)
    (w : world) : Prop :=
  ∃ c dbf', m_cobj (store w) = Some c ∧ c_path c = p ∧ c_readonly c = false
            ∧ c_intxn c = b
            ∧ files w = <[p := DbFile dbf']> F
            ∧ (b = true → dbf' = dbf) ∧ (b = false → dbf' = c_data c)
            ∧ cache_ok (m_pd (store w)) = true.

(** [frozen F db w]: the store is open read-only on a file that holds [db],
    the connection sees [db], and the files are [F]. *)
Definition frozen (F : gmap string file) (db : database) (w : world) : Prop :=
  ∃ c, m_cobj (store w) = Some c ∧ c_readonly c = true ∧ c_data c = db
       ∧ files w = F ∧ F !! c_path c = Some (DbFile db).

(** ** Worlds to run the store in

    A store made by [dc_sqlite3_new] in a world without files, then opened on
    a new file, closed, opened again read-only; a file left at the version
    34; a store that holds a text under a key. The fingerprint of a key is
    taken to be the key itself. *)

Definition key_itself : value → value := λ v, v.

Definition blank_world : world := World (Handle None [] 0) ∅ 1 [] [].

Definition new_world : world := (dc_sqlite3_new blank_world).2.

Definition opened_world : world :=
  (dc_sqlite3_open__ key_itself THS (Some "x.db") 0 new_world).2.

Definition closed_world : world := (dc_sqlite3_close__ THS opened_world).2.

Definition readonly_world : world :=
  (dc_sqlite3_open__ key_itself THS (Some "x.db") MR_OPEN_READONLY closed_world).2.

Definition world_at_34 : world :=
  (dc_sqlite3_close__ THS
     (dc_sqlite3_set_config_int__ THS (Some "dbversion") 34 opened_world).2).2.

Definition text_world : world :=
  (dc_sqlite3_set_config__ THS (Some "k") (Some "abc") opened_world).2.

(** The database of a new file after its first read-write open, and the
    tables it is to have. *)
Definition fresh_database : database := default empty_db (seen opened_world).

Definition fresh_tables : list string :=
  ["config"; "contacts"; "chats"; "chats_contacts"; "msgs"; "jobs"; "leftgrps"; "keypairs";
   "acpeerstates"; "msgs_mdns"; "tokens"].

(** ** The state monad *)

(** [hoare P m Q]: from a world in [P], [m] returns a value and a world in [Q]. *)
Definition hoare {A} (P : world → Prop) (m : M A) (Q : A → world → Prop) : Prop :=
  ∀ w, P w → Q (m w).1 (m w).2.

Definition preserves {A} (I : world → Prop) (m : M A) : Prop :=
  hoare I m (λ _, I).

Lemma bind_run {A B} (m : M A) (f : A → M B) (w : world) :
  (m ≫= f) w = f (m w).1 (m w).2.
Proof. unfold mbind, M_bind. by destruct (m w). Qed.

Lemma ret_run {A} (a : A) (w : world) : mret (M := M) a w = (a, w).
Proof. reflexivity. Qed.

Lemma hoare_bind {A B} (P : world → Prop) (Q : A → world → Prop) (R : B → world → Prop)
    (m : M A) (f : A → M B) :
  hoare P m Q → (∀ a, hoare (Q a) (f a) R) → hoare P (m ≫= f) R.
Proof. intros Hm Hf w HP. rewrite bind_run. apply Hf, Hm, HP. Qed.

Lemma hoare_ret {A} (P : world → Prop) (Q : A → world → Prop) (a : A) :
  (∀ w, P w → Q a w) → hoare P (mret a) Q.
Proof. intros H w HP. apply H, HP. Qed.

Lemma hoare_weaken {A} (P P' : world → Prop) (Q Q' : A → world → Prop) (m : M A) :
  hoare P' m Q' → (∀ w, P w → P' w) → (∀ a w, Q' a w → Q a w) → hoare P m Q.
Proof. intros Hm HP HQ w Hw. apply HQ, Hm, HP, Hw. Qed.

Lemma preserves_bind {A B} (I : world → Prop) (m : M A) (f : A → M B) :
  preserves I m → (∀ a, preserves I (f a)) → preserves I (m ≫= f).
Proof. intros Hm Hf. eapply hoare_bind; [exact Hm | exact Hf]. Qed.

Lemma preserves_ret {A} (I : world → Prop) (a : A) : preserves I (mret a).
Proof. by apply hoare_ret. Qed.

Lemma preserves_if {A} (I : world → Prop) (b : bool) (m1 m2 : M A) :
  preserves I m1 → preserves I m2 → preserves I (if b then m1 else m2).
Proof. by destruct b. Qed.

(** ** The engine, statement by statement *)

Ltac in_list := by repeat first [apply list_elem_of_here | apply list_elem_of_further].

Ltac run := repeat (rewrite bind_run || rewrite ret_run).

Lemma step_eq st w c :
  m_cobj (store w) = Some c →
  sqlite3_step (Some st) w =
    let '(rc, st', c', f') := engine_step c (files w) st in
    ((rc, Some st'),
     add_event (EvStep (st_sql st) (st_args st) rc)
       (set_files f' (set_store (set_cobj (Some c') (store w)) w))).
Proof. intros H. unfold sqlite3_step. by rewrite H. Qed.

Lemma engine_step_data c f st rc st' c' f' :
  engine_step c f st = (rc, st', c', f') →
  c_readonly c' = c_readonly c ∧ c_path c' = c_path c ∧
  (st_sql st ≠ ROLLBACK →
   c_data c' = if c_readonly c then c_data c else run_sql (st_args st) (c_data c) (st_sql st)).
Proof.
  unfold engine_step, run_sql. intros H.
  destruct (sql_valid (c_data c) (st_sql st)) eqn:Hv; simpl in H.
  2:{ simplify_eq/=. by destruct (c_readonly c). }
  destruct (st_sql st) eqn:Hq; simpl in *;
    repeat (case_match; simplify_eq/=); repeat split; try done;
    intros _; by destruct (c_readonly c).
Qed.

Lemma engine_step_write c f st :
  sql_writes (st_sql st) = true →
  (engine_step c f st).1.1.1 =
    if negb (sql_valid (c_data c) (st_sql st)) then SQLITE_ERROR
    else if c_readonly c then SQLITE_READONLY
    else match sql_exec (st_args st) (c_data c) (st_sql st) with
         | Some _ => SQLITE_DONE
         | None => SQLITE_CONSTRAINT
         end.
Proof.
  intros Hq. unfold engine_step.
  destruct (negb (sql_valid (c_data c) (st_sql st))); [done|].
  destruct (st_sql st) eqn:E; try discriminate Hq; cbv beta iota zeta;
    destruct (c_readonly c); try done; by destruct (sql_exec _ _ _).
Qed.

Lemma view_open ro db w : view ro db w → is_Some (m_cobj (store w)).
Proof. intros (c & -> & _). eauto. Qed.

Lemma prepare_eq q w c :
  m_cobj (store w) = Some c →
  dc_sqlite3_prepare_v2_ THS (Some q) w =
    if sql_valid (c_data c) q then
      (Some (Stmt q [] None None), add_event (EvPrepare q SQLITE_OK) w)
    else
      (None,
       add_log (Error ("Query failed: %s" +:+ " SQLite says: " +:+ sqlite3_errstr SQLITE_ERROR))
         (add_event (EvPrepare q SQLITE_ERROR)
            (set_store (set_cobj (Some (set_errmsg SQLITE_ERROR c)) (store w)) w))).
Proof.
  intros H. unfold dc_sqlite3_prepare_v2_, sqlite3_prepare_v2. rewrite H.
  by destruct (sql_valid _ _).
Qed.

Lemma execute_spec ro db q w :
  view ro db w → sql_writes q = true →
  view ro (if ro then db else run_sql [] db q) (dc_sqlite3_execute__ THS q w).2
  ∧ m_pd (store (dc_sqlite3_execute__ THS q w).2) = m_pd (store w)
  ∧ (dc_sqlite3_execute__ THS q w).1 =
      (if sql_valid db q && negb ro && bool_decide (is_Some (sql_exec [] db q)) then 1 else 0)
  ∧ ∃ evs, trace (dc_sqlite3_execute__ THS q w).2 = trace w ++ evs
           ∧ prepared evs = [q] ∧ Forall (λ e, ev_sql e = q) evs.
Proof.
  intros (c & Hc & Hro & Hdb) Hq. unfold dc_sqlite3_execute__. run.
  rewrite (prepare_eq _ _ _ Hc). rewrite Hdb.
  destruct w as [[co pd n] f ts tr lg]. simpl in Hc. subst co.
  destruct (sql_valid db q) eqn:Hv; simpl.
  2:{ split_and!; try done.
      - exists (set_errmsg SQLITE_ERROR c). unfold run_sql. rewrite Hv. by destruct ro.
      - exists [EvPrepare q SQLITE_ERROR]. split_and!; [done | done |]. by repeat constructor. }
  run. unfold sqlite3_step. simpl.
  pose proof (engine_step_write c f (Stmt q [] None None) Hq) as Hrc.
  destruct (engine_step c f (Stmt q [] None None)) as [[[rc st'] c'] f'] eqn:E.
  pose proof (engine_step_data _ _ _ _ _ _ _ E) as (Hro' & _ & Hd). simpl in Hd, Hrc.
  assert (q ≠ ROLLBACK) as Hne by (by intros ->).
  specialize (Hd Hne). rewrite Hdb, Hv, Hro in Hrc. simpl in Hrc.
  assert (Hev : ∃ evs, (tr ++ [EvPrepare q SQLITE_OK]) ++ [EvStep q [] rc] = tr ++ evs
           ∧ prepared evs = [q] ∧ Forall (λ e, ev_sql e = q) evs).
  { exists [EvPrepare q SQLITE_OK; EvStep q [] rc]. rewrite <- (assoc_L (++)).
    split_and!; [done | done |]. by repeat constructor. }
  assert (Hc' : c_readonly c' = ro ∧ c_data c' = if ro then db else run_sql [] db q).
  { rewrite Hro', Hd, Hro, Hdb. by destruct ro. }
  simpl. subst rc.
  destruct ro; simpl; run; simpl.
  { split_and!; try done. by exists c'. }
  destruct (sql_exec [] db q) eqn:Hx; simpl; run; simpl.
  - split_and!; try done. by exists c'.
  - split_and!; try done. by exists c'.
Qed.

Lemma table_exists_spec ro db name w :
  view ro db w →
  (dc_sqlite3_table_exists__ THS name w).1 = table_exists_db db name
  ∧ view ro db (dc_sqlite3_table_exists__ THS name w).2
  ∧ m_pd (store (dc_sqlite3_table_exists__ THS name w).2) = m_pd (store w)
  ∧ ∃ evs, trace (dc_sqlite3_table_exists__ THS name w).2 = trace w ++ evs
           ∧ prepared evs = [PRAGMA_table_info name]
           ∧ Forall (λ e, ev_sql e = PRAGMA_table_info name) evs.
Proof.
  intros (c & Hc & Hro & Hdb). unfold dc_sqlite3_table_exists__. run.
  rewrite (prepare_eq _ _ _ Hc).
  destruct w as [[co pd n] f ts tr lg]. simpl in Hc. subst co. simpl.
  run. unfold sqlite3_step, engine_step, cursor_step, table_exists_db. simpl.
  rewrite Hdb.
  assert (Hev : ∃ evs, ∀ rc,
    (tr ++ [EvPrepare (PRAGMA_table_info name) SQLITE_OK]) ++ [EvStep (PRAGMA_table_info name) [] rc]
      = tr ++ evs rc
    ∧ prepared (evs rc) = [PRAGMA_table_info name]
    ∧ Forall (λ e, ev_sql e = PRAGMA_table_info name) (evs rc)).
  { exists (λ rc, [EvPrepare (PRAGMA_table_info name) SQLITE_OK; EvStep (PRAGMA_table_info name) [] rc]).
    intros rc. rewrite <- (assoc_L (++)). split_and!; [done | done |]. by repeat constructor. }
  destruct Hev as [evs Hev].
  destruct (db_tables db !! name) as [tb|]; simpl.
  - destruct (t_cols tb); simpl; (split_and!; [done | by exists c | done |]);
      eexists; apply Hev.
  - split_and!; [done | by exists c | done |]. eexists; apply Hev.
Qed.

Lemma slot_ok_insert j q' idx q pd :
  slot_ok j q' pd = true → (j = idx → q' = q) →
  slot_ok j q' (<[idx := Some (Stmt q [] None None)]> pd) = true.
Proof.
  unfold slot_ok. intros H Hq. destruct (decide (j = idx)) as [->|Hne].
  - destruct (decide (idx < length pd)%nat).
    + rewrite list_lookup_insert_eq by done. simpl. rewrite Hq by done.
      by apply bool_decide_eq_true_2.
    + rewrite list_insert_ge by lia. done.
  - rewrite list_lookup_insert_ne by done. done.
Qed.

(** What [dc_sqlite3_predefine__] does on an open store whose slot obeys the
    rule of the cache. *)
Lemma predefine_spec ro db idx q w :
  view ro db w → slot_ok idx q (m_pd (store w)) = true → (idx < PREDEFINED_CNT)%nat →
  let r := dc_sqlite3_predefine__ THS idx (Some q) w in
  view ro db r.2
  ∧ (sql_valid db q = true → r.1 = Some (Stmt q [] None None))
  ∧ (r.1 = None ∨ r.1 = Some (Stmt q [] None None))
  ∧ (∀ j q', slot_ok j q' (m_pd (store w)) = true → (j = idx → q' = q) →
             slot_ok j q' (m_pd (store r.2)) = true)
  ∧ m_transactionCount (store r.2) = m_transactionCount (store w)
  ∧ files r.2 = files w
  ∧ ∃ evs, trace r.2 = trace w ++ evs ∧ stepped evs = [] ∧ Forall (λ e, ev_sql e = q) evs.
Proof.
  intros (c & Hc & Hro & Hdb) Hslot Hidx r. subst r.
  destruct w as [[co pd n] f ts tr lg]. simpl in Hc, Hslot. subst co.
  assert (Hle : (PREDEFINED_CNT <=? idx)%nat = false) by (apply Nat.leb_gt; lia).
  unfold dc_sqlite3_predefine__, sqlite3_prepare_v2. cbn -[Nat.leb PREDEFINED_CNT].
  rewrite Hle.
  unfold slot_ok in Hslot.
  assert (Hnil : ∃ evs : list event, tr = tr ++ evs ∧ stepped evs = [] ∧ Forall (λ e, ev_sql e = q) evs).
  { exists []. by rewrite (right_id_L [] (++)). }
  assert (Hone : ∀ rc, ∃ evs : list event, tr ++ [EvPrepare q rc] = tr ++ evs ∧ stepped evs = []
                         ∧ Forall (λ e, ev_sql e = q) evs).
  { intros rc. exists [EvPrepare q rc]. split_and!; [done | done|]. by repeat constructor. }
  destruct (pd !! idx) as [[st|]|] eqn:Hl; simpl.
  - apply bool_decide_eq_true_1 in Hslot. unfold sqlite3_reset. rewrite Hslot.
    split_and!; try done; eauto. by exists c.
  - rewrite Hdb. destruct (sql_valid db q); simpl.
    + split_and!; try done; eauto. * by exists c. * intros j q' H1 H2. by apply slot_ok_insert.
    + split_and!; try done; eauto. by exists (set_errmsg SQLITE_ERROR c).
  - rewrite Hdb. destruct (sql_valid db q); simpl.
    + split_and!; try done; eauto. * by exists c. * intros j q' H1 H2. by apply slot_ok_insert.
    + split_and!; try done; eauto. by exists (set_errmsg SQLITE_ERROR c).
Qed.

Lemma step_select ro db col t cond args w :
  view ro db w →
  let q := SELECT col t cond in
  let r := sqlite3_step (Some (Stmt q args None None)) w in
  view ro db r.2
  ∧ m_pd (store r.2) = m_pd (store w)
  ∧ m_transactionCount (store r.2) = m_transactionCount (store w)
  ∧ files r.2 = files w
  ∧ trace r.2 = trace w ++ [EvStep q args r.1.1]
  ∧ (r.1.1, sqlite3_column_text r.1.2) =
      if sql_valid db q then
        match select_rows args db col t cond with
        | [] => (SQLITE_DONE, None)
        | v :: _ => (SQLITE_ROW, value_text v)
        end
      else (SQLITE_ERROR, None).
Proof.
  intros (c & Hc & Hro & Hdb) q r. subst q r.
  destruct w as [[co pd n] f ts tr lg]. simpl in Hc. subst co.
  unfold sqlite3_step, engine_step, cursor_step. cbn -[sql_valid select_rows].
  rewrite Hdb. destruct (sql_valid db _); cbn -[select_rows].
  - destruct (select_rows args db col t cond); cbn; split_and!; try done; by exists c.
  - split_and!; try done. by exists (set_errmsg SQLITE_ERROR c).
Qed.

Lemma step_write ro db q args w :
  view ro db w → sql_writes q = true →
  let r := sqlite3_step (Some (Stmt q args None None)) w in
  view ro (if ro then db else run_sql args db q) r.2
  ∧ m_pd (store r.2) = m_pd (store w)
  ∧ m_transactionCount (store r.2) = m_transactionCount (store w)
  ∧ trace r.2 = trace w ++ [EvStep q args r.1.1]
  ∧ r.1.1 = if negb (sql_valid db q) then SQLITE_ERROR
            else if ro then SQLITE_READONLY
            else match sql_exec args db q with
                 | Some _ => SQLITE_DONE
                 | None => SQLITE_CONSTRAINT
                 end.
Proof.
  intros (c & Hc & Hro & Hdb) Hq r. subst r.
  destruct w as [[co pd n] f ts tr lg]. simpl in Hc. subst co.
  unfold sqlite3_step. cbn -[engine_step].
  pose proof (engine_step_write c f (Stmt q args None None) Hq) as Hrc.
  destruct (engine_step c f (Stmt q args None None)) as [[[rc st'] c'] f'] eqn:E.
  pose proof (engine_step_data _ _ _ _ _ _ _ E) as (Hro' & _ & Hd).
  assert (q ≠ ROLLBACK) as Hne by (by intros ->).
  specialize (Hd Hne). cbn in Hd, Hrc. rewrite Hdb, Hro in Hrc, Hd. cbn.
  split_and!; try done. exists c'. by rewrite Hro', Hro.
Qed.

Lemma is_open_view ro db w : view ro db w → dc_sqlite3_is_open THS w = (1, w).
Proof. intros (c & Hc & _). unfold dc_sqlite3_is_open. by rewrite Hc. Qed.

Lemma get_config_spec ro db key def w :
  view ro db w →
  slot_ok SELECT_v_FROM_config_k SELECT_v_FROM_config_k_STATEMENT (m_pd (store w)) = true →
  let r := dc_sqlite3_get_config__ THS (Some key) def w in
  r.1 = match config_get db key with Some s => Some s | None => def end
  ∧ view ro db r.2
  ∧ (∀ j q', slot_ok j q' (m_pd (store w)) = true →
             (j = SELECT_v_FROM_config_k → q' = SELECT_v_FROM_config_k_STATEMENT) →
             slot_ok j q' (m_pd (store r.2)) = true)
  ∧ m_transactionCount (store r.2) = m_transactionCount (store w)
  ∧ files r.2 = files w
  ∧ ∃ evs, trace r.2 = trace w ++ evs
           ∧ Forall (λ e, ev_sql e = SELECT_v_FROM_config_k_STATEMENT) evs
           ∧ (∀ q a rc, EvStep q a rc ∈ evs → a = [(1%nat, key)]).
Proof.
  intros Hv Hslot r. subst r. unfold dc_sqlite3_get_config__. run.
  rewrite (is_open_view _ _ _ Hv). cbn [fst snd]. change (1 =? 0) with false. cbv iota. run.
  pose proof (predefine_spec _ _ _ _ _ Hv Hslot ltac:(unfold SELECT_v_FROM_config_k, PREDEFINED_CNT; lia))
    as H. cbv zeta in H.
  destruct (dc_sqlite3_predefine__ _ _ _ w) as [o w1]. cbn [fst snd] in H |- *.
  destruct H as (Hv1 & Hval & Ho & Hsl & Hn & Hf & evs1 & Htr1 & Hst1 & Hev1).
  unfold config_get.
  destruct Ho as [-> | ->].
  - destruct (sql_valid db _) eqn:Hvalid; [by specialize (Hval eq_refl)|].
    cbn. split_and!; try done. exists evs1. split_and!; try done.
    intros q a rc Hin. exfalso. clear -Hin Hst1.
    induction evs1 as [|[] evs1 IH]; cbn in *; [by apply elem_of_nil in Hin | |done].
    apply elem_of_cons in Hin as [|]; [done|]. by apply IH.
  - unfold sqlite3_bind_text. cbn [fmap option_fmap option_map st_sql st_args st_rest st_row].
    pose proof (step_select _ _ "value" "config" (CEq "keyname" (EParam 1)) [(1%nat, key)] _ Hv1) as H.
    cbv zeta in H. fold SELECT_v_FROM_config_k_STATEMENT in H.
    destruct (sqlite3_step _ w1) as [[rc st] w2]. cbn [fst snd] in H |- *.
    destruct H as (Hv2 & Hpd & Hn2 & Hf2 & Htr2 & Hres).
    assert (Hevs : ∃ evs, trace w2 = trace w ++ evs
           ∧ Forall (λ e, ev_sql e = SELECT_v_FROM_config_k_STATEMENT) evs
           ∧ (∀ q a rc, EvStep q a rc ∈ evs → a = [(1%nat, key)])).
    { exists (evs1 ++ [EvStep SELECT_v_FROM_config_k_STATEMENT [(1%nat, key)] rc]).
      rewrite Htr2, Htr1, (assoc_L (++)). split_and!; [done | |].
      - apply Forall_app. split; [done|]. by repeat constructor.
      - intros q a rc' Hin. apply elem_of_app in Hin as [Hin|Hin].
        + exfalso. clear -Hin Hst1.
          induction evs1 as [|[] evs1 IH]; cbn in *; [by apply elem_of_nil in Hin | |done].
          apply elem_of_cons in Hin as [|]; [done|]. by apply IH.
        + apply list_elem_of_singleton in Hin. by simplify_eq. }
    assert (Hrest : view ro db w2
      ∧ (∀ j q', slot_ok j q' (m_pd (store w)) = true →
             (j = SELECT_v_FROM_config_k → q' = SELECT_v_FROM_config_k_STATEMENT) →
             slot_ok j q' (m_pd (store w2)) = true)
      ∧ m_transactionCount (store w2) = m_transactionCount (store w)
      ∧ files w2 = files w).
    { rewrite Hpd, Hn2, Hf2. done. }
    destruct Hrest as (? & ? & ? & ?).
    destruct (sql_valid db SELECT_v_FROM_config_k_STATEMENT).
    + unfold config_rows. destruct (select_rows _ _ _ _ _) as [|v vs].
      * simplify_eq. change (SQLITE_DONE =? SQLITE_ROW) with false. cbn. by split_and!.
      * injection Hres as -> Hcol. rewrite Hcol.
        change (SQLITE_ROW =? SQLITE_ROW) with true. cbv iota.
        destruct (value_text v); cbn; by split_and!.
    + simplify_eq. change (SQLITE_ERROR =? SQLITE_ROW) with false. cbn. by split_and!.
Qed.

Lemma cache_ok_slot pd idx q :
  cache_ok pd = true → (idx, q) ∈ predefined_statements → slot_ok idx q pd = true.
Proof.
  unfold cache_ok. rewrite forallb_forall. intros H Hin.
  apply (H (idx, q)). by apply list_elem_of_In.
Qed.

Lemma cache_ok_step pd pd' idx q :
  cache_ok pd = true → (idx, q) ∈ predefined_statements →
  (∀ j q', slot_ok j q' pd = true → (j = idx → q' = q) → slot_ok j q' pd' = true) →
  cache_ok pd' = true.
Proof.
  unfold cache_ok. rewrite !forallb_forall. intros H Hin Hs [j q'] Hj. cbn.
  apply Hs; [by apply (H (j, q'))|].
  intros ->. apply list_elem_of_In in Hj.
  unfold predefined_statements in Hin, Hj.
  repeat (apply elem_of_cons in Hin as [Hin|Hin]; [injection Hin as -> ->|]);
    try (by apply elem_of_nil in Hin);
    repeat (apply elem_of_cons in Hj as [Hj|Hj]; [by simplify_eq|]);
    by apply elem_of_nil in Hj.
Qed.

Lemma config_ok_inv db :
  config_ok db = true →
  ∃ t, db_tables db !! "config" = Some t ∧ has_col t "keyname" = true ∧ has_col t "value" = true
       ∧ pk_of t ≠ Some "keyname" ∧ pk_of t ≠ Some "value".
Proof.
  unfold config_ok. destruct (db_tables db !! "config") as [t|]; [|done].
  rewrite !andb_true_iff, !bool_decide_eq_true. intros [[[? ?] ?] ?]. by exists t.
Qed.

Lemma config_ok_valid db :
  config_ok db = true →
  sql_valid db SELECT_v_FROM_config_k_STATEMENT = true
  ∧ sql_valid db INSERT_INTO_config_kv_STATEMENT = true
  ∧ sql_valid db UPDATE_config_vk_STATEMENT = true
  ∧ sql_valid db DELETE_FROM_config_k_STATEMENT = true.
Proof.
  intros (t & Ht & Hk & Hv & _)%config_ok_inv. cbn. rewrite Ht. cbn. by rewrite Hk, Hv.
Qed.

Lemma config_rows_eq db key t :
  db_tables db !! "config" = Some t →
  config_rows db key = (λ r, default VNull (r !! "value")) <$> List.filter (key_matches key) (t_rows t).
Proof. intros Ht. unfold config_rows, select_rows. by rewrite Ht. Qed.

Lemma key_matches_set_value key v r :
  key_matches key (<["value" := v]> r) = key_matches key r.
Proof. unfold key_matches. by rewrite lookup_insert_ne. Qed.

Lemma filter_update key v rows :
  List.filter (key_matches key)
    ((λ r, if key_matches key r then <["value" := v]> r else r) <$> rows)
  = (λ r, <["value" := v]> r) <$> List.filter (key_matches key) rows.
Proof.
  induction rows as [|r rows IH]; [done|]. cbn.
  destruct (key_matches key r) eqn:E; cbn.
  - rewrite key_matches_set_value, E. cbn. by rewrite IH.
  - by rewrite E.
Qed.

Lemma put_table_lookup db n t : db_tables (put_table db n t) !! n = Some t.
Proof. unfold put_table. cbn. by rewrite lookup_insert_eq. Qed.

Lemma put_table_lookup_ne db n n' t :
  n ≠ n' → db_tables (put_table db n t) !! n' = db_tables db !! n'.
Proof. intros. unfold put_table. cbn. by rewrite lookup_insert_ne. Qed.

Lemma config_ok_put db t t' :
  db_tables db !! "config" = Some t →
  t_cols t' = t_cols t →
  config_ok db = true → config_ok (put_table db "config" t') = true.
Proof.
  intros Ht Hc. unfold config_ok. rewrite put_table_lookup, Ht.
  unfold has_col, col_names, pk_of. by rewrite Hc.
Qed.

(** The INSERT of the upsert, on the table. *)
Lemma config_insert db t key v :
  db_tables db !! "config" = Some t →
  config_ok db = true →
  ∃ r, sql_exec [(2%nat, v); (1%nat, key)] db INSERT_INTO_config_kv_STATEMENT
         = Some (put_table db "config" (Table (t_cols t) (t_rows t ++ [r])))
       ∧ r !! "keyname" = Some (VText key) ∧ r !! "value" = Some (VText v).
Proof.
  intros Ht Hok. apply config_ok_inv in Hok as (t0 & Ht0 & Hk & Hv & Hpk1 & Hpk2).
  rewrite Ht in Ht0. injection Ht0 as <-. cbn. rewrite Ht. cbn. unfold insert_row. cbn.
  destruct (pk_of t) as [k0|] eqn:Hpk; cbn.
  - assert (k0 ≠ "keyname") by congruence. assert (k0 ≠ "value") by congruence.
    rewrite bool_decide_eq_false_2.
    2:{ rewrite !elem_of_cons, elem_of_nil. by intros [|[|]]. }
    cbn. eexists. split; [done|]. by rewrite !lookup_insert_ne, lookup_insert_eq, lookup_insert_ne, lookup_insert_eq by done.
  - eexists. split; [done|]. by rewrite lookup_insert_eq, lookup_insert_ne, lookup_insert_eq.
Qed.

Lemma config_set_spec db key v :
  config_ok db = true →
  config_get (config_set db key v) key = Some v
  ∧ config_ok (config_set db key v) = true
  ∧ (∀ n, n ≠ "config" → db_tables (config_set db key v) !! n = db_tables db !! n)
  ∧ db_indexes (config_set db key v) = db_indexes db.
Proof.
  intros Hok. pose proof (config_ok_valid _ Hok) as (Hs & Hi & Hu & _).
  pose proof (config_ok_inv _ Hok) as (t & Ht & _).
  unfold config_set. rewrite (config_rows_eq _ _ _ Ht).
  destruct (List.filter (key_matches key) (t_rows t)) as [|r0 rs] eqn:Hf; cbn [fmap list_fmap].
  - destruct (config_insert db t key v Ht Hok) as (r & Hx & Hrk & Hrv).
    unfold run_sql. rewrite Hi, Hx. cbn [from_option id].
    assert (Hok' : config_ok (put_table db "config" (Table (t_cols t) (t_rows t ++ [r]))) = true)
      by (by eapply config_ok_put).
    split_and!; [| done | intros; by apply put_table_lookup_ne | done].
    unfold config_get. rewrite (proj1 (config_ok_valid _ Hok')).
    erewrite config_rows_eq by apply put_table_lookup. cbn.
    rewrite List.filter_app, Hf. cbn. unfold key_matches at 1. rewrite Hrk. cbn.
    rewrite bool_decide_eq_true_2 by done. cbn. by rewrite Hrv.
  - unfold run_sql. rewrite Hu. cbn. rewrite Ht. cbn.
    assert (Hok' : ∀ rows, config_ok (put_table db "config" (Table (t_cols t) rows)) = true)
      by (intros; by eapply config_ok_put).
    split_and!; [| done | intros; by apply put_table_lookup_ne | done].
    unfold config_get. rewrite (proj1 (config_ok_valid _ (Hok' _))).
    erewrite config_rows_eq by apply put_table_lookup. cbn.
    change (λ r, if value_eqb (default VNull (r !! "keyname")) (VText key) then
                   <["value" := VText v]> r else r)
      with (λ r, if key_matches key r then <["value" := VText v]> r else r).
    rewrite filter_update, Hf. cbn. by rewrite lookup_insert_eq.
Qed.

Lemma filter_filter_neg {A} (p : A → bool) (l : list A) :
  List.filter p (List.filter (λ x, negb (p x)) l) = [].
Proof.
  induction l as [|x l IH]; [done|]. cbn. destruct (p x) eqn:E; cbn; [done|]. by rewrite E.
Qed.

Lemma config_del_spec db key :
  config_ok db = true →
  config_get (config_del db key) key = None
  ∧ config_ok (config_del db key) = true
  ∧ (∀ n, n ≠ "config" → db_tables (config_del db key) !! n = db_tables db !! n).
Proof.
  intros Hok. pose proof (config_ok_valid _ Hok) as (_ & _ & _ & Hd).
  pose proof (config_ok_inv _ Hok) as (t & Ht & _).
  unfold config_del, run_sql. rewrite Hd. cbn. rewrite Ht. cbn.
  assert (Hok' : ∀ rows, config_ok (put_table db "config" (Table (t_cols t) rows)) = true)
    by (intros; by eapply config_ok_put).
  split_and!; [| done | intros; by apply put_table_lookup_ne].
  unfold config_get. rewrite (proj1 (config_ok_valid _ (Hok' _))).
  erewrite config_rows_eq by apply put_table_lookup. cbn.
  change (λ r, negb (value_eqb (default VNull (r !! "keyname")) (VText key)))
    with (λ r, negb (key_matches key r)).
  by rewrite filter_filter_neg.
Qed.

Lemma config_writes_app (a b : list event) :
  config_writes (a ++ b) = config_writes a ++ config_writes b.
Proof. apply omap_app. Qed.

Lemma config_writes_other evs :
  Forall (λ e, ev_sql e ≠ INSERT_INTO_config_kv_STATEMENT
               ∧ ev_sql e ≠ UPDATE_config_vk_STATEMENT) evs →
  config_writes evs = [].
Proof.
  induction 1 as [|e evs [H1 H2] _ IH]; [done|]. unfold config_writes in *. cbn. rewrite IH.
  destruct e as [|q a rc]; cbn in *; [done|].
  rewrite !bool_decide_eq_false_2 by done. by destruct (rc =? SQLITE_DONE).
Qed.

Lemma config_writes_prepared evs : stepped evs = [] → config_writes evs = [].
Proof.
  unfold stepped, config_writes. induction evs as [|[] evs IH]; cbn; [done | | done]. auto.
Qed.

Lemma set_config_spec db key value w :
  view false db w → cache_ok (m_pd (store w)) = true → config_ok db = true →
  let r := dc_sqlite3_set_config__ THS (Some key) value w in
  r.1 = 1
  ∧ view false (match value with Some v => config_set db key v | None => config_del db key end) r.2
  ∧ cache_ok (m_pd (store r.2)) = true
  ∧ m_transactionCount (store r.2) = m_transactionCount (store w)
  ∧ ∃ evs, trace r.2 = trace w ++ evs
           ∧ config_writes evs = match value with Some v => [(key, v)] | None => [] end.
Proof.
  intros Hv Hc Hok r. subst r. unfold dc_sqlite3_set_config__. run.
  rewrite (is_open_view _ _ _ Hv). cbn [fst snd]. change (1 =? 0) with false. cbv iota. run.
  pose proof (config_ok_valid _ Hok) as (Hvs & Hvi & Hvu & Hvd).
  destruct value as [v|].
  - (* insert/update key=value *)
    run.
    pose proof (predefine_spec _ _ _ _ _ Hv
      (cache_ok_slot _ SELECT_v_FROM_config_k SELECT_v_FROM_config_k_STATEMENT Hc ltac:(in_list))
      ltac:(unfold SELECT_v_FROM_config_k, PREDEFINED_CNT; lia)) as H. cbv zeta in H.
    destruct (dc_sqlite3_predefine__ _ _ _ w) as [o w1]. cbn [fst snd] in H |- *.
    destruct H as (Hv1 & Hval & _ & Hsl & Hn & _ & evs1 & Htr1 & Hst1 & _).
    rewrite (Hval Hvs). clear Hval.
    assert (Hc1 : cache_ok (m_pd (store w1)) = true).
    { eapply cache_ok_step; [exact Hc| |exact Hsl]. in_list. }
    unfold sqlite3_bind_text. cbn [fmap option_fmap option_map st_sql st_args st_rest st_row].
    pose proof (step_select _ _ "value" "config" (CEq "keyname" (EParam 1)) [(1%nat, key)] _ Hv1) as H.
    cbv zeta in H. fold SELECT_v_FROM_config_k_STATEMENT in H. rewrite Hvs in H.
    fold (config_rows db key) in H.
    destruct (sqlite3_step _ w1) as [[rc st] w2]. cbn [fst snd] in H |- *.
    destruct H as (Hv2 & Hpd2 & Hn2 & _ & Htr2 & Hres).
    rewrite <- Hpd2 in Hc1. unfold config_set.
    destruct (config_rows db key) as [|v0 vs] eqn:Hrows.
    + injection Hres as -> _. change (SQLITE_DONE =? SQLITE_DONE) with true. cbv iota. run.
      pose proof (predefine_spec _ _ _ _ _ Hv2
        (cache_ok_slot _ INSERT_INTO_config_kv INSERT_INTO_config_kv_STATEMENT Hc1 ltac:(in_list))
        ltac:(unfold INSERT_INTO_config_kv, PREDEFINED_CNT; lia)) as H. cbv zeta in H.
      destruct (dc_sqlite3_predefine__ _ _ _ w2) as [o3 w3]. cbn [fst snd] in H |- *.
      destruct H as (Hv3 & Hval & _ & Hsl3 & Hn3 & _ & evs3 & Htr3 & Hst3 & _).
      rewrite (Hval Hvi). clear Hval.
      assert (Hc3 : cache_ok (m_pd (store w3)) = true).
      { eapply cache_ok_step; [exact Hc1| |exact Hsl3]. in_list. }
      cbn [fmap option_fmap option_map st_sql st_args st_rest st_row].
      pose proof (step_write _ _ INSERT_INTO_config_kv_STATEMENT [(2%nat, v); (1%nat, key)] _
                    Hv3 eq_refl) as H. cbv zeta in H.
      destruct (sqlite3_step _ w3) as [[rc4 st4] w4]. cbn [fst snd] in H |- *.
      destruct H as (Hv4 & Hpd4 & Hn4 & Htr4 & Hrc4).
      rewrite Hvi in Hrc4. cbn [negb] in Hrc4.
      pose proof (config_ok_inv _ Hok) as (t & Ht & _).
      destruct (config_insert db t key v Ht Hok) as (r & Hx & _). rewrite Hx in Hrc4.
      subst rc4. change (negb (SQLITE_DONE =? SQLITE_DONE)) with false. cbv iota. cbn.
      split_and!; [done | done | by rewrite Hpd4 | congruence |].
      exists (evs1 ++ [EvStep SELECT_v_FROM_config_k_STATEMENT [(1%nat, key)] SQLITE_DONE] ++ evs3
               ++ [EvStep INSERT_INTO_config_kv_STATEMENT [(2%nat, v); (1%nat, key)] SQLITE_DONE]).
      split.
      * rewrite Htr4, Htr3, Htr2, Htr1. by rewrite <- !(assoc_L (++)).
      * rewrite !config_writes_app, (config_writes_prepared evs1), (config_writes_prepared evs3) by done.
        done.
    + injection Hres as -> _. change (SQLITE_ROW =? SQLITE_DONE) with false.
      change (SQLITE_ROW =? SQLITE_ROW) with true. cbv iota. run.
      pose proof (predefine_spec _ _ _ _ _ Hv2
        (cache_ok_slot _ UPDATE_config_vk UPDATE_config_vk_STATEMENT Hc1 ltac:(in_list))
        ltac:(unfold UPDATE_config_vk, PREDEFINED_CNT; lia)) as H. cbv zeta in H.
      destruct (dc_sqlite3_predefine__ _ _ _ w2) as [o3 w3]. cbn [fst snd] in H |- *.
      destruct H as (Hv3 & Hval & _ & Hsl3 & Hn3 & _ & evs3 & Htr3 & Hst3 & _).
      rewrite (Hval Hvu). clear Hval.
      assert (Hc3 : cache_ok (m_pd (store w3)) = true).
      { eapply cache_ok_step; [exact Hc1| |exact Hsl3]. in_list. }
      cbn [fmap option_fmap option_map st_sql st_args st_rest st_row].
      pose proof (step_write _ _ UPDATE_config_vk_STATEMENT [(2%nat, key); (1%nat, v)] _
                    Hv3 eq_refl) as H. cbv zeta in H.
      destruct (sqlite3_step _ w3) as [[rc4 st4] w4]. cbn [fst snd] in H |- *.
      destruct H as (Hv4 & Hpd4 & Hn4 & Htr4 & Hrc4).
      rewrite Hvu in Hrc4. cbn [negb] in Hrc4.
      pose proof (config_ok_inv _ Hok) as (t & Ht & _).
      assert (Hx : is_Some (sql_exec [(2%nat, key); (1%nat, v)] db UPDATE_config_vk_STATEMENT)).
      { cbn. rewrite Ht. cbn. eauto. }
      destruct Hx as [db' Hx]. rewrite Hx in Hrc4.
      subst rc4. change (negb (SQLITE_DONE =? SQLITE_DONE)) with false. cbv iota. cbn.
      split_and!; [done | done | by rewrite Hpd4 | congruence |].
      exists (evs1 ++ [EvStep SELECT_v_FROM_config_k_STATEMENT [(1%nat, key)] SQLITE_ROW] ++ evs3
               ++ [EvStep UPDATE_config_vk_STATEMENT [(2%nat, key); (1%nat, v)] SQLITE_DONE]).
      split.
      * rewrite Htr4, Htr3, Htr2, Htr1. by rewrite <- !(assoc_L (++)).
      * rewrite !config_writes_app, (config_writes_prepared evs1), (config_writes_prepared evs3) by done.
        done.
  - (* delete key *)
    run.
    pose proof (predefine_spec _ _ _ _ _ Hv
      (cache_ok_slot _ DELETE_FROM_config_k DELETE_FROM_config_k_STATEMENT Hc ltac:(in_list))
      ltac:(unfold DELETE_FROM_config_k, PREDEFINED_CNT; lia)) as H. cbv zeta in H.
    destruct (dc_sqlite3_predefine__ _ _ _ w) as [o w1]. cbn [fst snd] in H |- *.
    destruct H as (Hv1 & Hval & _ & Hsl & Hn & _ & evs1 & Htr1 & Hst1 & _).
    rewrite (Hval Hvd). clear Hval.
    assert (Hc1 : cache_ok (m_pd (store w1)) = true).
    { eapply cache_ok_step; [exact Hc| |exact Hsl]. in_list. }
    unfold sqlite3_bind_text. cbn [fmap option_fmap option_map st_sql st_args st_rest st_row].
    pose proof (step_write _ _ DELETE_FROM_config_k_STATEMENT [(1%nat, key)] _
                  Hv1 eq_refl) as H. cbv zeta in H.
    destruct (sqlite3_step _ w1) as [[rc4 st4] w4]. cbn [fst snd] in H |- *.
    destruct H as (Hv4 & Hpd4 & Hn4 & Htr4 & Hrc4).
    rewrite Hvd in Hrc4. cbn [negb] in Hrc4.
    pose proof (config_ok_inv _ Hok) as (t & Ht & _).
    assert (Hx : is_Some (sql_exec [(1%nat, key)] db DELETE_FROM_config_k_STATEMENT)).
    { cbn. rewrite Ht. cbn. eauto. }
    destruct Hx as [db' Hx]. rewrite Hx in Hrc4.
    subst rc4. change (negb (SQLITE_DONE =? SQLITE_DONE)) with false. cbv iota. cbn.
    split_and!; [done | done | by rewrite Hpd4 | congruence |].
    exists (evs1 ++ [EvStep DELETE_FROM_config_k_STATEMENT [(1%nat, key)] SQLITE_DONE]).
    split.
    * rewrite Htr4, Htr1. by rewrite <- !(assoc_L (++)).
    * rewrite !config_writes_app, (config_writes_prepared evs1) by done. done.
Qed.

(** ** Integers as decimal strings *)

Lemma digit_char d :
  0 ≤ d < 10 →
  isdigit (ascii_of_nat (48 + Z.to_nat d)) = true
  ∧ isspace (ascii_of_nat (48 + Z.to_nat d)) = false
  ∧ Z.of_nat (nat_of_ascii (ascii_of_nat (48 + Z.to_nat d))) - 48 = d
  ∧ ascii_of_nat (48 + Z.to_nat d) ≠ "-"%char
  ∧ ascii_of_nat (48 + Z.to_nat d) ≠ "+"%char.
Proof.
  intros H.
  assert (d = 0 ∨ d = 1 ∨ d = 2 ∨ d = 3 ∨ d = 4 ∨ d = 5 ∨ d = 6 ∨ d = 7 ∨ d = 8 ∨ d = 9)
    as Hd by lia.
  repeat (destruct Hd as [-> | Hd]); try subst d; by cbn.
Qed.

Lemma parse_digits_of fuel n s :
  0 ≤ n < 10 ^ Z.of_nat fuel →
  ∃ k, 0 ≤ k ∧ ∀ a, parse_digits a (digits_of fuel n s) = parse_digits (a * 10 ^ k + n) s.
Proof.
  revert n s. induction fuel as [|fuel IH]; intros n s Hn.
  - exists 0. split; [lia|]. intros a. cbn. f_equal. cbn in Hn. lia.
  - rewrite Nat2Z.inj_succ, Z.pow_succ_r in Hn by lia. cbn [digits_of].
    destruct (digit_char (n mod 10)) as (Hd & _ & Hv & _); [apply Z.mod_pos_bound; lia|].
    destruct (n <? 10) eqn:Hlt.
    + apply Z.ltb_lt in Hlt. exists 1. split; [lia|]. intros a. cbn [parse_digits].
      rewrite Hd, Hv. f_equal. rewrite Z.mod_small by lia. lia.
    + apply Z.ltb_ge in Hlt.
      destruct (IH (n / 10) (String (ascii_of_nat (48 + Z.to_nat (n mod 10))) s)) as (k & Hk & IHk).
      { split; [apply Z.div_pos; lia|]. apply Z.div_lt_upper_bound; lia. }
      exists (k + 1). split; [lia|]. intros a. rewrite IHk. cbn [parse_digits].
      rewrite Hd, Hv. f_equal. rewrite Z.pow_add_r by lia.
      pose proof (Z.div_mod n 10). lia.
Qed.

Lemma digits_of_head fuel n s :
  ∃ d s', 0 ≤ d < 10 ∧ digits_of (S fuel) n s = String (ascii_of_nat (48 + Z.to_nat d)) s'.
Proof.
  revert n s. induction fuel as [|fuel IH]; intros n s.
  - exists (n mod 10), s. split; [apply Z.mod_pos_bound; lia|]. cbn. by destruct (n <? 10).
  - change (digits_of (S (S fuel)) n s) with
      (let acc' := String (ascii_of_nat (48 + Z.to_nat (n mod 10))) s in
       if n <? 10 then acc' else digits_of (S fuel) (n / 10) acc').
    cbv zeta. destruct (n <? 10).
    + exists (n mod 10), s. split; [apply Z.mod_pos_bound; lia|done].
    + apply IH.
Qed.

Lemma digits_of_app fuel n s rest :
  digits_of fuel n s +:+ rest = digits_of fuel n (s +:+ rest).
Proof.
  revert n s. induction fuel as [|fuel IH]; intros n s; [done|]. cbn [digits_of].
  destruct (n <? 10); [done|]. by rewrite IH.
Qed.

Lemma parse_digits_stop a s : starts_with_digit s = false → parse_digits a s = a.
Proof. destruct s as [|c s]; [done|]. cbn. by intros ->. Qed.

(** [atol] reads back what [%i] prints, also when other text follows. *)
Lemma atol_decimal z rest :
  - 2 ^ 63 ≤ z < 2 ^ 63 → starts_with_digit rest = false →
  atol (decimal z +:+ rest) = z.
Proof.
  intros Hz Hrest. unfold decimal.
  assert (H20 : 2 ^ 63 < 10 ^ Z.of_nat 20) by (by cbn).
  destruct (z <? 0) eqn:Hneg.
  - apply Z.ltb_lt in Hneg.
    change (String "-" (digits_of 20 (- z) "") +:+ rest)
      with (String "-" (digits_of 20 (- z) "" +:+ rest)).
    rewrite digits_of_app. change ("" +:+ rest) with rest.
    destruct (parse_digits_of 20 (- z) rest) as (k & Hk & Hp); [lia|].
    unfold atol. cbn [skip_space]. change (isspace "-") with false. cbv iota.
    change (Ascii.eqb "-" "-") with true. cbv iota.
    rewrite Hp, parse_digits_stop by done. unfold LONG_MIN, LONG_MAX. lia.
  - apply Z.ltb_ge in Hneg. rewrite digits_of_app. change ("" +:+ rest) with rest.
    destruct (parse_digits_of 20 z rest) as (k & Hk & Hp); [lia|].
    destruct (digits_of_head 19 z rest) as (d & s' & Hd & Hs).
    destruct (digit_char d Hd) as (_ & Hsp & _ & Hm & Hpl).
    unfold atol. rewrite Hs. cbn [skip_space]. rewrite Hsp.
    rewrite (proj2 (Ascii.eqb_neq _ _) Hm), (proj2 (Ascii.eqb_neq _ _) Hpl).
    rewrite <- Hs, Hp, parse_digits_stop by done.
    unfold LONG_MIN, LONG_MAX. lia.
Qed.

Lemma to_int32_id z : - 2 ^ 31 ≤ z < 2 ^ 31 → to_int32 z = z.
Proof. intros H. unfold to_int32. rewrite Z.mod_small; lia. Qed.

Lemma atol_no_integer s : no_leading_integer s = true → atol s = 0.
Proof.
  unfold no_leading_integer, atol. intros H.
  assert (Hz : Z.max LONG_MIN (Z.min LONG_MAX 0) = 0) by done.
  destruct (skip_space s) as [|c s'] eqn:E; [done|].
  destruct (Ascii.eqb c "-"); cbn [orb] in H.
  { apply negb_true_iff in H. by rewrite parse_digits_stop. }
  destruct (Ascii.eqb c "+"); cbn [orb] in H.
  { apply negb_true_iff in H. by rewrite parse_digits_stop. }
  apply negb_true_iff in H. cbn [parse_digits]. by rewrite H.
Qed.

(** ** The config store *)

Lemma store_open_view w :
  store_open w = true →
  ∃ c, view (c_readonly c) (c_data c) w ∧ m_cobj (store w) = Some c
       ∧ cache_ok (m_pd (store w)) = true.
Proof.
  unfold store_open. destruct (m_cobj (store w)) as [c|] eqn:E; [|done].
  intros H. exists c. split_and!; try done. by exists c.
Qed.

Lemma store_writable_view w :
  store_writable w = true →
  ∃ db, view false db w ∧ config_ok db = true ∧ cache_ok (m_pd (store w)) = true.
Proof.
  unfold store_writable. destruct (m_cobj (store w)) as [c|] eqn:E; [|done].
  rewrite !andb_true_iff, negb_true_iff. intros [[? ?] ?].
  exists (c_data c). split_and!; try done. by exists c.
Qed.

Lemma view_stored ro db w key : view ro db w → stored w key = config_get db key.
Proof. intros (c & Hc & _ & <-). unfold stored. by rewrite Hc. Qed.

Lemma get_config_int_spec ro db key def w :
  view ro db w →
  slot_ok SELECT_v_FROM_config_k SELECT_v_FROM_config_k_STATEMENT (m_pd (store w)) = true →
  let r := dc_sqlite3_get_config_int__ THS (Some key) def w in
  r.1 = match config_get db key with Some s => to_int32 (atol s) | None => def end
  ∧ view ro db r.2
  ∧ (∀ j q', slot_ok j q' (m_pd (store w)) = true →
             (j = SELECT_v_FROM_config_k → q' = SELECT_v_FROM_config_k_STATEMENT) →
             slot_ok j q' (m_pd (store r.2)) = true)
  ∧ m_transactionCount (store r.2) = m_transactionCount (store w)
  ∧ files r.2 = files w
  ∧ ∃ evs, trace r.2 = trace w ++ evs
           ∧ Forall (λ e, ev_sql e = SELECT_v_FROM_config_k_STATEMENT) evs.
Proof.
  intros Hv Hs r. subst r. unfold dc_sqlite3_get_config_int__. run.
  pose proof (get_config_spec _ _ key None _ Hv Hs) as H. cbv zeta in H.
  destruct (dc_sqlite3_get_config__ _ _ _ w) as [o w1]. cbn [fst snd] in H |- *.
  destruct H as (-> & Hv1 & Hsl & Hn & Hf & evs & Htr & Hev & _).
  destruct (config_get db key); cbn; split_and!; eauto.
Qed.



(** C7, as amended: [dc_sqlite3_get_config_int__] returns the default only
    when no string is stored under the key. A stored string goes through
    [atol] and the conversion to 32 bits: a string without a leading integer
    gives 0, whatever the default; a string that starts with the decimal
    digits of an integer of 32 bits gives that integer. *)
Theorem get_config_int_atol (w : world) (key : string) (def : Z) :
  store_open w = true →
  (dc_sqlite3_get_config_int__ THS (Some key) def w).1 =
    match stored w key with
    | None => def
    | Some s => to_int32 (atol s)
    end
  ∧ (∀ s, no_leading_integer s = true → to_int32 (atol s) = 0)
  ∧ (∀ z rest, - 2 ^ 31 ≤ z < 2 ^ 31 → starts_with_digit rest = false →
       to_int32 (atol (decimal z +:+ rest)) = z).
Proof.
  intros (c & Hv & Hc & Hcache)%store_open_view.
  pose proof (get_config_int_spec _ _ key def _ Hv
    (cache_ok_slot _ SELECT_v_FROM_config_k SELECT_v_FROM_config_k_STATEMENT Hcache ltac:(in_list)))
    as (Hg & _).
  split_and!.
  - rewrite Hg, (view_stored _ _ _ _ Hv). by destruct (config_get _ _).
  - intros s Hs. by rewrite atol_no_integer.
  - intros z rest Hz Hrest. rewrite atol_decimal by (done || lia). by apply to_int32_id.
Qed.

(** ** Transactions *)

Lemma predefine_count idx q w :
  m_transactionCount (store (dc_sqlite3_predefine__ THS idx q w).2)
  = m_transactionCount (store w).
Proof.
  destruct w as [[co pd n] f ts tr lg].
  unfold dc_sqlite3_predefine__, sqlite3_prepare_v2, dc_sqlite3_log_error; simpl.
  repeat case_match; simplify_eq/=; done.
Qed.

Lemma step_count st w :
  m_transactionCount (store (sqlite3_step st w).2) = m_transactionCount (store w).
Proof.
  destruct w as [[co pd n] f ts tr lg]. unfold sqlite3_step; simpl.
  repeat case_match; simplify_eq/=; done.
Qed.

Lemma run_cached_count idx q msg w :
  m_transactionCount (store (run_cached idx q msg w).2) = m_transactionCount (store w).
Proof.
  unfold run_cached. run.
  destruct (sqlite3_step _ _) as [[rc o] w'] eqn:E. cbn [fst snd].
  assert (m_transactionCount (store w') = m_transactionCount (store w)) as <-.
  { change w' with (((rc, o), w').2). rewrite <- E. by rewrite step_count, predefine_count. }
  by destruct (negb _).
Qed.

Lemma begin_eq w :
  dc_sqlite3_begin_transaction__ THS w =
    let w1 := with_count (m_transactionCount (store w) + 1) w in
    if m_transactionCount (store w) + 1 =? 1
    then run_cached BEGIN_transaction BEGIN "Cannot begin transaction." w1
    else (tt, w1).
Proof.
  unfold dc_sqlite3_begin_transaction__, run_cached, add_transactionCount,
    get_transactionCount, with_count. run.
  cbn [fst snd store set_store m_transactionCount set_transactionCount].
  destruct (_ =? 1); [|done]. by run.
Qed.

Lemma commit_eq w :
  dc_sqlite3_commit__ THS w =
    if 1 <=? m_transactionCount (store w) then
      let w1 := if m_transactionCount (store w) =? 1
                then (run_cached COMMIT_transaction COMMIT "Cannot commit transaction." w).2
                else w in
      (tt, with_count (m_transactionCount (store w1) - 1) w1)
    else (tt, w).
Proof.
  unfold dc_sqlite3_commit__, run_cached, add_transactionCount,
    get_transactionCount, with_count. run.
  cbn [fst snd store set_store m_transactionCount set_transactionCount].
  destruct (1 <=? _); [|done]. run. destruct (_ =? 1); run; [|done].
  destruct (sqlite3_step _ _) as [[rc o] w']. cbn [fst snd].
  by destruct (negb _).
Qed.

Lemma rollback_eq w :
  dc_sqlite3_rollback__ THS w =
    if 1 <=? m_transactionCount (store w) then
      let w1 := if m_transactionCount (store w) =? 1
                then (run_cached ROLLBACK_transaction ROLLBACK "Cannot rollback transaction." w).2
                else w in
      (tt, with_count (m_transactionCount (store w1) - 1) w1)
    else (tt, w).
Proof.
  unfold dc_sqlite3_rollback__, run_cached, add_transactionCount,
    get_transactionCount, with_count. run.
  cbn [fst snd store set_store m_transactionCount set_transactionCount].
  destruct (1 <=? _); [|done]. run. destruct (_ =? 1); run; [|done].
  destruct (sqlite3_step _ _) as [[rc o] w']. cbn [fst snd].
  by destruct (negb _).
Qed.

Lemma run_op_count o w :
  m_transactionCount (store (run_op o w).2) =
    match o with
    | OpBegin => m_transactionCount (store w) + 1
    | _ => if 1 <=? m_transactionCount (store w) then m_transactionCount (store w) - 1
           else m_transactionCount (store w)
    end.
Proof.
  destruct o; cbn [run_op].
  - rewrite begin_eq. cbv zeta. destruct (_ =? 1); [|done]. by rewrite run_cached_count.
  - rewrite commit_eq. destruct (1 <=? _); [|done]. cbn.
    destruct (_ =? 1); [|done]. by rewrite run_cached_count.
  - rewrite rollback_eq. destruct (1 <=? _); [|done]. cbn.
    destruct (_ =? 1); [|done]. by rewrite run_cached_count.
Qed.

Lemma run_ops_nonneg ops w :
  0 ≤ m_transactionCount (store w) → 0 ≤ m_transactionCount (store (run_ops ops w).2).
Proof.
  revert w. induction ops as [|o ops IH]; intros w Hw; [done|].
  cbn [run_ops]. rewrite bind_run. apply IH. rewrite run_op_count.
  destruct o; [lia | |]; destruct (Z.leb_spec 1 (m_transactionCount (store w))); lia.
Qed.

(** C9: commit and rollback at counter 0 leave the world as it is (nothing
    is stepped, nothing is logged, the counter stays 0), and from a counter
    at 0 no sequence of begin, commit and rollback makes it negative. *)
Theorem commit_rollback_at_zero (w : world) (ops : list txn_op) :
  m_transactionCount (store w) = 0 →
  dc_sqlite3_commit__ THS w = (tt, w)
  ∧ dc_sqlite3_rollback__ THS w = (tt, w)
  ∧ 0 ≤ m_transactionCount (store (run_ops ops w).2).
Proof.
  intros H0. split_and!.
  - rewrite commit_eq, H0. done.
  - rewrite rollback_eq, H0. done.
  - apply run_ops_nonneg. lia.
Qed.

Lemma step_any st w :
  is_Some (m_cobj (store w)) →
  let r := sqlite3_step (Some st) w in
  is_Some (m_cobj (store r.2))
  ∧ m_pd (store r.2) = m_pd (store w)
  ∧ trace r.2 = trace w ++ [EvStep (st_sql st) (st_args st) r.1.1].
Proof.
  intros [c Hc] r. subst r. destruct w as [[co pd n] f ts tr lg]. simpl in Hc. subst co.
  unfold sqlite3_step. cbn -[engine_step].
  destruct (engine_step c f st) as [[[rc st'] c'] f']. cbn. eauto.
Qed.

Lemma stepped_app (a b : list event) : stepped (a ++ b) = stepped a ++ stepped b.
Proof. apply omap_app. Qed.

Lemma run_cached_spec ro db idx q msg w :
  view ro db w → slot_ok idx q (m_pd (store w)) = true → (idx < PREDEFINED_CNT)%nat →
  sql_valid db q = true →
  let w' := (run_cached idx q msg w).2 in
  stepped (trace w') = stepped (trace w) ++ [q]
  ∧ is_Some (m_cobj (store w'))
  ∧ (∀ j q', slot_ok j q' (m_pd (store w)) = true → (j = idx → q' = q) →
             slot_ok j q' (m_pd (store w')) = true).
Proof.
  intros Hv Hs Hi Hq w'. subst w'. unfold run_cached. run.
  pose proof (predefine_spec _ _ _ _ _ Hv Hs Hi) as H. cbv zeta in H.
  destruct (dc_sqlite3_predefine__ _ _ _ w) as [o w1]. cbn [fst snd] in H |- *.
  destruct H as (Hv1 & Hval & _ & Hsl & _ & _ & evs1 & Htr1 & Hst1 & _).
  rewrite (Hval Hq).
  pose proof (step_any (Stmt q [] None None) w1 (view_open _ _ _ Hv1)) as H. cbv zeta in H.
  destruct (sqlite3_step _ w1) as [[rc st] w2]. cbn [fst snd st_sql st_args] in H |- *.
  destruct H as (Ho2 & Hpd2 & Htr2).
  assert (Hgoal : stepped (trace w2) = stepped (trace w) ++ [q]
    ∧ is_Some (m_cobj (store w2))
    ∧ (∀ j q', slot_ok j q' (m_pd (store w)) = true → (j = idx → q' = q) →
               slot_ok j q' (m_pd (store w2)) = true)).
  { rewrite Htr2, Htr1, !stepped_app, Hst1, Hpd2. cbn. by rewrite (right_id_L [] (++)). }
  destruct (negb _); [|done].
  unfold dc_sqlite3_log_error, dc_log_error. by destruct w2.
Qed.

Lemma with_count_count n w : m_transactionCount (store (with_count n w)) = n.
Proof. done. Qed.

Lemma with_count_twice n m w : with_count n (with_count m w) = with_count n w.
Proof. done. Qed.

Lemma repeat_call_snoc n (m : M unit) w :
  (repeat_call (S n) m w).2 = (m (repeat_call n m w).2).2.
Proof.
  revert w. induction n as [|n IH]; intros w.
  - cbn [repeat_call]. by run.
  - change (repeat_call (S (S n)) m) with (m;; repeat_call (S n) m).
    rewrite bind_run, IH. cbn [repeat_call]. by rewrite bind_run.
Qed.

Lemma repeat_begin_inner n w :
  1 ≤ m_transactionCount (store w) →
  (repeat_call n (dc_sqlite3_begin_transaction__ THS) w).2
  = if n is O then w else with_count (m_transactionCount (store w) + Z.of_nat n) w.
Proof.
  revert w. induction n as [|n IH]; intros w Hw; [done|].
  cbn [repeat_call]. rewrite bind_run, begin_eq. cbv zeta.
  destruct (Z.eqb_spec (m_transactionCount (store w) + 1) 1); [lia|]. cbn [fst snd].
  rewrite IH by (rewrite with_count_count; lia).
  destruct n; rewrite ?with_count_count, ?with_count_twice; f_equal; lia.
Qed.

Lemma repeat_commit_inner n w :
  Z.of_nat n + 1 ≤ m_transactionCount (store w) →
  (repeat_call n (dc_sqlite3_commit__ THS) w).2
  = if n is O then w else with_count (m_transactionCount (store w) - Z.of_nat n) w.
Proof.
  revert w. induction n as [|n IH]; intros w Hw; [done|].
  cbn [repeat_call]. rewrite bind_run, commit_eq.
  destruct (Z.leb_spec 1 (m_transactionCount (store w))); [|lia].
  destruct (Z.eqb_spec (m_transactionCount (store w)) 1); [lia|]. cbn [fst snd].
  rewrite IH by (rewrite with_count_count; lia).
  destruct n; rewrite ?with_count_count, ?with_count_twice; f_equal; lia.
Qed.

(** C3: on an open store at counter 0, N begins and then N commits step one
    BEGIN (in the first begin) and one COMMIT (in the last commit); every
    other call changes the counter and nothing else. *)
Theorem nested_begin_commit (N : nat) (w : world) :
  (1 ≤ N)%nat →
  store_open w = true →
  m_transactionCount (store w) = 0 →
  let w1 := (repeat_call N (dc_sqlite3_begin_transaction__ THS) w).2 in
  let w2 := (repeat_call N (dc_sqlite3_commit__ THS) w1).2 in
  stepped (trace w1) = stepped (trace w) ++ [BEGIN]
  ∧ m_transactionCount (store w1) = Z.of_nat N
  ∧ w1 = with_count (Z.of_nat N) (dc_sqlite3_begin_transaction__ THS w).2
  ∧ (repeat_call (N - 1) (dc_sqlite3_commit__ THS) w1).2 = with_count 1 w1
  ∧ stepped (trace w2) = stepped (trace w) ++ [BEGIN; COMMIT]
  ∧ m_transactionCount (store w2) = 0.
Proof.
  intros HN (c & Hv & Hc & Hcache)%store_open_view H0. cbv zeta.
  destruct N as [|n]; [lia|]. clear HN.
  remember (repeat_call (S n) (dc_sqlite3_begin_transaction__ THS) w).2 as w1 eqn:Ew1.
  remember (repeat_call (S n) (dc_sqlite3_commit__ THS) w1).2 as w2 eqn:Ew2.
  (* the first begin *)
  pose proof (begin_eq w) as Hb. rewrite H0 in Hb. cbv zeta in Hb.
  change (0 + 1 =? 1) with true in Hb. cbv iota in Hb.
  assert (Hv0 : view (c_readonly c) (c_data c) (with_count (0 + 1) w)).
  { destruct Hv as (c0 & ? & ? & ?). by exists c0. }
  pose proof (run_cached_spec _ _ BEGIN_transaction BEGIN "Cannot begin transaction." _ Hv0
    (cache_ok_slot _ _ _ Hcache ltac:(in_list))
    ltac:(unfold BEGIN_transaction, PREDEFINED_CNT; lia) eq_refl) as Hrc.
  cbv zeta in Hrc. rewrite <- Hb in Hrc. destruct Hrc as (Htr & Hopen & Hslots).
  assert (Hcnt : m_transactionCount (store (dc_sqlite3_begin_transaction__ THS w).2) = 1).
  { pose proof (run_op_count OpBegin w) as Hc1. cbn [run_op] in Hc1. rewrite Hc1. lia. }
  (* the begins after it *)
  assert (Hw1 : w1 = with_count (Z.of_nat (S n)) (dc_sqlite3_begin_transaction__ THS w).2).
  { rewrite Ew1. cbn [repeat_call]. rewrite bind_run, repeat_begin_inner by lia.
    destruct n.
    - destruct (dc_sqlite3_begin_transaction__ THS w) as [[] [[co pd k] f ts tr lg]].
      cbn in Hcnt |- *. by subst k.
    - rewrite Hcnt. f_equal. lia. }
  (* the commits but the last *)
  assert (Hinner : (repeat_call (S n - 1) (dc_sqlite3_commit__ THS) w1).2 = with_count 1 w1).
  { rewrite repeat_commit_inner by (rewrite Hw1, with_count_count; lia).
    replace (S n - 1)%nat with n by lia. destruct n.
    - rewrite Hw1. by rewrite with_count_twice.
    - rewrite Hw1, with_count_count, !with_count_twice. f_equal. lia. }
  (* the last commit *)
  assert (Hlast : stepped (trace w2) = stepped (trace w1) ++ [COMMIT]
                  ∧ m_transactionCount (store w2) = 0).
  { rewrite Ew2. rewrite repeat_call_snoc.
    replace (S n - 1)%nat with n in Hinner by lia. rewrite Hinner.
    destruct Hopen as [c1 Hc1].
    assert (Hvw : view (c_readonly c1) (c_data c1) (with_count 1 w1)).
    { exists c1. rewrite Hw1. split_and!; done. }
    pose proof (run_cached_spec _ _ COMMIT_transaction COMMIT "Cannot commit transaction." _ Hvw
      ltac:(rewrite Hw1; apply Hslots; [by apply (cache_ok_slot _ _ _ Hcache); in_list | done])
      ltac:(unfold COMMIT_transaction, PREDEFINED_CNT; lia) eq_refl) as Hrc.
    cbv zeta in Hrc. destruct Hrc as (Htr2 & _).
    rewrite commit_eq, with_count_count.
    change (1 <=? 1) with true. change (1 =? 1) with true. cbv iota zeta. cbn [snd].
    rewrite with_count_count, run_cached_count, with_count_count.
    split; [|done]. exact Htr2. }
  destruct Hlast as (Htr2 & Hcnt2).
  assert (Htr1 : stepped (trace w1) = stepped (trace w) ++ [BEGIN]).
  { rewrite Hw1. exact Htr. }
  split_and!; try done.
  - by rewrite Hw1.
  - rewrite Htr2, Htr1. by rewrite <- (assoc_L (++)).
Qed.

(** ** Closing *)

Lemma clear_slot_lookup pd i j :
  clear_slot pd i !! j =
    if decide (i = j) then (λ _, None) <$> pd !! j else pd !! j.
Proof.
  unfold clear_slot. destruct (decide (i = j)) as [->|Hne].
  - destruct (pd !! j) as [[st|]|] eqn:E; cbn; [|by rewrite E..].
    apply list_lookup_insert_eq. by eapply lookup_lt_Some.
  - destruct (pd !! i) as [[st|]|]; [|done..]. by apply list_lookup_insert_ne.
Qed.

Lemma clear_slots_lookup l pd j :
  foldl clear_slot pd l !! j =
    if decide (j ∈ l) then (λ _, None) <$> pd !! j else pd !! j.
Proof.
  revert pd. induction l as [|i l IH]; intros pd; cbn [foldl].
  - by rewrite decide_False by apply not_elem_of_nil.
  - rewrite IH, clear_slot_lookup.
    destruct (decide (i = j)) as [->|Hne].
    + rewrite (decide_True (P := j ∈ j :: l)) by apply list_elem_of_here.
      destruct (decide (j ∈ l)); [|done]. by destruct (pd !! j).
    + destruct (decide (j ∈ l)).
      * by rewrite decide_True by (by apply list_elem_of_further).
      * rewrite decide_False; [done|]. intros [?|?]%elem_of_cons; congruence.
Qed.

Lemma close_spec w :
  let w' := (dc_sqlite3_close__ THS w).2 in
  m_cobj (store w') = None
  ∧ (is_Some (m_cobj (store w)) →
     ∀ i st, (i < PREDEFINED_CNT)%nat → m_pd (store w') !! i ≠ Some (Some st))
  ∧ files w' = files w ∧ trace w' = trace w
  ∧ m_transactionCount (store w') = m_transactionCount (store w).
Proof.
  destruct w as [[co pd n] f ts tr lg]. unfold dc_sqlite3_close__. cbn -[seq PREDEFINED_CNT].
  destruct co as [c|]; cbn -[seq PREDEFINED_CNT].
  - split_and!; try done. intros _ i st Hi. rewrite clear_slots_lookup.
    rewrite decide_True by (apply elem_of_seq; lia). by destruct (pd !! i).
  - split_and!; try done; by intros [? ?].
Qed.

Lemma close_is_open ths w : (dc_sqlite3_is_open ths (dc_sqlite3_close__ ths w).2).1 = 0.
Proof.
  destruct ths; [done|]. pose proof (close_spec w) as (H & _). cbv zeta in H.
  unfold dc_sqlite3_is_open. by rewrite H.
Qed.

Section OpenFacts.

Variable fingerprint : value → value.

Lemma open_cleanup_eq ths w :
  open_cleanup ths w = (0, (dc_sqlite3_close__ ths w).2).
Proof. unfold open_cleanup. by run. Qed.

(** C10: an open that fails leaves the handle closed; on a handle that is
    already open it does fail, and what it closes is the connection that was
    open, after clearing every slot of the cache. *)
Theorem open_failure_closes (ths : ptr) (dbfile : option string) (flags : Z) (w : world) :
  let r := dc_sqlite3_open__ fingerprint ths dbfile flags w in
  (r.1 = 0 → (dc_sqlite3_is_open ths r.2).1 = 0)
  ∧ ((dc_sqlite3_is_open ths w).1 = 1 →
     r.1 = 0
     ∧ m_cobj (store r.2) = None
     ∧ (∀ i st, (i < PREDEFINED_CNT)%nat → m_pd (store r.2) !! i ≠ Some (Some st))
     ∧ files r.2 = files w).
Proof.
  cbv zeta. split.
  - unfold dc_sqlite3_open__.
    destruct ths; [intros _; rewrite open_cleanup_eq; apply close_is_open|].
    destruct dbfile as [dbfile|]; [|intros _; rewrite open_cleanup_eq; apply close_is_open].
    run. destruct (_ =? 0); run; [intros _; rewrite open_cleanup_eq; apply close_is_open|].
    destruct (negb _); run; [intros _; rewrite open_cleanup_eq; apply close_is_open|].
    destruct (negb _); run; [intros _; rewrite open_cleanup_eq; apply close_is_open|].
    destruct ((if Z.land flags MR_OPEN_READONLY =? 0 then open_readwrite fingerprint THS
               else mret true) _) as [[] w1]; cbn [fst snd]; run.
    + done.
    + intros _. rewrite open_cleanup_eq. apply close_is_open.
  - intros Hopen. unfold dc_sqlite3_is_open in Hopen.
    destruct ths; [done|]. destruct (m_cobj (store w)) as [c|] eqn:Hc; [|done].
    unfold dc_sqlite3_open__.
    assert (Hcl : ∀ l, let w0 := add_log l w in
      (open_cleanup THS w0).1 = 0
      ∧ m_cobj (store (open_cleanup THS w0).2) = None
      ∧ (∀ i st, (i < PREDEFINED_CNT)%nat →
           m_pd (store (open_cleanup THS w0).2) !! i ≠ Some (Some st))
      ∧ files (open_cleanup THS w0).2 = files w).
    { intros l w0. rewrite open_cleanup_eq. cbn [fst snd].
      pose proof (close_spec w0) as (H1 & H2 & H3 & _). cbv zeta in H1, H2, H3.
      split_and!; [done | done | | by rewrite H3].
      apply H2. subst w0. cbn. rewrite Hc. eauto. }
    destruct dbfile as [dbfile|].
    + run. unfold sqlite3_threadsafe. cbn [fst snd].
      destruct (threadsafe w =? 0); run; [apply Hcl|].
      unfold dc_sqlite3_is_open at 1. rewrite Hc. cbn [fst snd].
      change (negb (1 =? 0)) with true. cbv iota. run.
      unfold dc_sqlite3_is_open. rewrite Hc. cbn [snd]. apply Hcl.
    + rewrite open_cleanup_eq. cbn [fst snd].
      pose proof (close_spec w) as (H1 & H2 & H3 & _). cbv zeta in H1, H2, H3.
      split_and!; [done | done | | done]. apply H2. eauto.
Qed.

(** C5: a read-only open of a database succeeds without a single statement:
    the files and the trace are as before, the connection sees the database
    as it is stored, and the config store can be read through it. *)
Theorem open_readonly_skips (dbfile : string) (flags : Z) (db : database) (w : world)
    (key : string) (def : option string) :
  Z.land flags MR_OPEN_READONLY ≠ 0 →
  threadsafe w ≠ 0 →
  m_cobj (store w) = None →
  cache_ok (m_pd (store w)) = true →
  files w !! dbfile = Some (DbFile db) →
  let r := dc_sqlite3_open__ fingerprint THS (Some dbfile) flags w in
  r.1 = 1
  ∧ files r.2 = files w
  ∧ trace r.2 = trace w
  ∧ (dc_sqlite3_is_open THS r.2).1 = 1
  ∧ view true db r.2
  ∧ (dc_sqlite3_get_config__ THS (Some key) def r.2).1 =
      match config_get db key with Some s => Some s | None => def end
  ∧ files (dc_sqlite3_get_config__ THS (Some key) def r.2).2 = files w.
Proof.
  intros Hro Hts Hc Hcache Hf r.
  assert (Hr : r = (1, add_log (Info ("Opened " +:+ dq +:+ "%s" +:+ dq +:+ " successfully."))
                        (set_store (set_cobj (Some (Sqlite3 dbfile true false db
                                                      (sqlite3_errstr SQLITE_OK))) (store w)) w))).
  { subst r. unfold dc_sqlite3_open__. run. unfold sqlite3_threadsafe. cbn [fst snd].
    apply Z.eqb_neq in Hts, Hro. rewrite Hts. run.
    unfold dc_sqlite3_is_open at 1 2. rewrite Hc. cbn [fst snd].
    change (negb (0 =? 0)) with false. cbv iota. run.
    rewrite Hro. cbn [negb]. unfold sqlite3_open_v2. rewrite Hf. cbn [fst snd].
    change (negb (SQLITE_OK =? SQLITE_OK)) with false. cbv iota. by run. }
  rewrite Hr. cbn [fst snd].
  assert (Hv : view true db
    (add_log (Info ("Opened " +:+ dq +:+ "%s" +:+ dq +:+ " successfully."))
       (set_store (set_cobj (Some (Sqlite3 dbfile true false db (sqlite3_errstr SQLITE_OK)))
                            (store w)) w))).
  { eexists. by split_and!. }
  pose proof (get_config_spec _ _ key def _ Hv
    (cache_ok_slot _ SELECT_v_FROM_config_k SELECT_v_FROM_config_k_STATEMENT Hcache ltac:(in_list)))
    as (Hg & _ & _ & _ & Hgf & _).
  split_and!; try done.
Qed.


(** ** Opening, statement by statement *)

Lemma dbversion_writes_app (a b : list event) :
  dbversion_writes (a ++ b) = dbversion_writes a ++ dbversion_writes b.
Proof.
  unfold dbversion_writes. by rewrite config_writes_app, List.filter_app, fmap_app.
Qed.

Lemma dbversion_writes_none evs : config_writes evs = [] → dbversion_writes evs = [].
Proof. unfold dbversion_writes. by intros ->. Qed.

Lemma opening_extend db db' L L' tr0 w w' evs :
  opening db L tr0 w →
  view false db' w' → cache_ok (m_pd (store w')) = true →
  trace w' = trace w ++ evs → dbversion_writes evs = L' →
  opening db' (L ++ L') tr0 w'.
Proof.
  intros (_ & _ & evs0 & Htr & HL) Hv Hc Htr' HL'. split_and!; [done..|].
  exists (evs0 ++ evs). rewrite Htr', Htr, (assoc_L (++)), dbversion_writes_app, HL, HL'. done.
Qed.

Lemma opening_same db db' L tr0 w w' evs :
  opening db L tr0 w →
  view false db' w' → cache_ok (m_pd (store w')) = true →
  trace w' = trace w ++ evs → config_writes evs = [] →
  opening db' L tr0 w'.
Proof.
  intros Ho Hv Hc Htr Hw. rewrite <- (right_id_L [] (++) L).
  eapply opening_extend; eauto. by apply dbversion_writes_none.
Qed.

Lemma keeps_config_other q :
  keeps_config q = true →
  q ≠ INSERT_INTO_config_kv_STATEMENT ∧ q ≠ UPDATE_config_vk_STATEMENT.
Proof. by split; intros ->. Qed.

Lemma exec_opening db L tr0 q :
  sql_writes q = true →
  q ≠ INSERT_INTO_config_kv_STATEMENT → q ≠ UPDATE_config_vk_STATEMENT →
  hoare (opening db L tr0) (dc_sqlite3_execute__ THS q)
        (λ r w, opening (run_sql [] db q) L tr0 w
                ∧ r = if sql_valid db q && bool_decide (is_Some (sql_exec [] db q)) then 1 else 0).
Proof.
  intros Hq H1 H2 w Ho. pose proof Ho as (Hv & Hc & _).
  destruct (execute_spec _ _ q _ Hv Hq) as (Hv' & Hpd & Hr & evs & Htr & _ & Hev).
  split.
  - eapply opening_same; [exact Ho | exact Hv' | by rewrite Hpd | exact Htr |].
    apply config_writes_other. eapply Forall_impl; [exact Hev|]. cbn. by intros e ->.
  - rewrite Hr. by rewrite andb_true_r.
Qed.

Lemma exists_opening db L tr0 name :
  hoare (opening db L tr0) (dc_sqlite3_table_exists__ THS name)
        (λ r w, r = table_exists_db db name ∧ opening db L tr0 w).
Proof.
  intros w Ho. pose proof Ho as (Hv & Hc & _).
  destruct (table_exists_spec _ _ name _ Hv) as (Hr & Hv' & Hpd & evs & Htr & _ & Hev).
  split; [done|].
  eapply opening_same; [exact Ho | exact Hv' | by rewrite Hpd | exact Htr |].
  apply config_writes_other. eapply Forall_impl; [exact Hev|]. cbn. by intros e ->.
Qed.

Lemma setint_opening db L tr0 v :
  config_ok db = true →
  hoare (opening db L tr0) (dc_sqlite3_set_config_int__ THS (Some "dbversion") v)
        (λ r w, opening (config_set db "dbversion" (decimal v)) (L ++ [decimal v]) tr0 w).
Proof.
  intros Hok w Ho. pose proof Ho as (Hv & Hc & _).
  unfold dc_sqlite3_set_config_int__, dc_mprintf_i.
  pose proof (set_config_spec db "dbversion" (Some (decimal v)) w Hv Hc Hok) as H.
  cbv zeta in H. destruct H as (_ & Hv' & Hc' & _ & evs & Htr & Hw).
  eapply opening_extend; [exact Ho | exact Hv' | exact Hc' | exact Htr |].
  unfold dbversion_writes. by rewrite Hw.
Qed.

Lemma getint_opening db L tr0 key def :
  hoare (opening db L tr0) (dc_sqlite3_get_config_int__ THS (Some key) def)
        (λ r w, r = match config_get db key with Some s => to_int32 (atol s) | None => def end
                ∧ opening db L tr0 w).
Proof.
  intros w Ho. pose proof Ho as (Hv & Hc & _).
  pose proof (get_config_int_spec _ _ key def _ Hv
    (cache_ok_slot _ SELECT_v_FROM_config_k SELECT_v_FROM_config_k_STATEMENT Hc ltac:(in_list))) as H.
  cbv zeta in H. destruct H as (Hr & Hv' & Hsl & _ & _ & evs & Htr & Hev).
  split; [done|].
  eapply opening_same; [exact Ho | exact Hv' | | exact Htr |].
  - eapply cache_ok_step; [exact Hc | | exact Hsl]. in_list.
  - apply config_writes_other. eapply Forall_impl; [exact Hev|]. cbn. by intros e ->.
Qed.

Lemma log_opening db L tr0 (m : M unit) :
  (∀ w, ∃ l, (m w).2 = add_log l w) → preserves (opening db L tr0) m.
Proof.
  intros H w (Hv & Hc & Hev). destruct (H w) as [l ->].
  destruct Hv as (c & ? & ? & ?). split_and!; [by exists c | done | done].
Qed.

Lemma log_info_opening db L tr0 msg : preserves (opening db L tr0) (dc_log_info msg).
Proof. apply log_opening. intros w. by eexists. Qed.

Lemma log_error_opening db L tr0 msg : preserves (opening db L tr0) (dc_log_error msg).
Proof. apply log_opening. intros w. by eexists. Qed.

Lemma sqlite3_log_error_opening db L tr0 msg :
  preserves (opening db L tr0) (dc_sqlite3_log_error msg).
Proof. apply log_opening. intros w. by eexists. Qed.

Lemma step_cursor ro db st col t cond w :
  view ro db w → st_sql st = SELECT col t cond →
  let r := sqlite3_step (Some st) w in
  view ro db r.2
  ∧ m_pd (store r.2) = m_pd (store w)
  ∧ trace r.2 = trace w ++ [EvStep (SELECT col t cond) (st_args st) r.1.1]
  ∧ ∃ st', r.1.2 = Some st' ∧ st_sql st' = SELECT col t cond.
Proof.
  intros (c & Hc & Hro & Hdb) Hq r. subst r.
  destruct w as [[co pd n] f ts tr lg]. simpl in Hc. subst co.
  unfold sqlite3_step, engine_step, cursor_step. rewrite Hq. cbn -[sql_valid select_rows].
  destruct (sql_valid (c_data c) _); cbn -[select_rows].
  - destruct (default _ (st_rest st)); cbn; split_and!; try done; try (by exists c); eauto.
  - split_and!; try done; [by exists (set_errmsg SQLITE_ERROR c) | eauto].
Qed.

Lemma recalc_frame addr db n :
  n ≠ "acpeerstates" →
  db_tables (dc_apeerstate_recalc fingerprint addr db) !! n = db_tables db !! n.
Proof.
  intros Hn. unfold dc_apeerstate_recalc. destruct (db_tables db !! "acpeerstates"); [|done].
  by apply put_table_lookup_ne.
Qed.

Lemma resave_spec db addr w :
  view false db w →
  let w' := (dc_apeerstate_resave fingerprint THS addr w).2 in
  view false (match addr with Some a => dc_apeerstate_recalc fingerprint a db | None => db end) w'
  ∧ m_pd (store w') = m_pd (store w)
  ∧ trace w' = trace w.
Proof.
  intros (c & Hc & Hro & Hdb) w'. subst w'. unfold dc_apeerstate_resave. rewrite Hc.
  destruct addr as [a|]; cbn.
  - split_and!; try done. eexists. split_and!; [done | done |]. cbn. by rewrite Hdb.
  - split_and!; try done. by exists c.
Qed.

Lemma select_addr_writes args rc :
  config_writes [EvStep (SELECT "addr" "acpeerstates" CTrue) args rc] = [].
Proof. unfold config_writes. cbn. by destruct (rc =? SQLITE_DONE). Qed.

Lemma recalc_loop_opening L tr0 fuel stmt db w :
  (∀ st, stmt = Some st → st_sql st = SELECT "addr" "acpeerstates" CTrue) →
  opening db L tr0 w →
  ∃ db', opening db' L tr0 (recalc_loop fingerprint fuel THS stmt w).2
         ∧ ∀ n, n ≠ "acpeerstates" → db_tables db' !! n = db_tables db !! n.
Proof.
  revert stmt db w. induction fuel as [|fuel IH]; intros stmt db w Hst Ho.
  { exists db. by split. }
  cbn [recalc_loop]. run. destruct stmt as [st|].
  2:{ exists db. split; [|done]. unfold sqlite3_step. cbn [fst snd].
      change (SQLITE_MISUSE =? SQLITE_ROW) with false. by cbv iota. }
  pose proof Ho as (Hv & Hc & _).
  pose proof (step_cursor _ _ st _ _ _ _ Hv (Hst _ eq_refl)) as H. cbv zeta in H.
  destruct (sqlite3_step (Some st) w) as [[rc o] w1]. cbn [fst snd] in H |- *.
  destruct H as (Hv1 & Hpd1 & Htr1 & st' & -> & Hq').
  assert (Ho1 : opening db L tr0 w1).
  { eapply opening_same; [exact Ho | exact Hv1 | by rewrite Hpd1 | exact Htr1 |].
    apply select_addr_writes. }
  destruct (rc =? SQLITE_ROW); [|by exists db].
  run.
  pose proof (resave_spec db (sqlite3_column_text (Some st')) w1 Hv1) as H. cbv zeta in H.
  destruct H as (Hv2 & Hpd2 & Htr2).
  set (db2 := match sqlite3_column_text (Some st') with
              | Some a => dc_apeerstate_recalc fingerprint a db
              | None => db
              end) in *.
  assert (Ho2 : opening db2 L tr0 (dc_apeerstate_resave fingerprint THS
                                     (sqlite3_column_text (Some st')) w1).2).
  { apply (opening_same db db2 L tr0 w1 _ [] Ho1 Hv2);
      [by rewrite Hpd2, Hpd1 | by rewrite Htr2, (right_id_L [] (++)) | done]. }
  destruct (IH (Some st') db2 _ ltac:(by intros ? [= <-]) Ho2) as (db' & Ho' & Hfr).
  exists db'. split; [done|]. intros n Hn. rewrite (Hfr n Hn). subst db2.
  destruct (sqlite3_column_text _); [|done]. by apply recalc_frame.
Qed.

Lemma prepare_opening db L tr0 q :
  q ≠ INSERT_INTO_config_kv_STATEMENT → q ≠ UPDATE_config_vk_STATEMENT →
  hoare (opening db L tr0) (dc_sqlite3_prepare_v2_ THS (Some q))
        (λ r w, opening db L tr0 w
                ∧ r = if sql_valid db q then Some (Stmt q [] None None) else None).
Proof.
  intros H1 H2 w Ho. pose proof Ho as ((c & Hc & Hro & Hdb) & Hcache & _).
  rewrite (prepare_eq _ _ _ Hc), Hdb.
  destruct (sql_valid db q); cbn [fst snd]; (split; [|done]).
  - eapply (opening_same _ _ _ _ _ _ [EvPrepare q SQLITE_OK]); [exact Ho | by exists c | done | done | done].
  - eapply (opening_same _ _ _ _ _ _ [EvPrepare q SQLITE_ERROR]); [exact Ho | | done | done | done].
    by exists (set_errmsg SQLITE_ERROR c).
Qed.

Lemma recalc_opening db L tr0 :
  hoare (opening db L tr0) (open_recalc_fingerprints fingerprint THS)
        (λ _ w, ∃ db', opening db' L tr0 w
                       ∧ ∀ n, n ≠ "acpeerstates" → db_tables db' !! n = db_tables db !! n).
Proof.
  intros w Ho. unfold open_recalc_fingerprints. run.
  pose proof (prepare_opening db L tr0 (SELECT "addr" "acpeerstates" CTrue)
                ltac:(done) ltac:(done) w Ho) as [Ho1 Hr].
  destruct (dc_sqlite3_prepare_v2_ _ _ w) as [stmt w1]. cbn [fst snd] in Ho1, Hr |- *.
  unfold row_count at 1 2. cbn [fst snd]. unfold sqlite3_finalize. run.
  apply recalc_loop_opening; [|done].
  intros st ->. by destruct (sql_valid db _); simplify_eq.
Qed.

(** Without a peer state the pass changes nothing. *)
Lemma recalc_opening_empty db L tr0 :
  sql_valid db (SELECT "addr" "acpeerstates" CTrue) = true →
  select_rows [] db "addr" "acpeerstates" CTrue = [] →
  preserves (opening db L tr0) (open_recalc_fingerprints fingerprint THS).
Proof.
  intros Hvalid Hrows w Ho. unfold open_recalc_fingerprints. run.
  pose proof (prepare_opening db L tr0 (SELECT "addr" "acpeerstates" CTrue)
                ltac:(done) ltac:(done) w Ho) as [Ho1 Hr].
  destruct (dc_sqlite3_prepare_v2_ _ _ w) as [stmt w1]. cbn [fst snd] in Ho1, Hr |- *.
  rewrite Hvalid in Hr. subst stmt.
  unfold row_count at 1 2. cbn [fst snd]. unfold sqlite3_finalize. run.
  cbn [recalc_loop]. run.
  pose proof Ho1 as (Hv1 & Hc1 & _).
  pose proof (step_select _ _ "addr" "acpeerstates" CTrue [] _ Hv1) as H. cbv zeta in H.
  destruct (sqlite3_step _ w1) as [[rc o] w2]. cbn [fst snd] in H |- *.
  destruct H as (Hv2 & Hpd2 & _ & _ & Htr2 & Hres).
  rewrite Hvalid, Hrows in Hres. injection Hres as -> _.
  change (SQLITE_DONE =? SQLITE_ROW) with false. cbv iota. rewrite ret_run. cbn [snd].
  eapply opening_same; [exact Ho1 | exact Hv2 | by rewrite Hpd2 | exact Htr2 |].
  apply select_addr_writes.
Qed.

(** ** The ladder *)

Lemma config_same db db' :
  db_tables db' !! "config" = db_tables db !! "config" →
  config_ok db' = config_ok db
  ∧ table_exists_db db' "config" = table_exists_db db "config"
  ∧ ∀ k, config_get db' k = config_get db k.
Proof.
  intros H. unfold config_ok, table_exists_db, config_get, config_rows, select_rows.
  cbn. by rewrite H.
Qed.

Lemma run_sql_keeps args db q :
  keeps_config q = true →
  db_tables (run_sql args db q) !! "config" = db_tables db !! "config".
Proof.
  intros Hk. unfold run_sql. destruct (sql_valid db q); [|done].
  destruct q; cbn in Hk |- *; try done;
    apply negb_true_iff, String.eqb_neq in Hk;
    destruct (db_tables db !! t) as [tb|]; cbn; try done;
    try (by apply put_table_lookup_ne).
  destruct (insert_rows _ _ _ _); cbn; [|done]. by apply put_table_lookup_ne.
Qed.

Lemma exec_migrating sv L tr0 q :
  sql_writes q = true → keeps_config q = true →
  preserves (migrating sv L tr0) (dc_sqlite3_execute__ THS q).
Proof.
  intros Hq Hk w (db & Ho & Hok & Hget).
  destruct (keeps_config_other q Hk) as [H1 H2].
  destruct (exec_opening db L tr0 q Hq H1 H2 w Ho) as [Ho' _].
  exists (run_sql [] db q). split; [done|].
  destruct (config_same db (run_sql [] db q) (run_sql_keeps _ _ _ Hk)) as (E1 & _ & E2).
  by rewrite E1, E2.
Qed.

Lemma setint_migrating sv L tr0 v :
  hoare (migrating sv L tr0) (dc_sqlite3_set_config_int__ THS (Some "dbversion") v)
        (λ _, migrating (Some (decimal v)) (L ++ [decimal v]) tr0).
Proof.
  intros w (db & Ho & Hok & Hget).
  exists (config_set db "dbversion" (decimal v)).
  destruct (config_set_spec db "dbversion" (decimal v) Hok) as (Hg & Hok' & _).
  split_and!; [|done..]. by apply setint_opening.
Qed.

Lemma recalc_migrating sv L tr0 :
  preserves (migrating sv L tr0) (open_recalc_fingerprints fingerprint THS).
Proof.
  intros w (db & Ho & Hok & Hget).
  destruct (recalc_opening db L tr0 w Ho) as (db' & Ho' & Hfr).
  exists db'. split; [done|].
  destruct (config_same db db' (Hfr "config" ltac:(done))) as (E1 & _ & E2).
  by rewrite E1, E2.
Qed.

Lemma rung_migrating tr0 (s : Z * option string * list string) target body :
  preserves (migrating s.1.2 s.2 tr0) body →
  hoare (migrating s.1.2 s.2 tr0) (rung THS s.1.1 target body)
        (λ r w, r = (rung_state target s).1.1
                ∧ migrating (rung_state target s).1.2 (rung_state target s).2 tr0 w).
Proof.
  intros Hb. unfold rung, rung_state. destruct (s.1.1 <? target).
  - eapply hoare_bind; [exact Hb|]. intros ?.
    eapply hoare_bind; [apply setint_migrating|]. intros ?.
    apply hoare_ret. intros w Hw. by split.
  - apply hoare_ret. intros w Hw. by split.
Qed.

(** The bodies of the rungs leave the config table alone. *)
Ltac body_migrating :=
  repeat first
    [ apply preserves_ret
    | apply preserves_bind; [apply exec_migrating; reflexivity | intros ?]
    | apply preserves_if ].

Lemma rung_bodies_migrating sv L tr0 v0 :
  preserves (migrating sv L tr0) (rung_1 THS)
  ∧ preserves (migrating sv L tr0) (rung_2 THS)
  ∧ preserves (migrating sv L tr0) (rung_7 THS)
  ∧ preserves (migrating sv L tr0) (rung_10 THS)
  ∧ preserves (migrating sv L tr0) (rung_12 THS)
  ∧ preserves (migrating sv L tr0) (rung_17 THS)
  ∧ preserves (migrating sv L tr0) (rung_18 THS)
  ∧ preserves (migrating sv L tr0) (rung_27 THS)
  ∧ preserves (migrating sv L tr0) (rung_34 THS)
  ∧ preserves (migrating sv L tr0) (rung_39 THS v0)
  ∧ preserves (migrating sv L tr0) (rung_40 THS).
Proof.
  unfold rung_1, rung_2, rung_7, rung_10, rung_12, rung_17, rung_18, rung_27, rung_34,
    rung_39, rung_40.
  split_and!; body_migrating.
Qed.

Lemma rung_chain {B} tr0 (s : Z * option string * list string) target body
    (k : Z → M B) (R : B → world → Prop) :
  preserves (migrating s.1.2 s.2 tr0) body →
  (let s' := rung_state target s in hoare (migrating s'.1.2 s'.2 tr0) (k s'.1.1) R) →
  hoare (migrating s.1.2 s.2 tr0) (rung THS s.1.1 target body ≫= k) R.
Proof.
  intros Hb Hk. eapply hoare_bind; [by apply rung_migrating|].
  intros r w [-> Hw]. by apply Hk.
Qed.

Lemma open_update_migrating tr0 v0 sv L :
  hoare (migrating sv L tr0) (open_update fingerprint THS v0)
        (λ _ w, let s := foldl (λ s t, rung_state t s) (v0, sv, L) ladder_targets in
                migrating s.1.2 s.2 tr0 w).
Proof.
  unfold open_update, ladder_targets. cbn [foldl].
  pose proof (λ sv L, rung_bodies_migrating sv L tr0 v0) as Hb.
  apply (rung_chain tr0 (v0, sv, L)); [apply Hb|]. intros s1. cbv beta.
  apply (rung_chain tr0 s1); [apply Hb|]. intros s2. cbv beta.
  apply (rung_chain tr0 s2); [apply Hb|]. intros s3. cbv beta.
  apply (rung_chain tr0 s3); [apply Hb|]. intros s4. cbv beta.
  apply (rung_chain tr0 s4); [apply Hb|]. intros s5. cbv beta.
  apply (rung_chain tr0 s5); [apply Hb|]. intros s6. cbv beta.
  apply (rung_chain tr0 s6); [apply Hb|]. intros s7. cbv beta.
  apply (rung_chain tr0 s7); [apply Hb|]. intros s8. cbv beta zeta.
  apply (rung_chain tr0 s8); [apply Hb|]. intros s9. cbv beta.
  apply (rung_chain tr0 s9); [apply Hb|]. intros s10. cbv beta.
  apply (rung_chain tr0 s10); [apply Hb|]. intros s11. cbv beta.
  apply preserves_if; [apply recalc_migrating | apply preserves_ret].
Qed.

Lemma rung_state_hit t dbv sv L :
  dbv < t → rung_state t (dbv, sv, L) = (t, Some (decimal t), L ++ [decimal t]).
Proof. intros H. unfold rung_state. cbn [fst snd]. by rewrite (proj2 (Z.ltb_lt dbv t)). Qed.

Lemma rung_state_miss t dbv sv L :
  t ≤ dbv → rung_state t (dbv, sv, L) = (dbv, sv, L).
Proof. intros H. unfold rung_state. cbn [fst snd]. by rewrite (proj2 (Z.ltb_ge dbv t)). Qed.

Ltac decide_ltb :=
  repeat match goal with
         | |- context [?a <? ?b] =>
             first [ rewrite (proj2 (Z.ltb_lt a b)) by lia
                   | rewrite (proj2 (Z.ltb_ge a b)) by lia ]
         end.

Lemma ladder_result v0 sv L :
  let s := foldl (λ s t, rung_state t s) (v0, sv, L) ladder_targets in
  s.2 = L ++ (decimal <$> List.filter (λ t, v0 <? t) ladder_targets)
  ∧ (v0 < 40 → s.1.2 = Some (decimal 40)).
Proof.
  unfold ladder_targets. cbn [foldl List.filter].
  assert (Hcase : v0 < 1 ∨ 1 ≤ v0 < 2 ∨ 2 ≤ v0 < 7 ∨ 7 ≤ v0 < 10 ∨ 10 ≤ v0 < 12
                  ∨ 12 ≤ v0 < 17 ∨ 17 ≤ v0 < 18 ∨ 18 ≤ v0 < 27 ∨ 27 ≤ v0 < 34
                  ∨ 34 ≤ v0 < 39 ∨ 39 ≤ v0 < 40 ∨ 40 ≤ v0) by lia.
  repeat (destruct Hcase as [Hcase|Hcase]);
    repeat first [ rewrite rung_state_hit by lia | rewrite rung_state_miss by lia ];
    decide_ltb; cbn [fmap list_fmap fst snd];
    rewrite <- ?(assoc_L (++)); cbn [app]; rewrite ?(right_id_L [] (++));
    (split; [reflexivity | first [reflexivity | lia]]).
Qed.

(** ** Bootstrap *)

Lemma hoare_pre {A} (P : Prop) (Q : world → Prop) (m : M A) (R : A → world → Prop) :
  (P → hoare Q m R) → hoare (λ w, P ∧ Q w) m R.
Proof. intros H w [HP HQ]. by apply H. Qed.

Lemma tables_missing_opening db L tr0 :
  hoare (opening db L tr0) (open_tables_missing THS)
        (λ r w, r = tables_missing_db db ∧ opening db L tr0 w).
Proof.
  unfold open_tables_missing, tables_missing_db.
  repeat (eapply hoare_bind; [apply exists_opening|];
          intros ?; cbv beta; apply hoare_pre; intros ->;
          match goal with |- context [table_exists_db db ?n =? 0] =>
            destruct (table_exists_db db n =? 0) eqn:?
          end;
          [ apply hoare_ret; intros w Hw; split; [|done]; by rewrite ?orb_true_r | ];
          cbn [orb]).
  apply hoare_ret. by intros w Hw.
Qed.

Lemma hoare_ex {A X} (P : X → world → Prop) (m : M A) (Q : A → world → Prop) :
  (∀ x, hoare (P x) m Q) → hoare (λ w, ∃ x, P x w) m Q.
Proof. intros H w [x Hx]. by eapply H. Qed.

Lemma schema_ok_same db db' :
  db_tables db' !! "config" = db_tables db !! "config" → schema_ok db' = schema_ok db.
Proof.
  intros H. unfold schema_ok. by destruct (config_same db db' H) as (-> & -> & _).
Qed.

Lemma exec_bootstrapping tr0 q :
  sql_writes q = true → keeps_config q = true ∨ q = CREATE_config →
  preserves (bootstrapping tr0) (dc_sqlite3_execute__ THS q).
Proof.
  intros Hq Hk w (db & Ho & Hs).
  assert (q ≠ INSERT_INTO_config_kv_STATEMENT ∧ q ≠ UPDATE_config_vk_STATEMENT) as [H1 H2].
  { destruct Hk as [Hk| ->]; [by apply keeps_config_other|done]. }
  destruct (exec_opening db [] tr0 q Hq H1 H2 w Ho) as [Ho' _].
  exists (run_sql [] db q). split; [done|].
  destruct Hk as [Hk| ->].
  - by rewrite (schema_ok_same _ _ (run_sql_keeps [] db q Hk)).
  - unfold run_sql. destruct (sql_valid db CREATE_config); [|done].
    unfold schema_ok, config_ok. cbn [sql_exec CREATE_config from_option id].
    rewrite put_table_lookup. apply orb_true_r.
Qed.

Lemma log_bootstrapping tr0 (m : M unit) :
  (∀ w, ∃ l, (m w).2 = add_log l w) → preserves (bootstrapping tr0) m.
Proof.
  intros H w (db & Ho & Hs). exists db. split; [|done]. by apply (log_opening db [] tr0 m H).
Qed.

Lemma init_tables_migrating tr0 :
  hoare (bootstrapping tr0) (open_init_tables THS)
        (λ ok w, ok = true → migrating (Some (decimal 0)) [decimal 0] tr0 w).
Proof.
  unfold open_init_tables.
  eapply hoare_bind; [apply log_bootstrapping; intros w; by eexists|]. intros ?.
  do 19 (eapply hoare_bind;
         [apply exec_bootstrapping; [reflexivity | first [by left | by right]]|]; intros ?).
  intros w (db & Ho & Hs). rewrite bind_run.
  pose proof (tables_missing_opening db [] tr0 w Ho) as [Hr Ho1].
  destruct (open_tables_missing THS w) as [missing w1]. cbn [fst snd] in Hr, Ho1 |- *.
  subst missing. destruct (tables_missing_db db) eqn:Hm; run; [done|].
  intros _. cbn [snd].
  assert (Hok : config_ok db = true).
  { unfold tables_missing_db in Hm. unfold schema_ok in Hs.
    destruct (table_exists_db db "config" =? 0); [done|]. exact Hs. }
  exists (config_set db "dbversion" (decimal 0)).
  destruct (config_set_spec db "dbversion" (decimal 0) Hok) as (Hg & Hok' & _).
  split_and!; [|done..]. by apply (setint_opening db [] tr0 0 Hok w1).
Qed.

Lemma open_readwrite_migrating tr0 db0 :
  schema_ok db0 = true →
  hoare (opening db0 [] tr0) (open_readwrite fingerprint THS)
        (λ ok w, ok = true →
           let s := foldl (λ s t, rung_state t s)
                      (dbversion_at_open db0,
                       (if table_exists_db db0 "config" =? 0 then Some (decimal 0)
                        else config_get db0 "dbversion"),
                       (if table_exists_db db0 "config" =? 0 then [decimal 0] else []))
                      ladder_targets in
           migrating s.1.2 s.2 tr0 w).
Proof.
  intros Hs. unfold open_readwrite, dbversion_at_open.
  eapply hoare_bind; [apply exists_opening|]. intros e. apply hoare_pre. intros ->.
  destruct (table_exists_db db0 "config" =? 0) eqn:He.
  - eapply hoare_bind.
    + eapply hoare_weaken; [apply (init_tables_migrating tr0) | | intros ? ? H; exact H].
      intros w Ho. by exists db0.
    + intros [].
      * eapply hoare_bind.
        { eapply hoare_weaken; [apply (open_update_migrating tr0 0) | | intros ? ? H; exact H].
          intros w Hw. by apply Hw. }
        intros ?. apply hoare_ret. by intros w Hw _.
      * apply hoare_ret. by intros w Hw.
  - assert (Hok : config_ok db0 = true) by (unfold schema_ok in Hs; by rewrite He in Hs).
    eapply hoare_bind; [apply getint_opening|]. intros v. apply hoare_pre. intros ->.
    eapply hoare_bind.
    { eapply hoare_weaken; [apply (open_update_migrating tr0) | | intros ? ? H; exact H].
      intros w Hw. by exists db0. }
    intros ?. apply hoare_ret. by intros w Hw _.
Qed.

Lemma migrating_get sv L tr0 w def :
  migrating sv L tr0 w →
  stored w "dbversion" = sv
  ∧ (dc_sqlite3_get_config_int__ THS (Some "dbversion") def w).1
    = match sv with Some s => to_int32 (atol s) | None => def end
  ∧ ∃ evs, trace w = tr0 ++ evs ∧ dbversion_writes evs = L.
Proof.
  intros (db & Ho & Hok & Hget). pose proof Ho as (Hv & Hc & Hev).
  split_and!; [| |done].
  - by rewrite (view_stored _ _ _ _ Hv).
  - destruct (getint_opening db L tr0 "dbversion" def w Ho) as [-> _]. by rewrite Hget.
Qed.

Lemma migrating_log sv L tr0 l w : migrating sv L tr0 w → migrating sv L tr0 (add_log l w).
Proof.
  intros (db & Ho & Hok & Hget). exists db. split; [|done].
  apply (log_opening db L tr0 (dc_log_info "") (λ w, ex_intro _ _ eq_refl) w) in Ho.
  destruct Ho as ((c & ? & ? & ?) & ? & ?). split_and!; [by exists c | done | done].
Qed.


(** ** The statements an open prepares *)

Lemma emits_ret {A} allowed (a : A) : emits allowed (mret a).
Proof. intros w Hw. split; [done|]. exists []. by rewrite (right_id_L [] (++)). Qed.

Lemma emits_bind {A B} allowed (m : M A) (f : A → M B) :
  emits allowed m → (∀ a, emits allowed (f a)) → emits allowed (m ≫= f).
Proof.
  intros Hm Hf w Hw. rewrite bind_run.
  destruct (Hm w Hw) as (Hw1 & evs1 & Htr1 & Hev1).
  destruct (Hf (m w).1 (m w).2 Hw1) as (Hw2 & evs2 & Htr2 & Hev2).
  split; [done|]. exists (evs1 ++ evs2). rewrite Htr2, Htr1, (assoc_L (++)).
  split; [done|]. by apply Forall_app.
Qed.

Lemma emits_log allowed (m : M unit) :
  (∀ w, ∃ l, (m w).2 = add_log l w) → emits allowed m.
Proof.
  intros H w Hw. destruct (H w) as [l ->]. split; [done|].
  exists []. by rewrite (right_id_L [] (++)).
Qed.

Lemma emits_same {A} allowed (m : M A) :
  (∀ w, (m w).2 = w) → emits allowed m.
Proof.
  intros H w Hw. rewrite H. split; [done|]. exists []. by rewrite (right_id_L [] (++)).
Qed.

Lemma emits_log_info allowed msg : emits allowed (dc_log_info msg).
Proof. apply emits_log. intros w. by eexists. Qed.

Lemma emits_log_error allowed msg : emits allowed (dc_log_error msg).
Proof. apply emits_log. intros w. by eexists. Qed.

Lemma emits_sqlite3_log_error allowed msg : emits allowed (dc_sqlite3_log_error msg).
Proof. apply emits_log. intros w. by eexists. Qed.

Lemma emits_is_open allowed ths : emits allowed (dc_sqlite3_is_open ths).
Proof. apply emits_same. intros w. unfold dc_sqlite3_is_open. by repeat case_match. Qed.

Lemma emits_finalize allowed st : emits allowed (sqlite3_finalize st).
Proof. by apply emits_same. Qed.

Lemma emits_row_count allowed t : emits allowed (row_count t).
Proof. by apply emits_same. Qed.

Lemma emits_step allowed st : emits allowed (sqlite3_step st).
Proof.
  intros w Hw. destruct st as [st|].
  - destruct (step_any st w Hw) as (Ho & _ & Htr). split; [done|].
    eexists. split; [exact Htr|]. by repeat constructor.
  - unfold sqlite3_step. cbn. split; [done|]. exists []. by rewrite (right_id_L [] (++)).
Qed.

Lemma emits_prepare allowed ths q :
  allowed q = true → emits allowed (dc_sqlite3_prepare_v2_ ths (Some q)).
Proof.
  intros Hq w [c Hc]. destruct ths.
  { unfold dc_sqlite3_prepare_v2_. cbn. split; [by rewrite Hc|].
    exists []. by rewrite (right_id_L [] (++)). }
  rewrite (prepare_eq _ _ _ Hc). destruct (sql_valid _ _); cbn.
  - split; [by rewrite Hc|]. exists [EvPrepare q SQLITE_OK]. split; [done|]. by repeat constructor.
  - split; [done|]. exists [EvPrepare q SQLITE_ERROR]. split; [done|]. by repeat constructor.
Qed.

Lemma emits_predefine allowed ths idx q :
  allowed q = true → emits allowed (dc_sqlite3_predefine__ ths idx (Some q)).
Proof.
  intros Hq w [c Hc]. destruct w as [[co pd n] f ts tr lg]. simpl in Hc. subst co.
  assert (Hnil : ∃ evs : list event, tr = tr ++ evs ∧ Forall (allowed_event allowed) evs).
  { exists []. by rewrite (right_id_L [] (++)). }
  assert (Hone : ∀ rc, ∃ evs : list event, tr ++ [EvPrepare q rc] = tr ++ evs
                         ∧ Forall (allowed_event allowed) evs).
  { intros rc. exists [EvPrepare q rc]. split; [done|]. by repeat constructor. }
  unfold dc_sqlite3_predefine__, sqlite3_prepare_v2. destruct ths; [by cbn|].
  cbn -[Nat.leb PREDEFINED_CNT].
  destruct (PREDEFINED_CNT <=? idx)%nat; [by cbn|].
  destruct (pd !! idx) as [[st|]|]; cbn; [done | |];
    destruct (sql_valid (c_data c) q); cbn; eauto.
Qed.

Lemma emits_resave allowed ths addr : emits allowed (dc_apeerstate_resave fingerprint ths addr).
Proof.
  intros w [c Hc]. unfold dc_apeerstate_resave. rewrite Hc.
  destruct addr; cbn; (split; [by rewrite ?Hc|]); exists []; by rewrite (right_id_L [] (++)).
Qed.

(** The functions of the file, from these. *)
Ltac emits_step_tac :=
  first
    [ apply emits_ret
    | apply emits_log_info | apply emits_log_error | apply emits_sqlite3_log_error
    | apply emits_is_open | apply emits_finalize | apply emits_row_count
    | apply emits_step | apply emits_resave
    | apply emits_prepare; first [reflexivity | assumption | eauto]
    | apply emits_predefine; first [reflexivity | assumption | eauto]
    | apply emits_bind; [| let x := fresh "x" in intros x;
                           try match type of x with
                               | (_ * _)%type => destruct x
                               end ]
    | match goal with
      | |- emits _ (match ?x with _ => _ end) => destruct x
      end ].

Ltac emits_tac := repeat emits_step_tac.

Lemma emits_execute allowed ths q :
  allowed q = true → emits allowed (dc_sqlite3_execute__ ths q).
Proof. intros Hq. unfold dc_sqlite3_execute__. emits_tac. Qed.

Lemma emits_table_exists allowed ths name :
  allowed (PRAGMA_table_info name) = true → emits allowed (dc_sqlite3_table_exists__ ths name).
Proof. intros Hq. unfold dc_sqlite3_table_exists__. emits_tac. Qed.

Lemma emits_set_config allowed ths key value :
  allows_config allowed → emits allowed (dc_sqlite3_set_config__ ths key value).
Proof. intros (? & ? & ? & ?). unfold dc_sqlite3_set_config__. emits_tac. Qed.

Lemma emits_get_config allowed ths key def :
  allows_config allowed → emits allowed (dc_sqlite3_get_config__ ths key def).
Proof. intros (? & ? & ? & ?). unfold dc_sqlite3_get_config__. emits_tac. Qed.

Lemma emits_get_config_int allowed ths key def :
  allows_config allowed → emits allowed (dc_sqlite3_get_config_int__ ths key def).
Proof.
  intros H. unfold dc_sqlite3_get_config_int__.
  apply emits_bind; [by apply emits_get_config|]. intros []; apply emits_ret.
Qed.

Lemma emits_set_config_int allowed ths key v :
  allows_config allowed → emits allowed (dc_sqlite3_set_config_int__ ths key v).
Proof. intros H. unfold dc_sqlite3_set_config_int__. by apply emits_set_config. Qed.

Section Emits.

Variable allowed : sql → bool.
Hypothesis allowed_others : ∀ q, not_copy q = true → allowed q = true.

Lemma allowed_config : allows_config allowed.
Proof. by split_and!; apply allowed_others. Qed.

Ltac emits_open :=
  repeat first
    [ apply emits_execute; apply allowed_others; reflexivity
    | apply emits_table_exists; apply allowed_others; reflexivity
    | apply emits_set_config_int; apply allowed_config
    | apply emits_get_config_int; apply allowed_config
    | apply emits_prepare; apply allowed_others; reflexivity
    | emits_step_tac ].

Lemma emits_recalc_loop fuel ths stmt :
  emits allowed (recalc_loop fingerprint fuel ths stmt).
Proof.
  revert stmt. induction fuel as [|fuel IH]; intros stmt; cbn [recalc_loop]; [apply emits_ret|].
  apply emits_bind; [apply emits_step|]. intros [rc st].
  destruct (rc =? SQLITE_ROW); [|apply emits_ret].
  apply emits_bind; [apply emits_resave|]. intros ?. apply IH.
Qed.

Lemma emits_recalc ths : emits allowed (open_recalc_fingerprints fingerprint ths).
Proof.
  unfold open_recalc_fingerprints.
  apply emits_bind; [apply emits_prepare; by apply allowed_others|]. intros stmt.
  apply emits_bind; [apply emits_row_count|]. intros n.
  apply emits_bind; [apply emits_recalc_loop|]. intros ?. apply emits_finalize.
Qed.

Lemma emits_tables_missing ths : emits allowed (open_tables_missing ths).
Proof. unfold open_tables_missing. emits_open. Qed.

Lemma emits_init_tables ths : emits allowed (open_init_tables ths).
Proof.
  unfold open_init_tables.
  repeat (apply emits_bind;
          [first [apply emits_log_info
                 | apply emits_execute; apply allowed_others; reflexivity]|]; intros ?).
  apply emits_bind; [apply emits_tables_missing|]. intros [].
  - emits_open.
  - emits_open.
Qed.

Lemma emits_rung ths dbversion target body :
  emits allowed body → emits allowed (rung ths dbversion target body).
Proof.
  intros Hb. unfold rung. destruct (dbversion <? target); [|apply emits_ret].
  apply emits_bind; [done|]. intros ?.
  apply emits_bind; [apply emits_set_config_int, allowed_config|]. intros ?. apply emits_ret.
Qed.

Lemma emits_rung_bodies ths :
  emits allowed (rung_1 ths) ∧ emits allowed (rung_2 ths) ∧ emits allowed (rung_7 ths)
  ∧ emits allowed (rung_10 ths) ∧ emits allowed (rung_12 ths) ∧ emits allowed (rung_17 ths)
  ∧ emits allowed (rung_18 ths) ∧ emits allowed (rung_27 ths) ∧ emits allowed (rung_34 ths)
  ∧ emits allowed (rung_40 ths).
Proof.
  unfold rung_1, rung_2, rung_7, rung_10, rung_12, rung_17, rung_18, rung_27, rung_34, rung_40.
  split_and!; emits_open.
Qed.

Lemma emits_rung_39 ths v0 :
  v0 ≠ 34 ∨ (allowed UPDATE_verified_from_gossip = true
             ∧ allowed UPDATE_verified_from_public = true) →
  emits allowed (rung_39 ths v0).
Proof.
  intros Hv. unfold rung_39.
  do 4 (apply emits_bind; [apply emits_execute; apply allowed_others; reflexivity|]; intros ?).
  destruct (Z.eqb_spec v0 34) as [->|Hne]; [|apply emits_ret].
  destruct Hv as [?|[? ?]]; [done|].
  do 2 (apply emits_bind; [by apply emits_execute|]; intros ?). apply emits_ret.
Qed.

Lemma emits_open_update ths v0 :
  v0 ≠ 34 ∨ (allowed UPDATE_verified_from_gossip = true
             ∧ allowed UPDATE_verified_from_public = true) →
  emits allowed (open_update fingerprint ths v0).
Proof.
  intros Hv. unfold open_update.
  destruct (emits_rung_bodies ths) as (? & ? & ? & ? & ? & ? & ? & ? & ? & ?).
  pose proof (emits_rung_39 ths v0 Hv).
  repeat (apply emits_bind; [by apply emits_rung|]; intros ?).
  cbv zeta. repeat (apply emits_bind; [by apply emits_rung|]; intros ?).
  match goal with |- emits _ (if ?b then _ else _) => destruct b end;
    [apply emits_recalc | apply emits_ret].
Qed.

End Emits.

Lemma prepared_app (a b : list event) : prepared (a ++ b) = prepared a ++ prepared b.
Proof. apply omap_app. Qed.

Lemma not_copy_prepared evs :
  Forall (allowed_event not_copy) evs →
  (UPDATE_verified_from_gossip ∉ prepared evs) ∧ (UPDATE_verified_from_public ∉ prepared evs).
Proof.
  induction 1 as [|e evs He _ [IH1 IH2]]; [split; apply not_elem_of_nil|].
  destruct e as [q rc|]; [|done]. cbn in He. unfold not_copy in He.
  apply andb_true_iff in He as [H1 H2].
  apply negb_true_iff, bool_decide_eq_false in H1, H2.
  change (prepared (EvPrepare q rc :: evs)) with (q :: prepared evs).
  split; intros [?|?]%elem_of_cons; congruence.
Qed.

Lemma rung_skip ths dbv t body : t ≤ dbv → rung ths dbv t body = mret dbv.
Proof. intros H. unfold rung. by rewrite (proj2 (Z.ltb_ge dbv t)). Qed.

Lemma rung_hit ths dbv t body :
  dbv < t →
  rung ths dbv t body
  = (body ≫= λ _, dc_sqlite3_set_config_int__ ths (Some "dbversion") t ≫= λ _, mret t).
Proof. intros H. unfold rung. by rewrite (proj2 (Z.ltb_lt dbv t)). Qed.

Lemma ret_bind {A B} (a : A) (f : A → M B) : (mret a ≫= f) = f a.
Proof. reflexivity. Qed.

Lemma all_allowed : ∀ q, not_copy q = true → (λ _ : sql, true) q = true.
Proof. done. Qed.

(** From the version 34 the ladder hands both copies to the engine. *)
Lemma open_update_34 w :
  is_Some (m_cobj (store w)) →
  let w' := (open_update fingerprint THS 34 w).2 in
  is_Some (m_cobj (store w'))
  ∧ ∃ evs, trace w' = trace w ++ evs
           ∧ UPDATE_verified_from_gossip ∈ prepared evs
           ∧ UPDATE_verified_from_public ∈ prepared evs.
Proof.
  intros Hw. cbv zeta. unfold open_update. cbv zeta.
  repeat (rewrite rung_skip by lia; rewrite ret_bind).
  change (34 <? 34) with false. cbv iota.
  rewrite rung_hit by lia. unfold rung_39. change (34 =? 34) with true. cbv iota.
  rewrite !bind_run. rewrite !ret_run. cbn [fst snd].
  set (m4 := dc_sqlite3_execute__ THS
               (CREATE_INDEX "acpeerstates_index5" "acpeerstates" "verified_key_fingerprint" false)).
  match goal with |- context [m4 ?w0] => set (w4 := (m4 w0).2) end.
  assert (H4 : is_Some (m_cobj (store w4)) ∧ ∃ evs, trace w4 = trace w ++ evs).
  { subst w4 m4.
    pose proof (emits_execute (λ _, true) THS) as He.
    destruct (He (CREATE_TABLE "tokens"
                    [pk "id"; int_ "namespc" 0; int_ "foreign_id" 0; text_ "token";
                     int_ "timestamp" 0]) eq_refl w Hw) as (Hw1 & evs1 & Htr1 & _).
    destruct (He (ALTER_TABLE_ADD_COLUMN "acpeerstates" (bare "verified_key")) eq_refl _ Hw1)
      as (Hw2 & evs2 & Htr2 & _).
    destruct (He (ALTER_TABLE_ADD_COLUMN "acpeerstates" (text_ "verified_key_fingerprint"))
                eq_refl _ Hw2) as (Hw3 & evs3 & Htr3 & _).
    destruct (He (CREATE_INDEX "acpeerstates_index5" "acpeerstates" "verified_key_fingerprint"
                    false) eq_refl _ Hw3) as (Hw4 & evs4 & Htr4 & _).
    split; [done|]. exists (evs1 ++ evs2 ++ evs3 ++ evs4).
    rewrite Htr4, Htr3, Htr2, Htr1. by rewrite <- !(assoc_L (++)). }
  destruct H4 as ([c4 Hc4] & evs4 & Htr4).
  assert (Hv4 : view (c_readonly c4) (c_data c4) w4) by (by exists c4).
  destruct (execute_spec _ _ UPDATE_verified_from_gossip w4 Hv4 eq_refl)
    as (Hv5 & _ & _ & evs5 & Htr5 & Hp5 & _).
  set (w5 := (dc_sqlite3_execute__ THS UPDATE_verified_from_gossip w4).2) in *.
  destruct (execute_spec _ _ UPDATE_verified_from_public w5 Hv5 eq_refl)
    as (Hv6 & _ & _ & evs6 & Htr6 & Hp6 & _).
  set (w6 := (dc_sqlite3_execute__ THS UPDATE_verified_from_public w5).2) in *.
  pose proof (emits_set_config_int (λ _, true) THS (Some "dbversion") 39
                ltac:(by split_and!) w6 (view_open _ _ _ Hv6)) as (Hw7 & evs7 & Htr7 & _).
  set (w7 := (dc_sqlite3_set_config_int__ THS (Some "dbversion") 39 w6).2) in *.
  pose proof (emits_rung (λ _, true) all_allowed THS 39 40 (rung_40 THS)
                ltac:(by destruct (emits_rung_bodies (λ _, true) all_allowed THS)
                           as (? & ? & ? & ? & ? & ? & ? & ? & ? & ?))
                w7 Hw7) as (Hw8 & evs8 & Htr8 & _).
  split; [done|].
  exists (evs4 ++ evs5 ++ evs6 ++ evs7 ++ evs8).
  split.
  - rewrite Htr8, Htr7, Htr6, Htr5, Htr4. by rewrite <- !(assoc_L (++)).
  - rewrite !prepared_app, Hp5, Hp6. split.
    + apply elem_of_app. right. apply elem_of_app. left. apply list_elem_of_here.
    + apply elem_of_app. right. apply elem_of_app. right. apply elem_of_app. left.
      apply list_elem_of_here.
Qed.

Lemma not_copy_others : ∀ q, not_copy q = true → not_copy q = true.
Proof. done. Qed.

(** The copies in the read-write branch: both when the version read is 34,
    none otherwise. *)
Lemma open_readwrite_copies ro db0 w :
  view ro db0 w → cache_ok (m_pd (store w)) = true →
  let r := open_readwrite fingerprint THS w in
  ∃ evs, trace r.2 = trace w ++ evs
    ∧ if dbversion_at_open db0 =? 34
      then r.1 = true
           ∧ UPDATE_verified_from_gossip ∈ prepared evs
           ∧ UPDATE_verified_from_public ∈ prepared evs
      else (UPDATE_verified_from_gossip ∉ prepared evs)
           ∧ (UPDATE_verified_from_public ∉ prepared evs).
Proof.
  intros Hv Hc. cbv zeta. unfold open_readwrite, dbversion_at_open. rewrite bind_run.
  destruct (table_exists_spec _ _ "config" _ Hv) as (Hr & Hv1 & Hpd1 & evs1 & Htr1 & _ & Hev1).
  set (w1 := (dc_sqlite3_table_exists__ THS "config" w).2) in *. rewrite Hr.
  assert (Hn1 : (UPDATE_verified_from_gossip ∉ prepared evs1)
                ∧ (UPDATE_verified_from_public ∉ prepared evs1)).
  { apply not_copy_prepared. eapply Forall_impl; [exact Hev1|].
    intros [q rc|]; [|done]. cbn. by intros ->. }
  destruct (table_exists_db db0 "config" =? 0) eqn:He.
  - (* bootstrap: the ladder starts from 0 *)
    change (0 =? 34) with false. cbv iota.
    assert (Hem : emits not_copy
      (ok ← open_init_tables THS;
       if (ok : bool) then open_update fingerprint THS 0 ≫= λ _, mret true else mret false)).
    { apply emits_bind; [by apply emits_init_tables|]. intros [].
      - apply emits_bind; [apply emits_open_update; [done | by left]|]. intros ?. apply emits_ret.
      - apply emits_ret. }
    destruct (Hem w1 (view_open _ _ _ Hv1)) as (_ & evs2 & Htr2 & Hev2).
    exists (evs1 ++ evs2). split; [by rewrite Htr2, Htr1, (assoc_L (++))|].
    destruct (not_copy_prepared _ Hev2) as [? ?]. destruct Hn1 as [? ?].
    rewrite prepared_app. split; intros [?|?]%elem_of_app; done.
  - rewrite bind_run.
    assert (Hs1 : slot_ok SELECT_v_FROM_config_k SELECT_v_FROM_config_k_STATEMENT
                    (m_pd (store w1)) = true).
    { rewrite Hpd1. apply (cache_ok_slot _ _ _ Hc). in_list. }
    pose proof (get_config_int_spec _ _ "dbversion" 0 _ Hv1 Hs1) as Hg. cbv zeta in Hg.
    destruct Hg as (Hg & Hv2 & _ & _ & _ & evs2 & Htr2 & Hev2).
    set (w2 := (dc_sqlite3_get_config_int__ THS (Some "dbversion") 0 w1).2) in *.
    rewrite Hg. set (v0 := match config_get db0 "dbversion" with
                           | Some s => to_int32 (atol s) | None => 0 end).
    assert (Hn2 : (UPDATE_verified_from_gossip ∉ prepared evs2)
                  ∧ (UPDATE_verified_from_public ∉ prepared evs2)).
    { apply not_copy_prepared. eapply Forall_impl; [exact Hev2|].
      intros [q rc|]; [|done]. cbn. by intros ->. }
    rewrite bind_run, ret_run. cbn [fst snd].
    destruct (Z.eqb_spec v0 34) as [Hv0|Hv0].
    + rewrite Hv0.
      destruct (open_update_34 w2 (view_open _ _ _ Hv2)) as (_ & evs3 & Htr3 & Hg3 & Hp3).
      exists (evs1 ++ evs2 ++ evs3).
      split; [rewrite Htr3, Htr2, Htr1; by rewrite <- !(assoc_L (++))|].
      rewrite !prepared_app. split_and!; [done | |]; apply elem_of_app; right;
        apply elem_of_app; by right.
    + destruct (emits_open_update not_copy not_copy_others THS v0 ltac:(by left) w2
                  (view_open _ _ _ Hv2)) as (_ & evs3 & Htr3 & Hev3).
      exists (evs1 ++ evs2 ++ evs3).
      split; [rewrite Htr3, Htr2, Htr1; by rewrite <- !(assoc_L (++))|].
      destruct (not_copy_prepared _ Hev3) as [? ?]. destruct Hn1 as [? ?]. destruct Hn2 as [? ?].
      rewrite !prepared_app. split; intros [?|[?|?]%elem_of_app]%elem_of_app; done.
Qed.

Lemma cleanup_quiet ths w :
  (open_cleanup ths w).1 = 0 ∧ trace (open_cleanup ths w).2 = trace w.
Proof.
  rewrite open_cleanup_eq. cbn [fst snd]. split; [done|]. destruct ths; [done|].
  by destruct (close_spec w) as (_ & _ & _ & ? & _).
Qed.


(** ** A new database *)

Lemma exec_opening_run db L tr0 q :
  sql_writes q = true →
  q ≠ INSERT_INTO_config_kv_STATEMENT → q ≠ UPDATE_config_vk_STATEMENT →
  hoare (opening db L tr0) (dc_sqlite3_execute__ THS q) (λ _, opening (run_sql [] db q) L tr0).
Proof. intros ? ? ? w Hw. by apply exec_opening. Qed.

Lemma rung_exact db db' L tr0 dbv t body :
  dbv < t →
  hoare (opening db L tr0) body (λ _, opening db' L tr0) →
  config_ok db' = true →
  hoare (opening db L tr0) (rung THS dbv t body)
        (λ r w, r = t ∧ opening (config_set db' "dbversion" (decimal t)) (L ++ [decimal t]) tr0 w).
Proof.
  intros Hlt Hbody Hok. rewrite rung_hit by done.
  eapply hoare_bind; [exact Hbody|]. intros ?.
  eapply hoare_bind; [by apply setint_opening|]. intros ?.
  apply hoare_ret. by intros w Hw.
Qed.

Ltac exec_chain :=
  repeat (eapply hoare_bind;
          [apply exec_opening_run; [reflexivity | discriminate | discriminate]|]; intros ?).

Ltac rung_step :=
  eapply hoare_bind;
  [eapply rung_exact;
   [lia
   |unfold rung_1, rung_2, rung_7, rung_10, rung_12, rung_17, rung_18, rung_27, rung_34,
      rung_39, rung_40;
    exec_chain; try (change (0 =? 34) with false; cbv iota);
    apply hoare_ret; intros w Hw; exact Hw
   |vm_compute; reflexivity]
  |];
  intros ?; apply hoare_pre; intros ->.

Lemma bootstrap_exact tr0 :
  hoare (opening empty_db [] tr0) (open_readwrite fingerprint THS)
        (λ ok w, ok = true ∧ ∃ db L, opening db L tr0 w ∧ fresh_ok db = true).
Proof.
  unfold open_readwrite.
  eapply hoare_bind; [apply exists_opening|]. intros e. apply hoare_pre. intros ->.
  replace (table_exists_db empty_db "config" =? 0) with true by (vm_compute; reflexivity).
  cbv iota.
  eapply hoare_bind with (Q := λ ok w, ok = true ∧ opening _ _ tr0 w).
  { unfold open_init_tables.
    eapply hoare_bind; [apply log_info_opening|]. intros ?.
    exec_chain.
    eapply hoare_bind; [apply tables_missing_opening|]. intros m. apply hoare_pre. intros ->.
    match goal with |- context [tables_missing_db ?d] =>
      replace (tables_missing_db d) with false by (vm_compute; reflexivity) end.
    cbv iota.
    eapply hoare_bind; [apply setint_opening; vm_compute; reflexivity|]. intros ?.
    apply hoare_ret. intros w Hw. split; [done|]. exact Hw. }
  intros ok. apply hoare_pre. intros ->. cbv iota.
  eapply hoare_bind; [|intros ?; apply hoare_ret; intros w Hw; split; [done|]; exact Hw].
  unfold open_update. cbv zeta.
  do 11 rung_step.
  change (27 <? 34) with true. cbv iota.
  intros w Hw. eexists _, _. split.
  - refine (recalc_opening_empty _ _ _ _ _ w Hw); vm_compute; reflexivity.
  - vm_compute. reflexivity.
Qed.

Lemma next_rowid_above k rows z :
  z ∈ rowid_of k <$> rows → z < next_rowid k rows.
Proof.
  unfold next_rowid. induction rows as [|r rows IH]; cbn [fmap list_fmap foldr].
  - by intros ?%elem_of_nil.
  - intros [->|H]%elem_of_cons; [lia|]. specialize (IH H). lia.
Qed.

(** A row inserted into a table with a rowid never takes the id of a row of
    the table. *)
Lemma insert_row_new_id args tb cols es tb' k :
  pk_of tb = Some k →
  insert_row args tb cols es = Some tb' →
  ∃ r, t_rows tb' = t_rows tb ++ [r] ∧ rowid_of k r ∉ rowid_of k <$> t_rows tb.
Proof.
  intros Hk. unfold insert_row. rewrite Hk.
  set (r := set_cols args ∅ (zip cols es) (default_row tb)).
  assert (Hnext : ∃ r0, Table (t_cols tb) (t_rows tb ++ [<[k:=VInt (next_rowid k (t_rows tb))]> r])
                        = Table (t_cols tb) (t_rows tb ++ [r0])
                        ∧ rowid_of k r0 ∉ rowid_of k <$> t_rows tb).
  { eexists. split; [done|]. unfold rowid_of at 1. rewrite lookup_insert_eq.
    intros H%next_rowid_above. lia. }
  destruct Hnext as (r0 & Er0 & Hr0).
  destruct (bool_decide (k ∈ cols)).
  - destruct (r !! k) as [[|z| |]|] eqn:Er; try done.
    + intros [= <-]. exists r0. by rewrite Er0.
    + destruct (bool_decide (z ∈ rowid_of k <$> t_rows tb)) eqn:Hz; [done|].
      intros [= <-]. exists r. split; [done|]. unfold rowid_of at 1. rewrite Er.
      by apply bool_decide_eq_false in Hz.
  - intros [= <-]. exists r0. by rewrite Er0.
Qed.

(** C6: a read-write open of a new database succeeds, and afterwards each of
    the tables contacts, chats and msgs holds a row for every id from 1 to 9
    and no other; the contact 1 is named self and the reserved contacts have
    the origin 262144; a row inserted later into one of the three tables
    never gets an id from 1 to 9. *)
Theorem fresh_bootstrap_reserved (dbfile : string) (flags : Z) (w : world) :
  Z.land flags MR_OPEN_READONLY = 0 →
  threadsafe w ≠ 0 →
  m_cobj (store w) = None →
  cache_ok (m_pd (store w)) = true →
  database_at w dbfile = Some empty_db →
  let r := dc_sqlite3_open__ fingerprint THS (Some dbfile) flags w in
  r.1 = 1
  ∧ ∃ db, view false db r.2
          ∧ reserved_seeded db = true
          ∧ ∀ t, t ∈ reserved_tables →
                 ids_of db t = reserved_ids
                 ∧ ∀ tb args cols es tb',
                     db_tables db !! t = Some tb →
                     insert_row args tb cols es = Some tb' →
                     ∃ row, t_rows tb' = t_rows tb ++ [row]
                            ∧ rowid_of "id" row ∉ reserved_ids.
Proof.
  intros Hrw Hts Hclosed Hcache Hdb. cbv zeta. unfold dc_sqlite3_open__. run.
  unfold sqlite3_threadsafe. cbn [fst snd].
  rewrite (proj2 (Z.eqb_neq _ _) Hts). run.
  unfold dc_sqlite3_is_open. rewrite Hclosed. cbn [fst snd].
  change (negb (0 =? 0)) with false. cbv iota. run.
  rewrite Hrw. change (negb (0 =? 0)) with false. change (0 =? 0) with true. cbv iota.
  set (w1 := (sqlite3_open_v2 dbfile false w).2).
  assert (Hopen : (sqlite3_open_v2 dbfile false w).1 = SQLITE_OK
                  ∧ opening empty_db [] (trace w) w1).
  { subst w1. unfold sqlite3_open_v2, database_at in *.
    destruct (files w !! dbfile) as [[db|]|]; simplify_eq; cbn [fst snd].
    - split; [done|]. split_and!; [by eexists | done |]. exists []. by rewrite (right_id_L [] (++)).
    - split; [done|]. split_and!; [by eexists | done |]. exists []. by rewrite (right_id_L [] (++)). }
  destruct Hopen as [-> Ho1].
  change (negb (SQLITE_OK =? SQLITE_OK)) with false. cbv iota. run.
  unfold sqlite3_busy_timeout. rewrite ?ret_run. cbn [fst snd].
  destruct (bootstrap_exact (trace w) w1 Ho1) as (Hok & db & L & Ho & Hfresh).
  destruct (open_readwrite fingerprint THS w1) as [ok w2]. cbn [fst snd] in Hok, Ho |- *.
  subst ok. run. unfold dc_log_info. cbn [fst snd].
  split; [done|]. exists db.
  unfold fresh_ok in Hfresh. apply andb_true_iff in Hfresh as [Hfresh _].
  apply andb_true_iff in Hfresh as [Hseed Hids].
  destruct Ho as ((c & Hc & Hro & Hdata) & _).
  split; [by exists c|]. split; [done|].
  intros t Ht. rewrite forallb_forall in Hids.
  specialize (Hids t (proj1 (list_elem_of_In _ _) Ht)).
  apply andb_true_iff in Hids as [Hi Hpk]. apply bool_decide_eq_true in Hi, Hpk.
  split; [done|]. intros tb args cols es tb' Htb Hins.
  unfold pk_of_table in Hpk. rewrite Htb in Hpk. cbn in Hpk.
  destruct (insert_row_new_id _ _ _ _ _ _ Hpk Hins) as (row & Hrows & Hnew).
  exists row. split; [done|]. unfold ids_of in Hi. rewrite Htb in Hi. by rewrite Hi in Hnew.
Qed.

End OpenFacts.

(** ** The theorems at work *)



Lemma nested_begin_commit_witness :
  let w1 := (repeat_call 3 (dc_sqlite3_begin_transaction__ THS) opened_world).2 in
  let w2 := (repeat_call 3 (dc_sqlite3_commit__ THS) w1).2 in
  stepped (trace w1) = stepped (trace opened_world) ++ [BEGIN]
  ∧ m_transactionCount (store w1) = Z.of_nat 3
  ∧ w1 = with_count (Z.of_nat 3) (dc_sqlite3_begin_transaction__ THS opened_world).2
  ∧ (repeat_call (3 - 1) (dc_sqlite3_commit__ THS) w1).2 = with_count 1 w1
  ∧ stepped (trace w2) = stepped (trace opened_world) ++ [BEGIN; COMMIT]
  ∧ m_transactionCount (store w2) = 0.
Proof.
  apply (nested_begin_commit 3 opened_world); [lia | vm_compute; reflexivity | reflexivity].
Defined.



Lemma open_readonly_skips_witness :
  let r := dc_sqlite3_open__ key_itself THS (Some "x.db") 1 closed_world in
  r.1 = 1
  ∧ files r.2 = files closed_world
  ∧ trace r.2 = trace closed_world
  ∧ (dc_sqlite3_is_open THS r.2).1 = 1
  ∧ view true (committed (files closed_world) "x.db") r.2
  ∧ (dc_sqlite3_get_config__ THS (Some "dbversion") None r.2).1 =
      match config_get (committed (files closed_world) "x.db") "dbversion" with
      | Some s => Some s | None => None end
  ∧ files (dc_sqlite3_get_config__ THS (Some "dbversion") None r.2).2 = files closed_world.
Proof.
  apply (open_readonly_skips key_itself "x.db" 1 (committed (files closed_world) "x.db")
           closed_world "dbversion" None);
    [vm_compute; lia | vm_compute; lia | reflexivity | vm_compute; reflexivity
    | vm_compute; reflexivity].
Defined.

Lemma fresh_bootstrap_reserved_witness :
  let r := dc_sqlite3_open__ key_itself THS (Some "x.db") 0 new_world in
  r.1 = 1
  ∧ ∃ db, view false db r.2
          ∧ reserved_seeded db = true
          ∧ ∀ t, t ∈ reserved_tables →
                 ids_of db t = reserved_ids
                 ∧ ∀ tb args cols es tb',
                     db_tables db !! t = Some tb →
                     insert_row args tb cols es = Some tb' →
                     ∃ row, t_rows tb' = t_rows tb ++ [row]
                            ∧ rowid_of "id" row ∉ reserved_ids.
Proof.
  apply (fresh_bootstrap_reserved key_itself "x.db" 0 new_world);
    [reflexivity | vm_compute; lia | reflexivity | vm_compute; reflexivity
    | vm_compute; reflexivity].
Defined.

Lemma get_config_int_atol_witness :
  (dc_sqlite3_get_config_int__ THS (Some "k") 5 text_world).1 =
    match stored text_world "k" with
    | None => 5
    | Some s => to_int32 (atol s)
    end
  ∧ (∀ s, no_leading_integer s = true → to_int32 (atol s) = 0)
  ∧ (∀ z rest, - 2 ^ 31 ≤ z < 2 ^ 31 → starts_with_digit rest = false →
       to_int32 (atol (decimal z +:+ rest)) = z).
Proof.
  apply (get_config_int_atol text_world "k" 5). vm_compute. reflexivity.
Defined.

(** The stored text [abc] has no leading integer, and the read with the
    default 5 gives 0. *)
Lemma get_config_int_counterexample :
  ¬ (∀ (w : world) (key s : string) (def : Z),
       (dc_sqlite3_is_open THS w).1 = 1 →
       stored w key = Some s →
       no_leading_integer s = true →
       (dc_sqlite3_get_config_int__ THS (Some key) def w).1 = def).
Proof.
  intros H.
  specialize (H text_world "k" "abc" 5 ltac:(vm_compute; reflexivity)
                ltac:(vm_compute; reflexivity) ltac:(vm_compute; reflexivity)).
  vm_compute in H. discriminate H.
Qed.



Lemma commit_rollback_at_zero_witness :
  dc_sqlite3_commit__ THS opened_world = (tt, opened_world)
  ∧ dc_sqlite3_rollback__ THS opened_world = (tt, opened_world)
  ∧ 0 ≤ m_transactionCount
          (store (run_ops [OpCommit; OpBegin; OpRollback; OpRollback] opened_world).2).
Proof.
  apply (commit_rollback_at_zero opened_world [OpCommit; OpBegin; OpRollback; OpRollback]).
  reflexivity.
Defined.

Lemma open_failure_closes_witness :
  let r := dc_sqlite3_open__ key_itself THS (Some "x.db") 0 opened_world in
  r.1 = 0
  ∧ m_cobj (store r.2) = None
  ∧ (∀ i st, (i < PREDEFINED_CNT)%nat → m_pd (store r.2) !! i ≠ Some (Some st))
  ∧ files r.2 = files opened_world.
Proof.
  apply (open_failure_closes key_itself THS (Some "x.db") 0 opened_world).
  vm_compute. reflexivity.
Defined.

(** ** The config store at its edges *)

(** X1: Without a key, or on a store that is not open, a write is refused: the
    result is 0, one error goes to the log, and nothing else changes. The
    integer write is refused in the same way. *)
Theorem set_config_not_ready (w : world) (key : option string) :
  key = None ∨ m_cobj (store w) = None →
  ∃ msg, (∀ value, dc_sqlite3_set_config__ THS key value w = (0, add_log (Error msg) w))
         ∧ (∀ v, dc_sqlite3_set_config_int__ THS key v w = (0, add_log (Error msg) w)).
Proof.
  intros H. unfold dc_sqlite3_set_config_int__. destruct key as [key|].
  - destruct H as [H|H]; [done|].
    exists "dc_sqlite3_set_config(): Database not ready.".
    split; intros; unfold dc_sqlite3_set_config__; run;
      unfold dc_sqlite3_is_open; rewrite H; cbn [fst snd];
      change (0 =? 0) with true; cbv iota; by run.
  - exists "dc_sqlite3_set_config(): Bad parameter.".
    split; intros; unfold dc_sqlite3_set_config__; by run.
Qed.

(** X2: Without a key, or on a store that is not open, a read gives the default
    and leaves the world as it is. *)
Theorem get_config_not_ready (w : world) (key def : option string) (d : Z) :
  key = None ∨ m_cobj (store w) = None →
  dc_sqlite3_get_config__ THS key def w = (def, w)
  ∧ dc_sqlite3_get_config_int__ THS key d w = (d, w).
Proof.
  intros H.
  assert (Hg : ∀ def0, dc_sqlite3_get_config__ THS key def0 w = (def0, w)).
  { intros def0. unfold dc_sqlite3_get_config__. run. unfold dc_sqlite3_is_open.
    destruct key as [key|]; [|by destruct (m_cobj (store w))].
    destruct H as [H|H]; [done|]. by rewrite H. }
  split; [apply Hg|]. unfold dc_sqlite3_get_config_int__. run. by rewrite Hg.
Qed.

(** X3: On an open store a read gives the stored string, or the default when
    there is none; it changes neither what is stored, nor a file, nor the
    counter of transactions, and the store stays open. *)
Theorem get_config_reads_only (w : world) (key : string) (def : option string) :
  store_open w = true →
  let r := dc_sqlite3_get_config__ THS (Some key) def w in
  r.1 = match stored w key with Some s => Some s | None => def end
  ∧ (∀ k, stored r.2 k = stored w k)
  ∧ files r.2 = files w
  ∧ m_transactionCount (store r.2) = m_transactionCount (store w)
  ∧ store_open r.2 = true.
Proof.
  intros (c & Hv & Hc & Hcache)%store_open_view. cbv zeta.
  pose proof (get_config_spec _ _ key def _ Hv
    (cache_ok_slot _ SELECT_v_FROM_config_k SELECT_v_FROM_config_k_STATEMENT Hcache
       ltac:(in_list))) as H.
  cbv zeta in H. destruct H as (Hr & Hv' & Hsl & Hn & Hf & _).
  rewrite (view_stored _ _ _ _ Hv). split_and!; [done | | done | done |].
  - intros k. by rewrite (view_stored _ _ _ _ Hv'), (view_stored _ _ _ _ Hv).
  - unfold store_open. destruct Hv' as (c' & -> & _).
    eapply cache_ok_step; [exact Hcache | | exact Hsl]. in_list.
Qed.

(** *** Other keys *)

Lemma key_matches_other key key' r :
  key ≠ key' → key_matches key r = true → key_matches key' r = false.
Proof.
  unfold key_matches, value_eqb. intros Hne.
  destruct (default VNull (r !! "keyname")); try done;
    rewrite bool_decide_eq_true; intros [= ->]; by apply bool_decide_eq_false_2; intros [= ?].
Qed.

Lemma filter_update_other key key' v rows :
  key ≠ key' →
  List.filter (key_matches key')
    ((λ r, if key_matches key r then <["value" := v]> r else r) <$> rows)
  = List.filter (key_matches key') rows.
Proof.
  intros Hne. induction rows as [|r rows IH]; [done|]. cbn.
  destruct (key_matches key r) eqn:E.
  - rewrite key_matches_set_value, (key_matches_other _ _ _ Hne E). exact IH.
  - destruct (key_matches key' r); by rewrite IH.
Qed.

Lemma filter_delete_other key key' rows :
  key ≠ key' →
  List.filter (key_matches key') (List.filter (λ r, negb (key_matches key r)) rows)
  = List.filter (key_matches key') rows.
Proof.
  intros Hne. induction rows as [|r rows IH]; [done|]. cbn.
  destruct (key_matches key r) eqn:E; cbn.
  - by rewrite (key_matches_other _ _ _ Hne E).
  - destruct (key_matches key' r); by rewrite IH.
Qed.

Lemma config_get_put db t rows key :
  db_tables db !! "config" = Some t →
  config_ok db = true →
  config_get (put_table db "config" (Table (t_cols t) rows)) key
  = match (λ r, default VNull (r !! "value")) <$> List.filter (key_matches key) rows with
    | v :: _ => value_text v
    | [] => None
    end.
Proof.
  intros Ht Hok.
  assert (Hok' : config_ok (put_table db "config" (Table (t_cols t) rows)) = true)
    by (by eapply config_ok_put).
  unfold config_get. rewrite (proj1 (config_ok_valid _ Hok')).
  by erewrite config_rows_eq by apply put_table_lookup.
Qed.

Lemma config_get_rows db t key :
  db_tables db !! "config" = Some t →
  config_ok db = true →
  config_get db key
  = match (λ r, default VNull (r !! "value")) <$> List.filter (key_matches key) (t_rows t) with
    | v :: _ => value_text v
    | [] => None
    end.
Proof.
  intros Ht Hok. unfold config_get. rewrite (proj1 (config_ok_valid _ Hok)).
  by rewrite (config_rows_eq _ _ _ Ht).
Qed.

Lemma config_set_other db key key' v :
  config_ok db = true → key ≠ key' →
  config_get (config_set db key v) key' = config_get db key'.
Proof.
  intros Hok Hne. pose proof (config_ok_valid _ Hok) as (Hs & Hi & Hu & _).
  pose proof (config_ok_inv _ Hok) as (t & Ht & _).
  rewrite (config_get_rows db t key' Ht Hok).
  unfold config_set. rewrite (config_rows_eq _ _ _ Ht).
  destruct (List.filter (key_matches key) (t_rows t)) as [|r0 rs] eqn:Hf; cbn [fmap list_fmap].
  - destruct (config_insert db t key v Ht Hok) as (r & Hx & Hrk & Hrv).
    unfold run_sql. rewrite Hi, Hx. cbn [from_option id].
    rewrite (config_get_put db t _ key' Ht Hok), List.filter_app. cbn [List.filter].
    assert (key_matches key' r = false) as ->.
    { apply (key_matches_other key key' r Hne). unfold key_matches. rewrite Hrk. cbn.
      by apply bool_decide_eq_true_2. }
    by rewrite (right_id_L [] (++)).
  - unfold run_sql. rewrite Hu. cbn. rewrite Ht. cbn.
    rewrite (config_get_put db t _ key' Ht Hok).
    change (λ r, if value_eqb (default VNull (r !! "keyname")) (VText key) then
                   <["value" := VText v]> r else r)
      with (λ r, if key_matches key r then <["value" := VText v]> r else r).
    by rewrite filter_update_other.
Qed.

Lemma config_del_other db key key' :
  config_ok db = true → key ≠ key' →
  config_get (config_del db key) key' = config_get db key'.
Proof.
  intros Hok Hne. pose proof (config_ok_valid _ Hok) as (_ & _ & _ & Hd).
  pose proof (config_ok_inv _ Hok) as (t & Ht & _).
  rewrite (config_get_rows db t key' Ht Hok).
  unfold config_del, run_sql. rewrite Hd. cbn. rewrite Ht. cbn.
  rewrite (config_get_put db t _ key' Ht Hok).
  change (λ r, negb (value_eqb (default VNull (r !! "keyname")) (VText key)))
    with (λ r, negb (key_matches key r)).
  by rewrite filter_delete_other.
Qed.

(** The database after a write of the config store. *)
Lemma config_written_ok db key value :
  config_ok db = true →
  config_ok (match value with Some v => config_set db key v | None => config_del db key end)
  = true.
Proof.
  intros Hok. destruct value as [v|].
  - by destruct (config_set_spec db key v Hok) as (_ & ? & _).
  - by destruct (config_del_spec db key Hok) as (_ & ? & _).
Qed.

Lemma view_store_writable db w :
  view false db w → config_ok db = true → cache_ok (m_pd (store w)) = true →
  store_writable w = true.
Proof.
  intros (c & Hc & Hro & Hdb) Hok Hcache. unfold store_writable.
  by rewrite Hc, Hro, Hdb, Hok, Hcache.
Qed.

(** A write on a writable store: the result, the store after it, and what a
    read of the key then gives. *)
Lemma set_config_then_get w key value def :
  store_writable w = true →
  let r := dc_sqlite3_set_config__ THS (Some key) value w in
  r.1 = 1
  ∧ store_writable r.2 = true
  ∧ stored r.2 key = value
  ∧ (∀ k, k ≠ key → stored r.2 k = stored w k)
  ∧ m_transactionCount (store r.2) = m_transactionCount (store w)
  ∧ (dc_sqlite3_get_config__ THS (Some key) def r.2).1
    = match value with Some v => Some v | None => def end.
Proof.
  intros (db & Hv & Hok & Hcache)%store_writable_view. cbv zeta.
  pose proof (set_config_spec db key value w Hv Hcache Hok) as H. cbv zeta in H.
  destruct H as (Hr & Hv' & Hc' & Hn & _).
  pose proof (config_written_ok db key value Hok) as Hok'.
  assert (Hst : stored (dc_sqlite3_set_config__ THS (Some key) value w).2 key = value).
  { rewrite (view_stored _ _ _ _ Hv'). destruct value as [v|].
    - by destruct (config_set_spec db key v Hok) as (? & _).
    - by destruct (config_del_spec db key Hok) as (? & _). }
  split_and!; [done | by eapply view_store_writable | done | | done |].
  - intros k Hk. rewrite (view_stored _ _ _ _ Hv'), (view_stored _ _ _ _ Hv).
    destruct value as [v|]; [by apply config_set_other | by apply config_del_other].
  - pose proof (get_config_spec _ _ key def _ Hv'
      (cache_ok_slot _ SELECT_v_FROM_config_k SELECT_v_FROM_config_k_STATEMENT Hc'
         ltac:(in_list))) as H.
    cbv zeta in H. destruct H as (-> & _).
    rewrite <- (view_stored _ _ _ _ Hv'), Hst. by destruct value.
Qed.

(** X4: A write under one key, or its deletion, leaves what is stored under
    every other key. *)
Theorem set_config_other_keys (w : world) (key key' : string) (value : option string) :
  store_writable w = true →
  key' ≠ key →
  stored (dc_sqlite3_set_config__ THS (Some key) value w).2 key' = stored w key'.
Proof.
  intros Hw Hne.
  pose proof (set_config_then_get w key value None Hw) as H. cbv zeta in H.
  destruct H as (_ & _ & _ & Hothers & _). by apply Hothers.
Qed.

(** X5: The store stays writable after a write, so writes compose: of two writes
    under a key the last one is read back, and a write followed by the
    deletion of the key gives the default. *)
Theorem set_config_last_wins (w : world) (key v1 v2 : string) (def : option string) :
  store_writable w = true →
  let w1 := (dc_sqlite3_set_config__ THS (Some key) (Some v1) w).2 in
  let w2 := (dc_sqlite3_set_config__ THS (Some key) (Some v2) w1).2 in
  let w3 := (dc_sqlite3_set_config__ THS (Some key) None w1).2 in
  store_writable w1 = true
  ∧ (dc_sqlite3_get_config__ THS (Some key) def w2).1 = Some v2
  ∧ (dc_sqlite3_get_config__ THS (Some key) def w3).1 = def
  ∧ stored w3 key = None.
Proof.
  intros Hw. cbv zeta.
  pose proof (set_config_then_get w key (Some v1) def Hw) as H. cbv zeta in H.
  destruct H as (_ & Hw1 & _).
  pose proof (set_config_then_get _ key (Some v2) def Hw1) as H. cbv zeta in H.
  destruct H as (_ & _ & _ & _ & _ & Hg2).
  pose proof (set_config_then_get _ key None def Hw1) as H. cbv zeta in H.
  destruct H as (_ & _ & Hs3 & _ & _ & Hg3).
  done.
Qed.


(** ** The connection and its file *)

Lemma tied_view p b F dbf w :
  tied p b F dbf w → ∃ db, view false db w ∧ seen w = Some db.
Proof.
  intros (c & dbf' & Hc & _ & Hro & _). exists (c_data c).
  split; [by exists c|]. unfold seen. by rewrite Hc.
Qed.

Lemma tied_log p b F dbf l w : tied p b F dbf w → tied p b F dbf (add_log l w).
Proof. intros (c & dbf' & H). by exists c, dbf'. Qed.

Lemma tied_with_count p b F dbf n w : tied p b F dbf w → tied p b F dbf (with_count n w).
Proof. intros (c & dbf' & H). by exists c, dbf'. Qed.

Lemma seen_with_count n w : seen (with_count n w) = seen w.
Proof. done. Qed.

Lemma tied_log_error p b F dbf msg : preserves (tied p b F dbf) (dc_log_error msg).
Proof. intros w Hw. by apply tied_log. Qed.

Lemma tied_sqlite3_log_error p b F dbf msg :
  preserves (tied p b F dbf) (dc_sqlite3_log_error msg).
Proof. intros w Hw. by apply tied_log. Qed.

(** A step of a statement that neither begins nor ends a transaction. *)
Lemma tied_step p b F dbf stmt :
  (∀ st, stmt = Some st → is_txn_sql (st_sql st) = false) →
  preserves (tied p b F dbf) (sqlite3_step stmt).
Proof.
  intros Hst w (c & dbf' & Hc & Hp & Hro & Hb & Hf & Ht & Hn & Hcache).
  destruct stmt as [st|]; [|unfold sqlite3_step; by exists c, dbf'].
  specialize (Hst st eq_refl).
  destruct w as [[co pd n] f ts tr lg]. cbn in Hc, Hf, Hcache. subst co.
  unfold sqlite3_step. cbn [store m_cobj files].
  destruct (engine_step c f st) as [[[rc st'] c'] f'] eqn:E. cbn.
  unfold engine_step in E.
  destruct (sql_valid (c_data c) (st_sql st)); cbn [negb] in E.
  2:{ injection E as <- <- <- <-. by exists (set_errmsg SQLITE_ERROR c), dbf'. }
  destruct (st_sql st) eqn:Hq; try discriminate Hst;
    try (destruct (cursor_step _ _) as [rc0 st0]; injection E as <- <- <- <-;
         by exists c, dbf');
    rewrite Hro in E;
    (destruct (sql_exec (st_args st) (c_data c) _) as [db'|];
     [|injection E as <- <- <- <-; by exists (set_errmsg SQLITE_CONSTRAINT c), dbf']);
    injection E as <- <- <- <-;
    exists (set_data db' c);
    (destruct b; rewrite Hb;
     [exists dbf'; by split_and!
     |exists db'; split_and!; try done; rewrite Hf, Hp; by rewrite insert_insert_eq]).
Qed.

Lemma tied_prepare p b F dbf q w :
  tied p b F dbf w → tied p b F dbf (sqlite3_prepare_v2 q w).2.
Proof.
  intros (c & dbf' & Hc & H). unfold sqlite3_prepare_v2. rewrite Hc.
  destruct (sql_valid (c_data c) q); cbn [snd]; [by exists c, dbf'|].
  exists (set_errmsg SQLITE_ERROR c), dbf'. by destruct w.
Qed.

(** A statement of the cache, or one compiled for it. *)
Lemma tied_predefine p b F dbf idx q :
  (idx, q) ∈ predefined_statements →
  hoare (tied p b F dbf) (dc_sqlite3_predefine__ THS idx (Some q))
        (λ stmt w, (∀ st, stmt = Some st → st_sql st = q) ∧ tied p b F dbf w).
Proof.
  intros Hin w Ht. pose proof Ht as (c & dbf' & Hc & Hp & Hro & Hb & Hf & Ht1 & Ht2 & Hcache).
  pose proof (cache_ok_slot _ _ _ Hcache Hin) as Hslot.
  unfold dc_sqlite3_predefine__. rewrite Hc.
  destruct (PREDEFINED_CNT <=? idx)%nat eqn:Hidx; [by split|].
  unfold slot_ok in Hslot.
  assert (Hnew : ∀ o, m_pd (store w) !! idx = o → (∀ st0, o ≠ Some (Some st0)) →
    let r := (let '(rc, stmt, w') := sqlite3_prepare_v2 q w in
              if rc =? SQLITE_OK
              then (stmt, set_store (set_pd (<[idx:=stmt]> (m_pd (store w'))) (store w')) w')
              else (None, (dc_sqlite3_log_error
                             ("Preparing statement " +:+ dq +:+ "%s" +:+ dq +:+ " failed.")
                             w').2)) in
    (∀ st, r.1 = Some st → st_sql st = q) ∧ tied p b F dbf r.2).
  { intros o Hpd Hno. pose proof (tied_prepare p b F dbf q w Ht) as Ht'.
    unfold sqlite3_prepare_v2 in *. rewrite Hc in *.
    destruct (sql_valid (c_data c) q); cbn [fst snd] in *.
    + change (SQLITE_OK =? SQLITE_OK) with true. cbv iota. cbn [fst snd].
      split; [by intros st [= <-]|].
      * destruct Ht' as (c1 & dbf1 & Hc1 & H1 & H2 & H3 & H4 & H5 & H6 & H7).
        exists c1, dbf1. destruct w as [[co pd n] f ts tr lg]. cbn in *.
        split_and!; try done.
        eapply cache_ok_step; [exact Hcache | exact Hin |].
        intros j q' Hj Hjq. unfold slot_ok in *.
        destruct (decide (j = idx)) as [->|Hne]; [|by rewrite list_lookup_insert_ne].
        destruct (decide (idx < length pd)%nat) as [Hlt|Hge].
        -- rewrite list_lookup_insert_eq by done.
           cbn. apply bool_decide_eq_true_2. symmetry. by apply Hjq.
        -- by rewrite list_insert_ge by lia.
    + change (SQLITE_ERROR =? SQLITE_OK) with false. cbv iota. cbn [fst snd]. split; [done|].
      by apply tied_log. }
  destruct (m_pd (store w) !! idx) as [[st0|]|] eqn:Hpd.
  - cbn [fst snd]. split; [|done]. intros st [= <-]. cbn. by apply bool_decide_eq_true in Hslot.
  - by apply (Hnew (Some None)).
  - by apply (Hnew None).
Qed.

Lemma tied_is_open p b F dbf : preserves (tied p b F dbf) (dc_sqlite3_is_open THS).
Proof. intros w Hw. unfold dc_sqlite3_is_open. by destruct (m_cobj (store w)). Qed.

Ltac tied_bound_sql :=
  let st := fresh "st" in
  let Hst := fresh "Hst" in
  intros st Hst; unfold sqlite3_bind_text in Hst;
  match goal with
  | H : ∀ st', ?s = Some st' → st_sql st' = ?q |- _ =>
      destruct s as [?st0|]; [|discriminate Hst];
      cbn in Hst; injection Hst as <-; cbn [st_sql];
      by rewrite (H _ eq_refl)
  end.

Ltac tied_step_tac :=
  first
    [ apply preserves_ret
    | apply tied_log_error | apply tied_sqlite3_log_error | apply tied_is_open
    | apply tied_step; tied_bound_sql
    | eapply hoare_bind;
      [apply tied_predefine; in_list
      |let s := fresh "stmt" in
       let H := fresh "Hsql" in
       intros s; apply hoare_pre; intros H]
    | apply preserves_bind;
      [|let x := fresh "x" in
        intros x; try match type of x with (_ * _)%type => destruct x end]
    | match goal with
      | |- hoare _ (match ?x with _ => _ end) _ => destruct x
      | |- preserves _ (match ?x with _ => _ end) => destruct x
      end ].

Ltac tied_tac := repeat tied_step_tac.

(** The functions of the config store keep the connection on its file, in
    its transaction or out of it, and write the file outside a transaction
    only. *)
Lemma tied_set_config p b F dbf key value :
  preserves (tied p b F dbf) (dc_sqlite3_set_config__ THS key value).
Proof. unfold dc_sqlite3_set_config__. tied_tac. Qed.

Lemma tied_get_config p b F dbf key def :
  preserves (tied p b F dbf) (dc_sqlite3_get_config__ THS key def).
Proof. unfold dc_sqlite3_get_config__. tied_tac. Qed.

(** ** Transactions on the connection *)

Lemma view_seen ro db w : view ro db w → seen w = Some db.
Proof. intros (c & Hc & _ & <-). unfold seen. by rewrite Hc. Qed.

Lemma seen_view w db : seen w = Some db → ∃ ro, view ro db w.
Proof.
  unfold seen. destruct (m_cobj (store w)) as [c|] eqn:Hc; [|done].
  intros [= <-]. exists (c_readonly c). by exists c.
Qed.

(** The cached statement of a transaction, ready to be stepped. *)
Lemma predefine_txn p b F dbf idx q w :
  (idx, q) ∈ predefined_statements → (idx < PREDEFINED_CNT)%nat → is_txn_sql q = true →
  tied p b F dbf w →
  (dc_sqlite3_predefine__ THS idx (Some q) w).1 = Some (Stmt q [] None None)
  ∧ tied p b F dbf (dc_sqlite3_predefine__ THS idx (Some q) w).2
  ∧ seen (dc_sqlite3_predefine__ THS idx (Some q) w).2 = seen w
  ∧ m_transactionCount (store (dc_sqlite3_predefine__ THS idx (Some q) w).2)
    = m_transactionCount (store w).
Proof.
  intros Hin Hidx Hq Ht. destruct (tied_view _ _ _ _ _ Ht) as (db & Hv & Hs).
  pose proof Ht as (_ & _ & _ & _ & _ & _ & _ & _ & _ & Hcache).
  pose proof (predefine_spec _ _ idx q w Hv (cache_ok_slot _ _ _ Hcache Hin) Hidx) as H.
  cbv zeta in H. destruct H as (Hv1 & Hval & _ & _ & Hn & _).
  destruct (tied_predefine p b F dbf idx q Hin w Ht) as [_ Ht1].
  split_and!; [|done| |done].
  - apply Hval. by destruct q.
  - by rewrite (view_seen _ _ _ Hv1), Hs.
Qed.

Lemma step_begin_tied p F dbf db w :
  tied p false F dbf w → seen w = Some db →
  let r := sqlite3_step (Some (Stmt BEGIN [] None None)) w in
  r.1.1 = SQLITE_DONE ∧ tied p true F db r.2 ∧ seen r.2 = Some db
  ∧ m_transactionCount (store r.2) = m_transactionCount (store w).
Proof.
  intros (c & dbf' & Hc & Hp & Hro & Hb & Hf & _ & Hn & Hcache) Hs. cbv zeta.
  unfold seen in Hs. rewrite Hc in Hs. injection Hs as Hs.
  destruct w as [[co pd n] f ts tr lg]. cbn in Hc, Hf, Hcache. subst co.
  unfold sqlite3_step, engine_step. cbn. rewrite Hb. cbn.
  split_and!; [done | | by rewrite <- Hs | done].
  exists (set_intxn true c), dbf'. rewrite <- Hs, <- (Hn eq_refl). by split_and!.
Qed.

Lemma step_commit_tied p F dbf w :
  tied p true F dbf w →
  let r := sqlite3_step (Some (Stmt COMMIT [] None None)) w in
  r.1.1 = SQLITE_DONE ∧ tied p false F dbf r.2 ∧ seen r.2 = seen w
  ∧ m_transactionCount (store r.2) = m_transactionCount (store w).
Proof.
  intros (c & dbf' & Hc & Hp & Hro & Hb & Hf & _ & _ & Hcache). cbv zeta.
  destruct w as [[co pd n] f ts tr lg]. cbn in Hc, Hf, Hcache. subst co.
  unfold sqlite3_step, engine_step, seen. cbn. rewrite Hb, Hro. cbn.
  split_and!; [done | | done | done].
  exists (set_intxn false c), (c_data c). split_and!; try done.
  rewrite Hf, Hp. by rewrite insert_insert_eq.
Qed.

Lemma step_rollback_tied p F dbf w :
  tied p true F dbf w →
  let r := sqlite3_step (Some (Stmt ROLLBACK [] None None)) w in
  r.1.1 = SQLITE_DONE ∧ tied p false F dbf r.2 ∧ seen r.2 = Some dbf
  ∧ m_transactionCount (store r.2) = m_transactionCount (store w).
Proof.
  intros (c & dbf' & Hc & Hp & Hro & Hb & Hf & Hd & _ & Hcache). cbv zeta.
  destruct w as [[co pd n] f ts tr lg]. cbn in Hc, Hf, Hcache. subst co.
  unfold sqlite3_step, engine_step, seen. cbn. rewrite Hb. cbn.
  assert (Hcm : committed f (c_path c) = dbf).
  { unfold committed. rewrite Hf, Hp, lookup_insert_eq. by apply Hd. }
  rewrite Hcm. split_and!; [done | | done | done].
  exists (set_intxn false (set_data dbf c)), dbf'. split_and!; try done.
  intros _. by apply Hd.
Qed.

(** The first begin opens the transaction of the connection. *)
Lemma begin_tied p F dbf db w :
  tied p false F dbf w → seen w = Some db → m_transactionCount (store w) = 0 →
  let w' := (dc_sqlite3_begin_transaction__ THS w).2 in
  tied p true F db w' ∧ seen w' = Some db ∧ m_transactionCount (store w') = 1.
Proof.
  intros Ht Hs H0. cbv zeta. rewrite begin_eq, H0. cbv zeta.
  change (0 + 1 =? 1) with true. cbv iota. unfold run_cached. run.
  pose proof (predefine_txn p false F dbf BEGIN_transaction BEGIN (with_count (0 + 1) w)
    ltac:(in_list) ltac:(unfold BEGIN_transaction, PREDEFINED_CNT; lia) eq_refl
    (tied_with_count _ _ _ _ _ _ Ht)) as (Hst & Ht1 & Hs1 & Hn1).
  rewrite Hst. rewrite seen_with_count, Hs in Hs1.
  pose proof (step_begin_tied p F dbf db _ Ht1 Hs1) as H. cbv zeta in H.
  destruct (sqlite3_step _ _) as [[rc o] w2]. cbn [fst snd] in H |- *.
  destruct H as (-> & Ht2 & Hs2 & Hn2).
  change (negb (SQLITE_DONE =? SQLITE_DONE)) with false. cbv iota. rewrite ret_run. cbn [snd].
  split_and!; [done | done |]. by rewrite Hn2, Hn1.
Qed.

(** The last commit writes the file. *)
Lemma commit_tied p F dbf w :
  tied p true F dbf w → m_transactionCount (store w) = 1 →
  let w' := (dc_sqlite3_commit__ THS w).2 in
  tied p false F dbf w' ∧ seen w' = seen w ∧ m_transactionCount (store w') = 0.
Proof.
  intros Ht H1. cbv zeta. rewrite commit_eq, H1.
  change (1 <=? 1) with true. change (1 =? 1) with true. cbv iota zeta. cbn [snd].
  unfold run_cached. run.
  pose proof (predefine_txn p true F dbf COMMIT_transaction COMMIT w
    ltac:(in_list) ltac:(unfold COMMIT_transaction, PREDEFINED_CNT; lia) eq_refl Ht)
    as (Hst & Ht1 & Hs1 & Hn1).
  rewrite Hst.
  pose proof (step_commit_tied p F dbf _ Ht1) as H. cbv zeta in H.
  destruct (sqlite3_step _ _) as [[rc o] w2]. cbn [fst snd] in H |- *.
  destruct H as (-> & Ht2 & Hs2 & Hn2).
  change (negb (SQLITE_DONE =? SQLITE_DONE)) with false. cbv iota. rewrite ret_run. cbn [snd].
  split_and!; [by apply tied_with_count | by rewrite seen_with_count, Hs2, Hs1 |].
  rewrite with_count_count, Hn2, Hn1, H1. done.
Qed.

(** The last rollback gives the connection the database of the file. *)
Lemma rollback_tied p F dbf w :
  tied p true F dbf w → m_transactionCount (store w) = 1 →
  let w' := (dc_sqlite3_rollback__ THS w).2 in
  tied p false F dbf w' ∧ seen w' = Some dbf ∧ m_transactionCount (store w') = 0.
Proof.
  intros Ht H1. cbv zeta. rewrite rollback_eq, H1.
  change (1 <=? 1) with true. change (1 =? 1) with true. cbv iota zeta. cbn [snd].
  unfold run_cached. run.
  pose proof (predefine_txn p true F dbf ROLLBACK_transaction ROLLBACK w
    ltac:(in_list) ltac:(unfold ROLLBACK_transaction, PREDEFINED_CNT; lia) eq_refl Ht)
    as (Hst & Ht1 & Hs1 & Hn1).
  rewrite Hst.
  pose proof (step_rollback_tied p F dbf _ Ht1) as H. cbv zeta in H.
  destruct (sqlite3_step _ _) as [[rc o] w2]. cbn [fst snd] in H |- *.
  destruct H as (-> & Ht2 & Hs2 & Hn2).
  change (negb (SQLITE_DONE =? SQLITE_DONE)) with false. cbv iota. rewrite ret_run. cbn [snd].
  split_and!; [by apply tied_with_count | by rewrite seen_with_count |].
  rewrite with_count_count, Hn2, Hn1, H1. done.
Qed.

(** Inside a transaction begin, commit and rollback move the counter and
    nothing else. *)
Lemma begin_inner w :
  1 ≤ m_transactionCount (store w) →
  (dc_sqlite3_begin_transaction__ THS w).2 = with_count (m_transactionCount (store w) + 1) w.
Proof.
  intros H. rewrite begin_eq. cbv zeta.
  by destruct (Z.eqb_spec (m_transactionCount (store w) + 1) 1); [lia|].
Qed.

Lemma commit_inner w :
  2 ≤ m_transactionCount (store w) →
  (dc_sqlite3_commit__ THS w).2 = with_count (m_transactionCount (store w) - 1) w.
Proof.
  intros H. rewrite commit_eq.
  destruct (Z.leb_spec 1 (m_transactionCount (store w))); [|lia].
  by destruct (Z.eqb_spec (m_transactionCount (store w)) 1); [lia|].
Qed.

Lemma rollback_inner w :
  2 ≤ m_transactionCount (store w) →
  (dc_sqlite3_rollback__ THS w).2 = with_count (m_transactionCount (store w) - 1) w.
Proof.
  intros H. rewrite rollback_eq.
  destruct (Z.leb_spec 1 (m_transactionCount (store w))); [|lia].
  by destruct (Z.eqb_spec (m_transactionCount (store w)) 1); [lia|].
Qed.

(** From the observations to the invariant, and back. *)
Lemma ready_tied w :
  store_writable w = true → synced w = true →
  ∃ p db, tied p (in_transaction w) (files w) db w ∧ seen w = Some db
          ∧ config_ok db = true ∧ store_path w = Some p ∧ files w !! p = Some (DbFile db).
Proof.
  unfold store_writable, synced, seen, disk, in_transaction, store_path.
  destruct (m_cobj (store w)) as [c|] eqn:Hc; [|done]. cbn.
  intros [[Hro%negb_true_iff Hok]%andb_prop Hcache]%andb_prop Hsync.
  apply bool_decide_eq_true in Hsync.
  destruct (files w !! c_path c) as [[db|]|] eqn:Hf; simplify_eq.
  exists (c_path c), (c_data c). split_and!; try done.
  exists c, (c_data c). split_and!; try done. by rewrite insert_id.
Qed.

Lemma tied_obs p b F dbf w :
  tied p b F dbf w →
  in_transaction w = b ∧ store_path w = Some p
  ∧ (b = false → synced w = true)
  ∧ (b = true → disk w = Some dbf)
  ∧ (∀ p', p' ≠ p → files w !! p' = F !! p').
Proof.
  intros (c & dbf' & Hc & Hp & Hro & Hb & Hf & Ht & Hn & Hcache).
  unfold in_transaction, store_path, synced, seen, disk. rewrite Hc. cbn.
  rewrite Hp, Hf, lookup_insert_eq. split_and!; try done.
  - intros H. rewrite (Hn H). by apply bool_decide_eq_true_2.
  - intros H. by rewrite (Ht H).
  - intros p' Hne. by rewrite lookup_insert_ne.
Qed.

Lemma tied_writable p b F dbf db w :
  tied p b F dbf w → seen w = Some db → config_ok db = true → store_writable w = true.
Proof.
  intros (c & dbf' & Hc & Hp & Hro & Hb & Hf & Ht & Hn & Hcache) Hs Hok.
  unfold seen in Hs. rewrite Hc in Hs. injection Hs as Hs.
  unfold store_writable. by rewrite Hc, Hro, Hs, Hok, Hcache.
Qed.

(** A write of the config store, with the connection and its file. *)
Lemma set_config_tied p b F dbf db key value w :
  tied p b F dbf w → seen w = Some db → config_ok db = true →
  let r := dc_sqlite3_set_config__ THS (Some key) value w in
  let db' := match value with Some v => config_set db key v | None => config_del db key end in
  tied p b F dbf r.2 ∧ seen r.2 = Some db' ∧ config_ok db' = true
  ∧ config_get db' key = value
  ∧ m_transactionCount (store r.2) = m_transactionCount (store w).
Proof.
  intros Ht Hs Hok. cbv zeta.
  pose proof (tied_set_config p b F dbf (Some key) value w Ht) as Ht'.
  destruct (tied_view _ _ _ _ _ Ht) as (db0 & Hv & Hs0).
  rewrite Hs in Hs0. injection Hs0 as <-.
  pose proof Ht as (_ & _ & _ & _ & _ & _ & _ & _ & _ & Hcache).
  pose proof (set_config_spec db key value w Hv Hcache Hok) as H. cbv zeta in H.
  destruct H as (_ & Hv' & _ & Hn & _).
  split_and!; [done | by apply (view_seen _ _ _ Hv') | by apply config_written_ok | | done].
  destruct value as [v|].
  - by destruct (config_set_spec db key v Hok) as (? & _).
  - by destruct (config_del_spec db key Hok) as (? & _).
Qed.

Lemma seen_stored w db key : seen w = Some db → stored w key = config_get db key.
Proof.
  unfold seen, stored. destruct (m_cobj (store w)); [|done]. by intros [= <-].
Qed.

Lemma synced_on_disk w db key :
  synced w = true → seen w = Some db → on_disk w key = config_get db key.
Proof.
  unfold synced, on_disk. intros H Hs. rewrite Hs in H.
  apply bool_decide_eq_true in H. by rewrite H.
Qed.

(** X7: Outside a transaction a write goes to the file at once, and to no other
    file. *)
Theorem set_config_writes_through (w : world) (key : string) (value : option string) :
  store_writable w = true → synced w = true → in_transaction w = false →
  let w' := (dc_sqlite3_set_config__ THS (Some key) value w).2 in
  synced w' = true ∧ in_transaction w' = false
  ∧ on_disk w' key = value
  ∧ (∀ p, store_path w ≠ Some p → files w' !! p = files w !! p).
Proof.
  intros Hw Hsync Hb. cbv zeta.
  destruct (ready_tied w Hw Hsync) as (p & db & Ht & Hs & Hok & Hp & Hf). rewrite Hb in Ht.
  pose proof (set_config_tied p false (files w) db db key value w Ht Hs Hok) as H.
  cbv zeta in H. destruct H as (Ht' & Hs' & Hok' & Hg & _).
  destruct (tied_obs _ _ _ _ _ Ht') as (Hb' & _ & Hsy & _ & Hfr).
  split_and!; [by apply Hsy | done | |].
  - by rewrite (synced_on_disk _ _ _ (Hsy eq_refl) Hs').
  - intros p' Hne. apply Hfr. intros ->. by rewrite Hp in Hne.
Qed.

(** X8: begin, a write, commit: until the commit the files are as they were,
    though the connection sees the write; the commit puts it in the file. *)
Theorem transaction_commit (w : world) (key : string) (value : option string) :
  store_writable w = true → synced w = true → in_transaction w = false →
  m_transactionCount (store w) = 0 →
  let w1 := (dc_sqlite3_begin_transaction__ THS w).2 in
  let w2 := (dc_sqlite3_set_config__ THS (Some key) value w1).2 in
  let w3 := (dc_sqlite3_commit__ THS w2).2 in
  in_transaction w2 = true ∧ files w2 = files w ∧ stored w2 key = value
  ∧ in_transaction w3 = false ∧ synced w3 = true
  ∧ stored w3 key = value ∧ on_disk w3 key = value
  ∧ m_transactionCount (store w3) = 0.
Proof.
  intros Hw Hsync Hb H0. cbv zeta.
  destruct (ready_tied w Hw Hsync) as (p & db & Ht & Hs & Hok & Hp & Hf). rewrite Hb in Ht.
  pose proof (begin_tied p (files w) db db w Ht Hs H0) as H. cbv zeta in H.
  destruct H as (Ht1 & Hs1 & Hn1).
  pose proof (set_config_tied p true (files w) db db key value _ Ht1 Hs1 Hok) as H.
  cbv zeta in H. destruct H as (Ht2 & Hs2 & Hok2 & Hg2 & Hn2).
  pose proof (commit_tied p (files w) db _ Ht2 ltac:(by rewrite Hn2)) as H.
  cbv zeta in H. destruct H as (Ht3 & Hs3 & Hn3). rewrite Hs2 in Hs3.
  destruct (tied_obs _ _ _ _ _ Ht2) as (Hb2 & _ & _ & _ & _).
  destruct (tied_obs _ _ _ _ _ Ht3) as (Hb3 & _ & Hsy3 & _ & _).
  split_and!; [done | | | done | by apply Hsy3 | | | done].
  - destruct Ht2 as (c & dbf' & _ & _ & _ & _ & Hf2 & Hd & _).
    rewrite Hf2, (Hd eq_refl). by apply insert_id.
  - by rewrite (seen_stored _ _ _ Hs2).
  - by rewrite (seen_stored _ _ _ Hs3).
  - by rewrite (synced_on_disk _ _ _ (Hsy3 eq_refl) Hs3).
Qed.

(** X9: begin, a write, rollback: the files were never touched and the
    connection sees the database it saw before the begin. *)
Theorem transaction_rollback (w : world) (key : string) (value : option string) :
  store_writable w = true → synced w = true → in_transaction w = false →
  m_transactionCount (store w) = 0 →
  let w1 := (dc_sqlite3_begin_transaction__ THS w).2 in
  let w2 := (dc_sqlite3_set_config__ THS (Some key) value w1).2 in
  let w3 := (dc_sqlite3_rollback__ THS w2).2 in
  stored w2 key = value
  ∧ files w3 = files w ∧ seen w3 = seen w ∧ (∀ k, stored w3 k = stored w k)
  ∧ in_transaction w3 = false ∧ synced w3 = true ∧ store_writable w3 = true
  ∧ m_transactionCount (store w3) = 0.
Proof.
  intros Hw Hsync Hb H0. cbv zeta.
  destruct (ready_tied w Hw Hsync) as (p & db & Ht & Hs & Hok & Hp & Hf). rewrite Hb in Ht.
  pose proof (begin_tied p (files w) db db w Ht Hs H0) as H. cbv zeta in H.
  destruct H as (Ht1 & Hs1 & Hn1).
  pose proof (set_config_tied p true (files w) db db key value _ Ht1 Hs1 Hok) as H.
  cbv zeta in H. destruct H as (Ht2 & Hs2 & Hok2 & Hg2 & Hn2).
  pose proof (rollback_tied p (files w) db _ Ht2 ltac:(by rewrite Hn2)) as H.
  cbv zeta in H. destruct H as (Ht3 & Hs3 & Hn3).
  destruct (tied_obs _ _ _ _ _ Ht3) as (Hb3 & _ & Hsy3 & _ & _).
  split_and!; [| | by rewrite Hs3, Hs | | done | by apply Hsy3 | | done].
  - by rewrite (seen_stored _ _ _ Hs2).
  - destruct Ht3 as (c & dbf' & Hc3 & _ & _ & _ & Hf3 & _ & Hd & _).
    unfold seen in Hs3. rewrite Hc3 in Hs3. injection Hs3 as Hs3.
    rewrite Hf3, (Hd eq_refl), Hs3. by apply insert_id.
  - intros k. by rewrite (seen_stored _ _ _ Hs3), (seen_stored _ _ _ Hs).
  - by eapply tied_writable.
Qed.

(** X10: A rollback inside a nested transaction rolls nothing back: after begin,
    begin, a write, rollback, commit, the write is stored and in the file. *)
Theorem inner_rollback_keeps (w : world) (key : string) (value : option string) :
  store_writable w = true → synced w = true → in_transaction w = false →
  m_transactionCount (store w) = 0 →
  let w1 := (dc_sqlite3_begin_transaction__ THS w).2 in
  let w2 := (dc_sqlite3_begin_transaction__ THS w1).2 in
  let w3 := (dc_sqlite3_set_config__ THS (Some key) value w2).2 in
  let w4 := (dc_sqlite3_rollback__ THS w3).2 in
  let w5 := (dc_sqlite3_commit__ THS w4).2 in
  stored w4 key = value ∧ in_transaction w4 = true
  ∧ m_transactionCount (store w4) = 1
  ∧ stored w5 key = value ∧ on_disk w5 key = value
  ∧ in_transaction w5 = false ∧ m_transactionCount (store w5) = 0.
Proof.
  intros Hw Hsync Hb H0. cbv zeta.
  destruct (ready_tied w Hw Hsync) as (p & db & Ht & Hs & Hok & Hp & Hf). rewrite Hb in Ht.
  pose proof (begin_tied p (files w) db db w Ht Hs H0) as H. cbv zeta in H.
  destruct H as (Ht1 & Hs1 & Hn1).
  rewrite (begin_inner (dc_sqlite3_begin_transaction__ THS w).2) by lia. rewrite Hn1.
  pose proof (set_config_tied p true (files w) db db key value _
    (tied_with_count _ _ _ _ (1 + 1) _ Ht1) Hs1 Hok) as H.
  cbv zeta in H. destruct H as (Ht3 & Hs3 & Hok3 & Hg3 & Hn3).
  rewrite with_count_count in Hn3.
  rewrite (rollback_inner (dc_sqlite3_set_config__ THS (Some key) value _).2) by lia.
  rewrite Hn3. change (1 + 1 - 1) with 1.
  pose proof (commit_tied p (files w) db _ (tied_with_count _ _ _ _ 1 _ Ht3) eq_refl) as H.
  cbv zeta in H. destruct H as (Ht5 & Hs5 & Hn5). rewrite seen_with_count, Hs3 in Hs5.
  destruct (tied_obs _ _ _ _ _ Ht3) as (Hb3 & _).
  destruct (tied_obs _ _ _ _ _ Ht5) as (Hb5 & _ & Hsy5 & _ & _).
  split_and!; [| done | done | | | done | done].
  - erewrite seen_stored by (rewrite seen_with_count; exact Hs3). done.
  - by rewrite (seen_stored _ _ _ Hs5).
  - by rewrite (synced_on_disk _ _ _ (Hsy5 eq_refl) Hs5).
Qed.

(** ** The open, on its file *)

Lemma tied_prepare_v2_ p b F dbf q :
  hoare (tied p b F dbf) (dc_sqlite3_prepare_v2_ THS (Some q))
        (λ stmt w, (∀ st, stmt = Some st → st_sql st = q) ∧ tied p b F dbf w).
Proof.
  intros w Ht. pose proof Ht as (c & dbf' & Hc & _).
  rewrite (prepare_eq _ _ _ Hc).
  pose proof (tied_prepare p b F dbf q w Ht) as Ht'.
  unfold sqlite3_prepare_v2 in Ht'. rewrite Hc in Ht'.
  destruct (sql_valid (c_data c) q); cbn [fst snd] in *.
  - split; [by intros st [= <-]|done].
  - split; [done|]. by apply tied_log.
Qed.

Lemma tied_finalize p b F dbf stmt : preserves (tied p b F dbf) (sqlite3_finalize stmt).
Proof. by intros w Hw. Qed.

Ltac tied_sql :=
  let st := fresh "st" in
  let Hst := fresh "Hst" in
  intros st Hst;
  match goal with
  | H : ∀ st', ?s = Some st' → st_sql st' = ?q |- _ => by rewrite (H _ Hst)
  end.

Lemma tied_execute p b F dbf q :
  is_txn_sql q = false → preserves (tied p b F dbf) (dc_sqlite3_execute__ THS q).
Proof.
  intros Hq. unfold dc_sqlite3_execute__.
  eapply hoare_bind; [apply tied_prepare_v2_|]. intros stmt. apply hoare_pre. intros Hsql.
  destruct stmt as [st|]; [|apply preserves_ret].
  apply preserves_bind; [apply tied_step; tied_sql|]. intros [rc o].
  destruct (_ && _).
  - apply preserves_bind; [apply tied_sqlite3_log_error|]. intros ?.
    apply preserves_bind; [apply tied_finalize|]. intros ?. apply preserves_ret.
  - apply preserves_bind; [apply tied_finalize|]. intros ?. apply preserves_ret.
Qed.

Lemma tied_table_exists p b F dbf name :
  preserves (tied p b F dbf) (dc_sqlite3_table_exists__ THS name).
Proof.
  unfold dc_sqlite3_table_exists__.
  eapply hoare_bind; [apply tied_prepare_v2_|]. intros stmt. apply hoare_pre. intros Hsql.
  destruct stmt as [st|]; [|apply preserves_ret].
  apply preserves_bind; [apply tied_step; tied_sql|]. intros [rc o].
  apply preserves_bind; [apply tied_finalize|]. intros ?. apply preserves_ret.
Qed.

Lemma tied_get_config_int p b F dbf key def :
  preserves (tied p b F dbf) (dc_sqlite3_get_config_int__ THS key def).
Proof.
  unfold dc_sqlite3_get_config_int__.
  apply preserves_bind; [apply tied_get_config|]. intros []; apply preserves_ret.
Qed.

Lemma tied_set_config_int p b F dbf key v :
  preserves (tied p b F dbf) (dc_sqlite3_set_config_int__ THS key v).
Proof. unfold dc_sqlite3_set_config_int__. apply tied_set_config. Qed.

Lemma tied_log_info p b F dbf msg : preserves (tied p b F dbf) (dc_log_info msg).
Proof. intros w Hw. by apply tied_log. Qed.

Lemma tied_tables_missing p b F dbf : preserves (tied p b F dbf) (open_tables_missing THS).
Proof.
  unfold open_tables_missing.
  repeat (apply preserves_bind; [apply tied_table_exists|]; intros ?;
          match goal with |- preserves _ (if ?c then _ else _) => destruct c end;
          [apply preserves_ret|]).
  apply preserves_bind; [apply tied_table_exists|]. intros ?. apply preserves_ret.
Qed.

Lemma tied_init_tables p b F dbf : preserves (tied p b F dbf) (open_init_tables THS).
Proof.
  unfold open_init_tables.
  repeat (apply preserves_bind;
          [first [apply tied_log_info | apply tied_execute; reflexivity]|]; intros ?).
  apply preserves_bind; [apply tied_tables_missing|]. intros [].
  - apply preserves_bind; [apply tied_sqlite3_log_error|]. intros ?. apply preserves_ret.
  - apply preserves_bind; [apply tied_set_config_int|]. intros ?. apply preserves_ret.
Qed.

Lemma tied_rung p b F dbf dbversion target body :
  preserves (tied p b F dbf) body → preserves (tied p b F dbf) (rung THS dbversion target body).
Proof.
  intros Hb. unfold rung. destruct (dbversion <? target); [|apply preserves_ret].
  apply preserves_bind; [done|]. intros ?.
  apply preserves_bind; [apply tied_set_config_int|]. intros ?. apply preserves_ret.
Qed.

Ltac tied_body :=
  repeat (apply preserves_bind; [apply tied_execute; reflexivity|]; intros ?);
  try match goal with |- preserves _ (if ?c then _ else _) => destruct c end;
  repeat (apply preserves_bind; [apply tied_execute; reflexivity|]; intros ?);
  apply preserves_ret.

Lemma tied_rung_bodies p b F dbf v0 :
  preserves (tied p b F dbf) (rung_1 THS) ∧ preserves (tied p b F dbf) (rung_2 THS)
  ∧ preserves (tied p b F dbf) (rung_7 THS) ∧ preserves (tied p b F dbf) (rung_10 THS)
  ∧ preserves (tied p b F dbf) (rung_12 THS) ∧ preserves (tied p b F dbf) (rung_17 THS)
  ∧ preserves (tied p b F dbf) (rung_18 THS) ∧ preserves (tied p b F dbf) (rung_27 THS)
  ∧ preserves (tied p b F dbf) (rung_34 THS) ∧ preserves (tied p b F dbf) (rung_39 THS v0)
  ∧ preserves (tied p b F dbf) (rung_40 THS).
Proof.
  unfold rung_1, rung_2, rung_7, rung_10, rung_12, rung_17, rung_18, rung_27, rung_34,
    rung_39, rung_40.
  split_and!; tied_body.
Qed.

Section OpenTied.

Variable fingerprint : value → value.

Lemma tied_resave p b F dbf addr :
  preserves (tied p b F dbf) (dc_apeerstate_resave fingerprint THS addr).
Proof.
  intros w Ht. pose proof Ht as (c & dbf' & Hc & Hp & Hro & Hb & Hf & Hd & Hn & Hcache).
  unfold dc_apeerstate_resave. rewrite Hc. destruct addr as [addr|]; [|done]. cbn [snd].
  destruct w as [[co pd n] f ts tr lg]. cbn in Hc, Hf, Hcache. subst co.
  exists (set_data (dc_apeerstate_recalc fingerprint addr (c_data c)) c). rewrite Hb.
  destruct b.
  - exists dbf'. by split_and!.
  - exists (dc_apeerstate_recalc fingerprint addr (c_data c)). split_and!; try done.
    cbn. rewrite Hf, Hp. by rewrite insert_insert_eq.
Qed.

(** A step hands back the statement it was given: the same text. *)
Lemma tied_step_sql p b F dbf stmt q :
  (∀ st, stmt = Some st → st_sql st = q) → is_txn_sql q = false →
  hoare (tied p b F dbf) (sqlite3_step stmt)
        (λ r w, (∀ st, r.2 = Some st → st_sql st = q) ∧ tied p b F dbf w).
Proof.
  intros Hsql Hq w Ht. split.
  - destruct stmt as [st0|]; [|unfold sqlite3_step; by destruct (m_cobj (store w))].
    specialize (Hsql st0 eq_refl). destruct Ht as (c & _ & Hc & _).
    rewrite (step_eq _ _ _ Hc).
    destruct (engine_step c (files w) st0) as [[[rc st'] c'] f'] eqn:E. cbn.
    intros st [= <-]. unfold engine_step, cursor_step in E.
    destruct (sql_valid _ _); cbn in E; [|by simplify_eq].
    destruct (st_sql st0) eqn:E0; repeat (case_match; simplify_eq/=); done.
  - apply tied_step; [|done]. intros st Hst. by rewrite (Hsql st Hst).
Qed.

Lemma tied_recalc_loop p b F dbf fuel stmt :
  (∀ st, stmt = Some st → st_sql st = SELECT "addr" "acpeerstates" CTrue) →
  preserves (tied p b F dbf) (recalc_loop fingerprint fuel THS stmt).
Proof.
  revert stmt. induction fuel as [|fuel IH]; intros stmt Hsql; cbn [recalc_loop];
    [apply preserves_ret|].
  eapply hoare_bind; [by apply (tied_step_sql p b F dbf stmt _ Hsql)|].
  intros [rc st]. apply hoare_pre. cbn [snd]. intros Hsql'.
  destruct (rc =? SQLITE_ROW); [|apply preserves_ret].
  apply preserves_bind; [apply tied_resave|]. intros ?. by apply IH.
Qed.

Lemma tied_recalc p b F dbf :
  preserves (tied p b F dbf) (open_recalc_fingerprints fingerprint THS).
Proof.
  unfold open_recalc_fingerprints.
  eapply hoare_bind; [apply tied_prepare_v2_|]. intros stmt. apply hoare_pre. intros Hsql.
  apply preserves_bind; [by intros w Hw|]. intros n.
  apply preserves_bind; [by apply tied_recalc_loop|]. intros ?. apply tied_finalize.
Qed.

Lemma tied_open_update p b F dbf v0 :
  preserves (tied p b F dbf) (open_update fingerprint THS v0).
Proof.
  unfold open_update.
  destruct (tied_rung_bodies p b F dbf v0) as (? & ? & ? & ? & ? & ? & ? & ? & ? & ? & ?).
  repeat (apply preserves_bind; [by apply tied_rung|]; intros ?).
  cbv zeta. repeat (apply preserves_bind; [by apply tied_rung|]; intros ?).
  match goal with |- preserves _ (if ?c then _ else _) => destruct c end;
    [apply tied_recalc | apply preserves_ret].
Qed.

Lemma tied_open_readwrite p b F dbf :
  preserves (tied p b F dbf) (open_readwrite fingerprint THS).
Proof.
  unfold open_readwrite.
  apply preserves_bind; [apply tied_table_exists|]. intros e.
  destruct (e =? 0).
  - apply preserves_bind; [apply tied_init_tables|]. intros [].
    + apply preserves_bind; [apply tied_open_update|]. intros ?. apply preserves_ret.
    + apply preserves_ret.
  - apply preserves_bind; [apply tied_get_config_int|]. intros v.
    apply preserves_bind; [apply tied_open_update|]. intros ?. apply preserves_ret.
Qed.

End OpenTied.

(** ** What every function keeps

    A property of the world that the log, the cache and the engine calls
    keep is kept by every function of the store that leaves the connection
    in place. *)

Section Lift.

Variable I : world → Prop.
Hypothesis I_log : ∀ l w, I w → I (add_log l w).
Hypothesis I_prepare : ∀ q w, I w → I (sqlite3_prepare_v2 q w).2.
Hypothesis I_step : ∀ stmt w, I w → I (sqlite3_step stmt w).2.
Hypothesis I_pd : ∀ pd w, I w → I (set_store (set_pd pd (store w)) w).

Lemma lift_log_info msg : preserves I (dc_log_info msg).
Proof. intros w Hw. by apply I_log. Qed.

Lemma lift_log_error msg : preserves I (dc_log_error msg).
Proof. intros w Hw. by apply I_log. Qed.

Lemma lift_sqlite3_log_error msg : preserves I (dc_sqlite3_log_error msg).
Proof. intros w Hw. by apply I_log. Qed.

Lemma lift_is_open ths : preserves I (dc_sqlite3_is_open ths).
Proof. intros w Hw. unfold dc_sqlite3_is_open. by destruct ths, (m_cobj (store w)). Qed.

Lemma lift_finalize stmt : preserves I (sqlite3_finalize stmt).
Proof. by intros w Hw. Qed.

Lemma lift_step stmt : preserves I (sqlite3_step stmt).
Proof. intros w Hw. by apply I_step. Qed.

Lemma lift_prepare_v2_ ths q : preserves I (dc_sqlite3_prepare_v2_ ths q).
Proof.
  intros w Hw. unfold dc_sqlite3_prepare_v2_.
  destruct ths, q as [q|], (m_cobj (store w)); try done.
  pose proof (I_prepare q w Hw) as H.
  destruct (sqlite3_prepare_v2 q w) as [[rc st] w']. cbn [snd] in H.
  destruct (rc =? SQLITE_OK); [done|]. by apply I_log.
Qed.

Lemma lift_predefine ths idx q : preserves I (dc_sqlite3_predefine__ ths idx q).
Proof.
  intros w Hw. unfold dc_sqlite3_predefine__.
  destruct ths, (m_cobj (store w)); try done.
  destruct (PREDEFINED_CNT <=? idx)%nat; [done|].
  destruct (m_pd (store w) !! idx) as [[st0|]|]; [done| |];
    (destruct q as [q|]; [|done]);
    pose proof (I_prepare q w Hw) as H;
    destruct (sqlite3_prepare_v2 q w) as [[rc st] w']; cbn [snd] in H;
    (destruct (rc =? SQLITE_OK); [by apply I_pd | by apply I_log]).
Qed.

Ltac lift_step_tac :=
  first
    [ apply preserves_ret
    | apply lift_log_info | apply lift_log_error | apply lift_sqlite3_log_error
    | apply lift_is_open | apply lift_finalize | apply lift_step
    | apply lift_prepare_v2_ | apply lift_predefine
    | apply preserves_bind;
      [|let x := fresh "x" in
        intros x; try match type of x with (_ * _)%type => destruct x end]
    | match goal with
      | |- preserves _ (match ?x with _ => _ end) => destruct x
      end ].

Ltac lift_tac := repeat lift_step_tac.

Lemma lift_execute ths q : preserves I (dc_sqlite3_execute__ ths q).
Proof. unfold dc_sqlite3_execute__. lift_tac. Qed.

Lemma lift_table_exists ths name : preserves I (dc_sqlite3_table_exists__ ths name).
Proof. unfold dc_sqlite3_table_exists__. lift_tac. Qed.

Lemma lift_set_config ths key value : preserves I (dc_sqlite3_set_config__ ths key value).
Proof. unfold dc_sqlite3_set_config__. lift_tac. Qed.

Lemma lift_get_config ths key def : preserves I (dc_sqlite3_get_config__ ths key def).
Proof. unfold dc_sqlite3_get_config__. lift_tac. Qed.

Lemma lift_get_config_int ths key def : preserves I (dc_sqlite3_get_config_int__ ths key def).
Proof.
  unfold dc_sqlite3_get_config_int__.
  apply preserves_bind; [apply lift_get_config|]. intros []; apply preserves_ret.
Qed.

Lemma lift_set_config_int ths key v : preserves I (dc_sqlite3_set_config_int__ ths key v).
Proof. unfold dc_sqlite3_set_config_int__. apply lift_set_config. Qed.

Lemma lift_reset_all ths : preserves I (dc_sqlite3_reset_all_predefinitions ths).
Proof. intros w Hw. unfold dc_sqlite3_reset_all_predefinitions. by apply I_pd. Qed.

Ltac lift_open :=
  repeat first
    [ apply lift_execute | apply lift_table_exists
    | apply lift_set_config_int | apply lift_get_config_int
    | lift_step_tac ].

Lemma lift_tables_missing ths : preserves I (open_tables_missing ths).
Proof. unfold open_tables_missing. lift_open. Qed.

Lemma lift_init_tables ths : preserves I (open_init_tables ths).
Proof.
  unfold open_init_tables.
  repeat (apply preserves_bind;
          [first [apply lift_log_info | apply lift_execute]|]; intros ?).
  apply preserves_bind; [apply lift_tables_missing|]. intros []; lift_open.
Qed.

Lemma lift_rung ths dbversion target body :
  preserves I body → preserves I (rung ths dbversion target body).
Proof.
  intros Hb. unfold rung. destruct (dbversion <? target); [|apply preserves_ret].
  apply preserves_bind; [done|]. intros ?.
  apply preserves_bind; [apply lift_set_config_int|]. intros ?. apply preserves_ret.
Qed.

Lemma lift_rung_bodies ths v0 :
  preserves I (rung_1 ths) ∧ preserves I (rung_2 ths) ∧ preserves I (rung_7 ths)
  ∧ preserves I (rung_10 ths) ∧ preserves I (rung_12 ths) ∧ preserves I (rung_17 ths)
  ∧ preserves I (rung_18 ths) ∧ preserves I (rung_27 ths) ∧ preserves I (rung_34 ths)
  ∧ preserves I (rung_39 ths v0) ∧ preserves I (rung_40 ths).
Proof.
  unfold rung_1, rung_2, rung_7, rung_10, rung_12, rung_17, rung_18, rung_27, rung_34,
    rung_39, rung_40.
  split_and!; lift_open.
Qed.

Section LiftOpen.

Variable fingerprint : value → value.
Hypothesis I_resave : ∀ ths addr w, I w → I (dc_apeerstate_resave fingerprint ths addr w).2.

Lemma lift_recalc_loop fuel ths stmt : preserves I (recalc_loop fingerprint fuel ths stmt).
Proof.
  revert stmt. induction fuel as [|fuel IH]; intros stmt; cbn [recalc_loop];
    [apply preserves_ret|].
  apply preserves_bind; [apply lift_step|]. intros [rc st].
  destruct (rc =? SQLITE_ROW); [|apply preserves_ret].
  apply preserves_bind; [intros w Hw; by apply I_resave|]. intros ?. apply IH.
Qed.

Lemma lift_recalc ths : preserves I (open_recalc_fingerprints fingerprint ths).
Proof.
  unfold open_recalc_fingerprints.
  apply preserves_bind; [apply lift_prepare_v2_|]. intros stmt.
  apply preserves_bind; [by intros w Hw|]. intros n.
  apply preserves_bind; [apply lift_recalc_loop|]. intros ?. apply lift_finalize.
Qed.

Lemma lift_open_update ths v0 : preserves I (open_update fingerprint ths v0).
Proof.
  unfold open_update.
  destruct (lift_rung_bodies ths v0) as (? & ? & ? & ? & ? & ? & ? & ? & ? & ? & ?).
  repeat (apply preserves_bind; [by apply lift_rung|]; intros ?).
  cbv zeta. repeat (apply preserves_bind; [by apply lift_rung|]; intros ?).
  match goal with |- preserves _ (if ?c then _ else _) => destruct c end;
    [apply lift_recalc | apply preserves_ret].
Qed.

Lemma lift_open_readwrite ths : preserves I (open_readwrite fingerprint ths).
Proof.
  unfold open_readwrite.
  apply preserves_bind; [apply lift_table_exists|]. intros e.
  destruct (e =? 0).
  - apply preserves_bind; [apply lift_init_tables|]. intros [].
    + apply preserves_bind; [apply lift_open_update|]. intros ?. apply preserves_ret.
    + apply preserves_ret.
  - apply preserves_bind; [apply lift_get_config_int|]. intros v.
    apply preserves_bind; [apply lift_open_update|]. intros ?. apply preserves_ret.
Qed.

End LiftOpen.

End Lift.

(** ** The counter of transactions *)

Lemma count_log n l w :
  m_transactionCount (store w) = n → m_transactionCount (store (add_log l w)) = n.
Proof. done. Qed.

Lemma count_prepare n q w :
  m_transactionCount (store w) = n →
  m_transactionCount (store (sqlite3_prepare_v2 q w).2) = n.
Proof.
  intros H. unfold sqlite3_prepare_v2. destruct (m_cobj (store w)) as [c|]; [|done].
  by destruct (sql_valid (c_data c) q).
Qed.

Lemma count_step n stmt w :
  m_transactionCount (store w) = n → m_transactionCount (store (sqlite3_step stmt w).2) = n.
Proof.
  intros H. destruct stmt as [st|]; [by rewrite step_count|].
  unfold sqlite3_step. by destruct (m_cobj (store w)).
Qed.

Lemma count_pd n pd w :
  m_transactionCount (store w) = n →
  m_transactionCount (store (set_store (set_pd pd (store w)) w)) = n.
Proof. done. Qed.

Lemma count_resave fingerprint n ths addr w :
  m_transactionCount (store w) = n →
  m_transactionCount (store (dc_apeerstate_resave fingerprint ths addr w).2) = n.
Proof.
  intros H. unfold dc_apeerstate_resave. by destruct addr, (m_cobj (store w)).
Qed.

Lemma count_close ths w :
  m_transactionCount (store (dc_sqlite3_close__ ths w).2) = m_transactionCount (store w).
Proof.
  destruct ths; [done|]. by destruct (close_spec w) as (_ & _ & _ & _ & ?).
Qed.

Lemma count_open fingerprint ths dbfile flags w :
  m_transactionCount (store (dc_sqlite3_open__ fingerprint ths dbfile flags w).2)
  = m_transactionCount (store w).
Proof.
  assert (Hclean : ∀ w0, m_transactionCount (store w0) = m_transactionCount (store w) →
            m_transactionCount (store (open_cleanup ths w0).2) = m_transactionCount (store w)).
  { intros w0 H0. unfold open_cleanup. run. cbn [snd]. by rewrite count_close. }
  unfold dc_sqlite3_open__.
  destruct ths; [by apply Hclean|]. destruct dbfile as [d|]; [|by apply Hclean].
  run. unfold sqlite3_threadsafe. cbn [fst snd].
  destruct (threadsafe w =? 0); run; [by apply Hclean|].
  unfold dc_sqlite3_is_open.
  destruct (m_cobj (store w)) as [c0|] eqn:Hc0; cbn [fst snd].
  { change (negb (1 =? 0)) with true. cbv iota. run. by apply Hclean. }
  change (negb (0 =? 0)) with false. cbv iota. run.
  unfold sqlite3_busy_timeout. rewrite ?ret_run. cbn [fst snd].
  set (ro := negb (Z.land flags MR_OPEN_READONLY =? 0)).
  assert (H1 : m_transactionCount (store (sqlite3_open_v2 d ro w).2)
               = m_transactionCount (store w)).
  { unfold sqlite3_open_v2. by destruct (files w !! d) as [[db|]|], ro. }
  destruct (negb ((sqlite3_open_v2 d ro w).1 =? SQLITE_OK)); run; [by apply Hclean|].
  subst ro. destruct (Z.land flags MR_OPEN_READONLY =? 0); run; cbn [fst snd].
  - pose proof (lift_open_readwrite (λ w0, m_transactionCount (store w0)
                                            = m_transactionCount (store w))
                  (count_log _) (count_prepare _) (count_step _) (count_pd _)
                  fingerprint (count_resave fingerprint _) THS _ H1) as H2.
    cbv beta in H2.
    destruct (open_readwrite fingerprint THS _) as [ok w2]. cbn [fst snd] in H2 |- *.
    destruct ok; run; [done|by apply Hclean].
  - done.
Qed.

(** X11: Only begin, commit and rollback move the counter of transactions: the
    open (whatever its outcome), the close, the config store and the tools
    leave it as it is. *)
Theorem counter_untouched (fingerprint : value → value) (ths : ptr)
    (dbfile key value def : option string) (flags v d : Z) (q : sql) (oq : option sql)
    (name : string) (idx : nat) (w : world) :
  let same (w' : world) := m_transactionCount (store w') = m_transactionCount (store w) in
  same (dc_sqlite3_open__ fingerprint ths dbfile flags w).2
  ∧ same (dc_sqlite3_close__ ths w).2
  ∧ same (dc_sqlite3_set_config__ ths key value w).2
  ∧ same (dc_sqlite3_get_config__ ths key def w).2
  ∧ same (dc_sqlite3_set_config_int__ ths key v w).2
  ∧ same (dc_sqlite3_get_config_int__ ths key d w).2
  ∧ same (dc_sqlite3_execute__ ths q w).2
  ∧ same (dc_sqlite3_table_exists__ ths name w).2
  ∧ same (dc_sqlite3_predefine__ ths idx oq w).2
  ∧ same (dc_sqlite3_prepare_v2_ ths oq w).2
  ∧ same (dc_sqlite3_reset_all_predefinitions ths w).2.
Proof.
  cbv zeta.
  pose (I := λ w0 : world, m_transactionCount (store w0) = m_transactionCount (store w)).
  assert (HI : I w) by done.
  split_and!.
  - apply count_open.
  - apply count_close.
  - exact (lift_set_config I (count_log _) (count_prepare _) (count_step _) (count_pd _)
             ths key value w HI).
  - exact (lift_get_config I (count_log _) (count_prepare _) (count_step _) (count_pd _)
             ths key def w HI).
  - exact (lift_set_config_int I (count_log _) (count_prepare _) (count_step _) (count_pd _)
             ths key v w HI).
  - exact (lift_get_config_int I (count_log _) (count_prepare _) (count_step _) (count_pd _)
             ths key d w HI).
  - exact (lift_execute I (count_log _) (count_prepare _) (count_step _) ths q w HI).
  - exact (lift_table_exists I (count_log _) (count_prepare _) (count_step _) ths name w HI).
  - exact (lift_predefine I (count_log _) (count_prepare _) (count_pd _) ths idx oq w HI).
  - exact (lift_prepare_v2_ I (count_log _) (count_prepare _) ths oq w HI).
  - exact (lift_reset_all I (count_pd _) ths w HI).
Qed.

(** ** After the open *)

(** The version the ladder leaves in the config store. *)
Lemma ladder_stored v0 sv L :
  let s := foldl (λ s t, rung_state t s) (v0, sv, L) ladder_targets in
  (v0 < 40 → s.1.2 = Some (decimal 40)) ∧ (40 ≤ v0 → s.1.2 = sv).
Proof.
  cbv zeta. split.
  - by destruct (ladder_result v0 sv L) as [_ ?].
  - intros H. unfold ladder_targets. cbn [foldl]. by rewrite !rung_state_miss by lia.
Qed.

Lemma open_rw_core (fingerprint : value → value) (dbfile : string) (flags : Z)
    (db0 : database) (w : world) :
  Z.land flags MR_OPEN_READONLY = 0 →
  cache_ok (m_pd (store w)) = true →
  database_at w dbfile = Some db0 →
  schema_ok db0 = true →
  (dc_sqlite3_open__ fingerprint THS (Some dbfile) flags w).1 = 1 →
  let w' := (dc_sqlite3_open__ fingerprint THS (Some dbfile) flags w).2 in
  threadsafe w ≠ 0 ∧ m_cobj (store w) = None
  ∧ ∃ db, tied dbfile false (files w) db0 w' ∧ seen w' = Some db ∧ config_ok db = true
          ∧ config_get db "dbversion"
            = (foldl (λ s t, rung_state t s)
                 (dbversion_at_open db0,
                  (if table_exists_db db0 "config" =? 0 then Some (decimal 0)
                   else config_get db0 "dbversion"),
                  (if table_exists_db db0 "config" =? 0 then [decimal 0] else []))
                 ladder_targets).1.2.
Proof.
  intros Hrw Hcache Hdb Hs. cbv zeta. unfold dc_sqlite3_open__. run.
  unfold sqlite3_threadsafe. cbn [fst snd].
  destruct (Z.eqb_spec (threadsafe w) 0) as [|Hts]; run; [by rewrite open_cleanup_eq|].
  unfold dc_sqlite3_is_open.
  destruct (m_cobj (store w)) as [c0|] eqn:Hc0; cbn [fst snd].
  { change (negb (1 =? 0)) with true. cbv iota. run. by rewrite open_cleanup_eq. }
  change (negb (0 =? 0)) with false. cbv iota. run.
  rewrite Hrw. change (negb (0 =? 0)) with false. change (0 =? 0) with true. cbv iota.
  set (w1 := (sqlite3_open_v2 dbfile false w).2).
  assert (Hopen : (sqlite3_open_v2 dbfile false w).1 = SQLITE_OK
                  ∧ opening db0 [] (trace w) w1
                  ∧ tied dbfile false (files w) db0 w1).
  { subst w1. unfold sqlite3_open_v2, database_at in *.
    destruct (files w !! dbfile) as [[db|]|] eqn:Hf; simplify_eq; cbn [fst snd].
    - split; [done|]. split.
      + split_and!; [by eexists | done |]. exists []. by rewrite (right_id_L [] (++)).
      + eexists _, db0. split_and!; try done. cbn. by rewrite insert_id.
    - split; [done|]. split.
      + split_and!; [by eexists | done |]. exists []. by rewrite (right_id_L [] (++)).
      + eexists _, empty_db. by split_and!. }
  destruct Hopen as (-> & Ho1 & Ht1).
  change (negb (SQLITE_OK =? SQLITE_OK)) with false. cbv iota. run.
  unfold sqlite3_busy_timeout. rewrite ?ret_run. cbn [fst snd].
  pose proof (open_readwrite_migrating fingerprint (trace w) db0 Hs w1 Ho1) as Hm.
  pose proof (tied_open_readwrite fingerprint dbfile false (files w) db0 w1 Ht1) as Ht2.
  destruct (open_readwrite fingerprint THS w1) as [ok w2]. cbn [fst snd] in Hm, Ht2 |- *.
  destruct ok; run; [|by rewrite open_cleanup_eq].
  intros _. specialize (Hm eq_refl). cbv zeta in Hm.
  destruct Hm as (db & (Hv & _) & Hok & Hget).
  unfold dc_log_info. cbn [fst snd].
  apply (tied_log _ _ _ _ (Info ("Opened " +:+ dq +:+ "%s" +:+ dq +:+ " successfully.")))
    in Ht2.
  split_and!; [done | done |]. exists db. split_and!; [done | | done | done].
  destruct Hv as (c & Hc & _ & <-). unfold seen. cbn [store add_log]. by rewrite Hc.
Qed.


(** ** Close, and open again *)

Lemma close_cache_ok w :
  is_Some (m_cobj (store w)) → cache_ok (m_pd (store (dc_sqlite3_close__ THS w).2)) = true.
Proof.
  intros Ho. destruct (close_spec w) as (_ & Hs & _). specialize (Hs Ho).
  unfold cache_ok. apply forallb_forall. intros [idx q] Hin%list_elem_of_In.
  cbn. unfold slot_ok.
  destruct (m_pd _ !! idx) as [[st|]|] eqn:E; try done.
  exfalso. apply (Hs idx st); [|done].
  unfold predefined_statements in Hin.
  repeat (apply elem_of_cons in Hin as [Hin|Hin];
          [injection Hin as -> _; cbv; lia|]).
  by apply elem_of_nil in Hin.
Qed.

Lemma close_threadsafe w : threadsafe (dc_sqlite3_close__ THS w).2 = threadsafe w.
Proof.
  destruct w as [[co pd n] f ts tr lg]. unfold dc_sqlite3_close__.
  by destruct co.
Qed.

Lemma threadsafe_set_config key value w :
  threadsafe (dc_sqlite3_set_config__ THS key value w).2 = threadsafe w.
Proof.
  apply (lift_set_config (λ w0, threadsafe w0 = threadsafe w)); try done.
  - intros q w0 H. unfold sqlite3_prepare_v2. destruct (m_cobj (store w0)) as [c|]; [|done].
    by destruct (sql_valid (c_data c) q).
  - intros stmt w0 H. unfold sqlite3_step. destruct stmt as [st|]; [|done].
    destruct (m_cobj (store w0)) as [c|]; [|done].
    by destruct (engine_step c (files w0) st) as [[[rc st'] c'] f'].
Qed.

(** A read-only open of a file that holds a database, on a closed store. *)
Lemma open_readonly_eq fingerprint dbfile flags db w :
  Z.land flags MR_OPEN_READONLY ≠ 0 → threadsafe w ≠ 0 → m_cobj (store w) = None →
  files w !! dbfile = Some (DbFile db) →
  dc_sqlite3_open__ fingerprint THS (Some dbfile) flags w
  = (1, add_log (Info ("Opened " +:+ dq +:+ "%s" +:+ dq +:+ " successfully."))
          (set_store (set_cobj (Some (Sqlite3 dbfile true false db
                                        (sqlite3_errstr SQLITE_OK))) (store w)) w)).
Proof.
  intros Hro Hts Hc Hf. unfold dc_sqlite3_open__. run. unfold sqlite3_threadsafe. cbn [fst snd].
  apply Z.eqb_neq in Hts, Hro. rewrite Hts. run.
  unfold dc_sqlite3_is_open at 1 2. rewrite Hc. cbn [fst snd].
  change (negb (0 =? 0)) with false. cbv iota. run.
  rewrite Hro. cbn [negb]. unfold sqlite3_open_v2. rewrite Hf. cbn [fst snd].
  change (negb (SQLITE_OK =? SQLITE_OK)) with false. cbv iota. by run.
Qed.

(** X13: What is written outside a transaction is in the file: after a close, a
    read-only open of the same file reads it back (and reads the default
    after a deletion). *)
Theorem written_value_survives_reopen (fingerprint : value → value) (w : world)
    (p key : string) (value def : option string) (flags : Z) :
  store_writable w = true → synced w = true → in_transaction w = false →
  store_path w = Some p → threadsafe w ≠ 0 →
  Z.land flags MR_OPEN_READONLY ≠ 0 →
  let w1 := (dc_sqlite3_set_config__ THS (Some key) value w).2 in
  let w2 := (dc_sqlite3_close__ THS w1).2 in
  let r := dc_sqlite3_open__ fingerprint THS (Some p) flags w2 in
  (dc_sqlite3_is_open THS w2).1 = 0
  ∧ r.1 = 1
  ∧ (dc_sqlite3_get_config__ THS (Some key) def r.2).1
    = match value with Some v => Some v | None => def end.
Proof.
  intros Hw Hsync Hb Hpath Hts Hro. cbv zeta.
  destruct (ready_tied w Hw Hsync) as (p0 & db & Ht & Hs & Hok & Hp & Hf). rewrite Hb in Ht.
  rewrite Hpath in Hp. injection Hp as <-.
  pose proof (set_config_tied p false (files w) db db key value w Ht Hs Hok) as H.
  cbv zeta in H. destruct H as (Ht1 & Hs1 & Hok1 & Hg1 & _).
  set (w1 := (dc_sqlite3_set_config__ THS (Some key) value w).2) in *.
  set (db' := match value with Some v => config_set db key v | None => config_del db key end)
    in *.
  assert (Hf1 : files w1 !! p = Some (DbFile db')).
  { destruct Ht1 as (c & dbf' & Hc & _ & _ & _ & Hf1 & _ & Hd & _).
    unfold seen in Hs1. rewrite Hc in Hs1. injection Hs1 as Hs1.
    by rewrite Hf1, lookup_insert_eq, (Hd eq_refl), Hs1. }
  assert (Ho1 : is_Some (m_cobj (store w1))).
  { destruct Ht1 as (c & _ & Hc & _). eauto. }
  destruct (close_spec w1) as (Hc2 & _ & Hf2 & _).
  pose proof (close_cache_ok w1 Ho1) as Hcache2.
  set (w2 := (dc_sqlite3_close__ THS w1).2) in *.
  split; [unfold dc_sqlite3_is_open; by rewrite Hc2|].
  rewrite (open_readonly_eq fingerprint p flags db' w2 Hro); [| |done|by rewrite Hf2].
  2:{ subst w2 w1. by rewrite close_threadsafe, threadsafe_set_config. }
  cbn [fst snd]. split; [done|].
  assert (Hv : view true db'
    (add_log (Info ("Opened " +:+ dq +:+ "%s" +:+ dq +:+ " successfully."))
       (set_store (set_cobj (Some (Sqlite3 p true false db' (sqlite3_errstr SQLITE_OK)))
                            (store w2)) w2))).
  { eexists. by split_and!. }
  pose proof (get_config_spec _ _ key def _ Hv
    (cache_ok_slot _ SELECT_v_FROM_config_k SELECT_v_FROM_config_k_STATEMENT Hcache2
       ltac:(in_list))) as (Hg & _).
  rewrite Hg, Hg1. by destruct value.
Qed.

(** ** An open that has nothing to do *)

Lemma config_ok_exists db : config_ok db = true → table_exists_db db "config" = 1.
Proof.
  intros (t & Ht & Hk & _)%config_ok_inv. unfold table_exists_db. rewrite Ht.
  unfold has_col, col_names in Hk. apply bool_decide_eq_true in Hk.
  destruct (t_cols t); [by apply elem_of_nil in Hk|done].
Qed.

Lemma open_update_skips fingerprint v0 :
  40 ≤ v0 → open_update fingerprint THS v0 = mret tt.
Proof.
  intros H. unfold open_update. cbv zeta.
  repeat (rewrite rung_skip by lia; rewrite ret_bind).
  by rewrite (proj2 (Z.ltb_ge v0 34)) by lia.
Qed.

Lemma open_uptodate_core (fingerprint : value → value) (dbfile : string) (flags : Z)
    (db0 : database) (w : world) :
  Z.land flags MR_OPEN_READONLY = 0 →
  threadsafe w ≠ 0 →
  m_cobj (store w) = None →
  cache_ok (m_pd (store w)) = true →
  files w !! dbfile = Some (DbFile db0) →
  config_ok db0 = true →
  40 ≤ dbversion_at_open db0 →
  let r := dc_sqlite3_open__ fingerprint THS (Some dbfile) flags w in
  r.1 = 1 ∧ opening db0 [] (trace w) r.2 ∧ tied dbfile false (files w) db0 r.2.
Proof.
  intros Hrw Hts Hclosed Hcache Hf Hok Hv. cbv zeta. unfold dc_sqlite3_open__. run.
  unfold sqlite3_threadsafe. cbn [fst snd].
  rewrite (proj2 (Z.eqb_neq _ _) Hts). run.
  unfold dc_sqlite3_is_open. rewrite Hclosed. cbn [fst snd].
  change (negb (0 =? 0)) with false. cbv iota. run.
  rewrite Hrw. change (negb (0 =? 0)) with false. change (0 =? 0) with true. cbv iota.
  unfold sqlite3_open_v2. rewrite Hf. cbn [fst snd].
  change (negb (SQLITE_OK =? SQLITE_OK)) with false. cbv iota. run.
  unfold sqlite3_busy_timeout. rewrite ?ret_run. cbn [fst snd].
  set (w1 := set_store (set_cobj (Some (Sqlite3 dbfile false false db0
                                          (sqlite3_errstr SQLITE_OK))) (store w)) w).
  assert (Ho1 : opening db0 [] (trace w) w1).
  { split_and!; [by eexists | done |]. exists []. by rewrite (right_id_L [] (++)). }
  assert (Ht1 : tied dbfile false (files w) db0 w1).
  { eexists _, db0. split_and!; try done. cbn. by rewrite insert_id. }
  pose proof (tied_open_readwrite fingerprint dbfile false (files w) db0 w1 Ht1) as Ht2.
  unfold open_readwrite in *. rewrite bind_run in *.
  destruct (exists_opening db0 [] (trace w) "config" w1 Ho1) as [He Ho2].
  rewrite He, (config_ok_exists _ Hok) in *. change (1 =? 0) with false in *. cbv iota in *.
  rewrite bind_run in *.
  destruct (getint_opening db0 [] (trace w) "dbversion" 0
              (dc_sqlite3_table_exists__ THS "config" w1).2 Ho2) as [Hg Ho3].
  assert (Hv0 : (dc_sqlite3_get_config_int__ THS (Some "dbversion") 0
                   (dc_sqlite3_table_exists__ THS "config" w1).2).1 = dbversion_at_open db0).
  { rewrite Hg. unfold dbversion_at_open. by rewrite (config_ok_exists _ Hok). }
  rewrite Hv0 in *. rewrite (open_update_skips fingerprint _ Hv) in *.
  rewrite !bind_run, !ret_run in *. cbn [fst snd] in *. run. cbn [fst snd].
  split_and!; [done | by apply log_info_opening | by apply tied_log_info].
Qed.

(** X14: A read-write open of a database that is at the latest version, or at a
    later one, runs no rung and writes no version: the connection sees the
    database as it was stored and the files are as before. *)
Theorem open_uptodate_quiet (fingerprint : value → value) (dbfile : string) (flags : Z)
    (db0 : database) (w : world) :
  Z.land flags MR_OPEN_READONLY = 0 →
  threadsafe w ≠ 0 →
  m_cobj (store w) = None →
  cache_ok (m_pd (store w)) = true →
  files w !! dbfile = Some (DbFile db0) →
  config_ok db0 = true →
  40 ≤ dbversion_at_open db0 →
  let r := dc_sqlite3_open__ fingerprint THS (Some dbfile) flags w in
  r.1 = 1
  ∧ seen r.2 = Some db0
  ∧ files r.2 = files w
  ∧ stored r.2 "dbversion" = config_get db0 "dbversion"
  ∧ ∃ evs, trace r.2 = trace w ++ evs ∧ dbversion_writes evs = [].
Proof.
  intros Hrw Hts Hclosed Hcache Hf Hok Hv. cbv zeta.
  pose proof (open_uptodate_core fingerprint dbfile flags db0 w Hrw Hts Hclosed Hcache Hf
                Hok Hv) as H.
  cbv zeta in H. destruct H as (Hr & (Hview & _ & Hev) & Ht).
  destruct Ht as (c & dbf' & Hc & _ & _ & _ & Hf2 & _ & Hd & _).
  destruct Hview as (c' & Hc' & _ & Hdata). rewrite Hc in Hc'. injection Hc' as <-.
  split_and!; [done | | | | done].
  - unfold seen. by rewrite Hc, <- Hdata.
  - rewrite Hf2, (Hd eq_refl), Hdata. by apply insert_id.
  - unfold stored. by rewrite Hc, Hdata.
Qed.

(** ** An open that cannot be *)


(** ** The cache of statements *)

(** X16: The first call for a slot compiles the statement and keeps it; every
    later call for the slot gives the statement of the first call, whatever
    text it is given (even none), and compiles nothing. Out of the range of
    the cache nothing is compiled at all. *)
Theorem predefine_reuses (w : world) (idx : nat) (q : sql) (q' : option sql) :
  compiles w q = true → slot_empty w idx = true → (idx < PREDEFINED_CNT)%nat →
  let r1 := dc_sqlite3_predefine__ THS idx (Some q) w in
  let r2 := dc_sqlite3_predefine__ THS idx q' r1.2 in
  (∃ st, r1.1 = Some st ∧ st_sql st = q ∧ r2.1 = Some st)
  ∧ prepared (trace r1.2) = prepared (trace w) ++ [q]
  ∧ r2.2 = r1.2
  ∧ (∀ j, (PREDEFINED_CNT ≤ j)%nat → dc_sqlite3_predefine__ THS j q' w = (None, w)).
Proof.
  intros Hq Hslot Hidx. cbv zeta.
  assert (Hout : ∀ j, (PREDEFINED_CNT ≤ j)%nat → dc_sqlite3_predefine__ THS j q' w = (None, w)).
  { intros j Hj. unfold dc_sqlite3_predefine__.
    rewrite (proj2 (Nat.leb_le _ _) Hj). by destruct (m_cobj (store w)). }
  unfold compiles in Hq. destruct (m_cobj (store w)) as [c|] eqn:Hc; [|done].
  unfold slot_empty in Hslot.
  destruct (m_pd (store w) !! idx) as [[st0|]|] eqn:Hpd; try done. clear Hslot.
  destruct w as [[co pd n] f ts tr lg]. cbn in Hc, Hpd. subst co.
  unfold dc_sqlite3_predefine__, sqlite3_prepare_v2. cbn [store m_cobj m_pd].
  rewrite (proj2 (Nat.leb_gt _ _) Hidx), Hpd, Hq. cbn.
  rewrite list_lookup_insert_eq by (by eapply lookup_lt_Some). cbn.
  split_and!; [by eexists | | done | exact Hout].
  unfold prepared. by rewrite omap_app.
Qed.

(** ** The tools *)

Lemma table_exists_files ro db name w :
  view ro db w → files (dc_sqlite3_table_exists__ THS name w).2 = files w.
Proof.
  intros (c & Hc & Hro & Hdb). unfold dc_sqlite3_table_exists__. run.
  rewrite (prepare_eq _ _ _ Hc). cbn [sql_valid]. cbn [fst snd]. run.
  rewrite (step_eq _ (add_event _ w) c) by done.
  unfold engine_step. cbn [st_sql sql_valid negb files add_event].
  destruct (cursor_step _ _) as [rc st']. cbn. by run.
Qed.


(** ** Transactions, lifted *)

Section LiftTxn.

Variable I : world → Prop.
Hypothesis I_log : ∀ l w, I w → I (add_log l w).
Hypothesis I_prepare : ∀ q w, I w → I (sqlite3_prepare_v2 q w).2.
Hypothesis I_step : ∀ stmt w, I w → I (sqlite3_step stmt w).2.
Hypothesis I_pd : ∀ pd w, I w → I (set_store (set_pd pd (store w)) w).
Hypothesis I_count : ∀ n w, I w → I (with_count n w).

Lemma lift_run_cached ths idx q msg :
  preserves I
    (dc_sqlite3_predefine__ ths idx (Some q)
     ≫= λ stmt, sqlite3_step stmt
     ≫= λ '(rc, _), if negb (rc =? SQLITE_DONE) then dc_sqlite3_log_error msg else mret tt).
Proof.
  apply preserves_bind; [by apply lift_predefine|]. intros stmt.
  apply preserves_bind; [by apply lift_step|]. intros [rc o].
  destruct (negb _); [by apply lift_sqlite3_log_error | apply preserves_ret].
Qed.

Lemma lift_add_count d : preserves I (add_transactionCount d).
Proof. intros w Hw. unfold add_transactionCount. cbn [snd]. by apply (I_count _ w). Qed.

Lemma lift_begin ths : preserves I (dc_sqlite3_begin_transaction__ ths).
Proof.
  unfold dc_sqlite3_begin_transaction__. destruct ths; [apply preserves_ret|].
  apply preserves_bind; [apply lift_add_count|]. intros ?.
  apply preserves_bind; [by intros w Hw|]. intros count.
  destruct (count =? 1); [apply lift_run_cached | apply preserves_ret].
Qed.

Lemma lift_commit ths : preserves I (dc_sqlite3_commit__ ths).
Proof.
  unfold dc_sqlite3_commit__. destruct ths; [apply preserves_ret|].
  apply preserves_bind; [by intros w Hw|]. intros count.
  destruct (1 <=? count); [|apply preserves_ret].
  apply preserves_bind; [|intros ?; apply lift_add_count].
  destruct (count =? 1); [apply lift_run_cached | apply preserves_ret].
Qed.

Lemma lift_rollback ths : preserves I (dc_sqlite3_rollback__ ths).
Proof.
  unfold dc_sqlite3_rollback__. destruct ths; [apply preserves_ret|].
  apply preserves_bind; [by intros w Hw|]. intros count.
  destruct (1 <=? count); [|apply preserves_ret].
  apply preserves_bind; [|intros ?; apply lift_add_count].
  destruct (count =? 1); [apply lift_run_cached | apply preserves_ret].
Qed.

End LiftTxn.

(** ** A store opened read-only *)

Lemma frozen_log F db l w : frozen F db w → frozen F db (add_log l w).
Proof. intros (c & H). by exists c. Qed.

Lemma frozen_prepare F db q w : frozen F db w → frozen F db (sqlite3_prepare_v2 q w).2.
Proof.
  intros (c & Hc & H). unfold sqlite3_prepare_v2. rewrite Hc.
  destruct (sql_valid (c_data c) q); cbn [snd]; [by exists c|].
  exists (set_errmsg SQLITE_ERROR c). by destruct w.
Qed.

Lemma frozen_step F db stmt w : frozen F db w → frozen F db (sqlite3_step stmt w).2.
Proof.
  intros (c & Hc & Hro & Hdb & Hf & Hp).
  destruct stmt as [st|]; [|unfold sqlite3_step; by exists c].
  destruct w as [[co pd n] f ts tr lg]. cbn in Hc, Hf. subst co f.
  unfold sqlite3_step. cbn [store m_cobj files].
  destruct (engine_step c F st) as [[[rc st'] c'] f'] eqn:E. cbn.
  unfold engine_step in E. rewrite Hro in E.
  assert (Hcm : committed F (c_path c) = db) by (unfold committed; by rewrite Hp).
  destruct (sql_valid (c_data c) (st_sql st)); cbn [negb] in E.
  2:{ injection E as <- <- <- <-. by exists (set_errmsg SQLITE_ERROR c). }
  destruct (st_sql st); try (destruct (cursor_step _ _) as [rc0 st0]);
    try destruct (c_intxn c); injection E as <- <- <- <-;
    first [ by exists c
          | by exists (set_errmsg SQLITE_READONLY c)
          | by exists (set_errmsg SQLITE_ERROR c)
          | by exists (set_intxn true c)
          | by exists (set_intxn false c)
          | exists (set_intxn false (set_data (committed F (c_path c)) c));
            rewrite Hcm; by split_and! ].
Qed.

Lemma frozen_pd F db pd w : frozen F db w → frozen F db (set_store (set_pd pd (store w)) w).
Proof. intros (c & H). by exists c. Qed.

Lemma frozen_count F db n w : frozen F db w → frozen F db (with_count n w).
Proof. intros (c & H). by exists c. Qed.

Lemma frozen_of w :
  read_only w = true → synced w = true → ∃ db, frozen (files w) db w ∧ seen w = Some db.
Proof.
  unfold synced, read_only, disk, seen.
  destruct (m_cobj (store w)) as [c|] eqn:Hc; [|done]. cbn.
  intros Hro Hs. apply bool_decide_eq_true in Hs.
  destruct (files w !! c_path c) as [[db|]|] eqn:Hf; simplify_eq.
  exists (c_data c). split; [|done]. by exists c.
Qed.

Lemma frozen_kept F db w :
  frozen F db w → files w = F ∧ seen w = Some db ∧ read_only w = true ∧ synced w = true.
Proof.
  intros (c & Hc & Hro & Hdb & Hf & Hp).
  unfold synced, read_only, disk, seen. rewrite Hc. cbn. rewrite Hf, Hp, Hdb.
  split_and!; try done. by apply bool_decide_eq_true_2.
Qed.

(** X18: Through a store opened read-only nothing is ever written: the writes of
    the config store, a statement handed to the engine, and begin, commit and
    rollback leave every file and the database the connection sees as they
    are, and the store as read-only as it was. *)
Theorem readonly_never_writes (w : world) (key : string) (value : option string) (v : Z)
    (q : sql) :
  read_only w = true → synced w = true →
  let kept (w' : world) :=
    files w' = files w ∧ seen w' = seen w ∧ read_only w' = true ∧ synced w' = true in
  kept (dc_sqlite3_set_config__ THS (Some key) value w).2
  ∧ kept (dc_sqlite3_set_config_int__ THS (Some key) v w).2
  ∧ kept (dc_sqlite3_execute__ THS q w).2
  ∧ kept (dc_sqlite3_begin_transaction__ THS w).2
  ∧ kept (dc_sqlite3_commit__ THS w).2
  ∧ kept (dc_sqlite3_rollback__ THS w).2.
Proof.
  intros Hro Hsync. cbv zeta.
  destruct (frozen_of w Hro Hsync) as (db & Hfz & Hs). rewrite Hs.
  pose (I := frozen (files w) db).
  assert (Hkept : ∀ w', I w' →
            files w' = files w ∧ seen w' = Some db ∧ read_only w' = true ∧ synced w' = true).
  { intros w' H. by apply frozen_kept. }
  split; [|split; [|split; [|split; [|split]]]]; apply Hkept.
  - exact (lift_set_config I (frozen_log _ _) (frozen_prepare _ _) (frozen_step _ _)
             (frozen_pd _ _) THS (Some key) value w Hfz).
  - exact (lift_set_config_int I (frozen_log _ _) (frozen_prepare _ _) (frozen_step _ _)
             (frozen_pd _ _) THS (Some key) v w Hfz).
  - exact (lift_execute I (frozen_log _ _) (frozen_prepare _ _) (frozen_step _ _) THS q w Hfz).
  - exact (lift_begin I (frozen_log _ _) (frozen_prepare _ _) (frozen_step _ _)
             (frozen_pd _ _) (frozen_count _ _) THS w Hfz).
  - exact (lift_commit I (frozen_log _ _) (frozen_prepare _ _) (frozen_step _ _)
             (frozen_pd _ _) (frozen_count _ _) THS w Hfz).
  - exact (lift_rollback I (frozen_log _ _) (frozen_prepare _ _) (frozen_step _ _)
             (frozen_pd _ _) (frozen_count _ _) THS w Hfz).
Qed.

(** ** Transactions at the edges *)

(** X19: On a store that is not open, begin and commit (or rollback) still move
    the counter, up to 1 and back to 0; the engine is not reached, the files
    are as before, and each of the two calls leaves one error in the log. *)
Theorem transactions_on_closed_store (w : world) :
  m_cobj (store w) = None → m_transactionCount (store w) = 0 →
  let w1 := (dc_sqlite3_begin_transaction__ THS w).2 in
  (∃ msg, w1 = add_log (Error msg) (with_count 1 w))
  ∧ (∃ msg, (dc_sqlite3_commit__ THS w1).2 = with_count 0 (add_log (Error msg) w1))
  ∧ (∃ msg, (dc_sqlite3_rollback__ THS w1).2 = with_count 0 (add_log (Error msg) w1)).
Proof.
  intros Hc H0. cbv zeta.
  assert (Hrun : ∀ idx q msg w0, m_cobj (store w0) = None →
            (run_cached idx q msg w0).2
            = add_log (Error (msg +:+ " SQLite says: " +:+ notSetUp)) w0).
  { intros idx q msg w0 Hc0. unfold run_cached, dc_sqlite3_predefine__. run.
    rewrite Hc0. cbn [fst snd]. unfold sqlite3_step. cbn [fst snd].
    change (negb (SQLITE_MISUSE =? SQLITE_DONE)) with true. cbv iota.
    unfold dc_sqlite3_log_error, dc_log_error. by rewrite Hc0. }
  assert (Hw1 : (dc_sqlite3_begin_transaction__ THS w).2
                = add_log (Error ("Cannot begin transaction." +:+ " SQLite says: " +:+ notSetUp))
                    (with_count 1 w)).
  { rewrite begin_eq, H0. cbv zeta. change (0 + 1 =? 1) with true. cbv iota.
    by rewrite Hrun. }
  rewrite Hw1. split; [by eexists|].
  split.
  - rewrite commit_eq. cbn [store add_log with_count set_store set_transactionCount
                             m_transactionCount].
    change (1 <=? 1) with true. change (1 =? 1) with true. cbv iota zeta. cbn [snd].
    rewrite Hrun by done. by eexists.
  - rewrite rollback_eq. cbn [store add_log with_count set_store set_transactionCount
                               m_transactionCount].
    change (1 <=? 1) with true. change (1 =? 1) with true. cbv iota zeta. cbn [snd].
    rewrite Hrun by done. by eexists.
Qed.

Lemma repeat_rollback_inner n w :
  Z.of_nat n + 1 ≤ m_transactionCount (store w) →
  (repeat_call n (dc_sqlite3_rollback__ THS) w).2
  = if n is O then w else with_count (m_transactionCount (store w) - Z.of_nat n) w.
Proof.
  revert w. induction n as [|n IH]; intros w Hw; [done|].
  cbn [repeat_call]. rewrite bind_run, rollback_eq.
  destruct (Z.leb_spec 1 (m_transactionCount (store w))); [|lia].
  destruct (Z.eqb_spec (m_transactionCount (store w)) 1); [lia|]. cbn [fst snd].
  rewrite IH by (rewrite with_count_count; lia).
  destruct n; rewrite ?with_count_count, ?with_count_twice; f_equal; lia.
Qed.

(** X20: N begins and then N rollbacks, from the counter 0 on an open store, step
    one BEGIN and one ROLLBACK: the rollbacks but the last move the counter
    and nothing else, so nothing is rolled back before the last one. *)
Theorem nested_begin_rollback (N : nat) (w : world) :
  (1 ≤ N)%nat →
  store_open w = true →
  m_transactionCount (store w) = 0 →
  let w1 := (repeat_call N (dc_sqlite3_begin_transaction__ THS) w).2 in
  let w2 := (repeat_call N (dc_sqlite3_rollback__ THS) w1).2 in
  stepped (trace w1) = stepped (trace w) ++ [BEGIN]
  ∧ (repeat_call (N - 1) (dc_sqlite3_rollback__ THS) w1).2 = with_count 1 w1
  ∧ stepped (trace w2) = stepped (trace w) ++ [BEGIN; ROLLBACK]
  ∧ m_transactionCount (store w2) = 0.
Proof.
  intros HN (c & Hv & Hc & Hcache)%store_open_view H0. cbv zeta.
  destruct N as [|n]; [lia|]. clear HN.
  remember (repeat_call (S n) (dc_sqlite3_begin_transaction__ THS) w).2 as w1 eqn:Ew1.
  remember (repeat_call (S n) (dc_sqlite3_rollback__ THS) w1).2 as w2 eqn:Ew2.
  pose proof (begin_eq w) as Hb. rewrite H0 in Hb. cbv zeta in Hb.
  change (0 + 1 =? 1) with true in Hb. cbv iota in Hb.
  assert (Hv0 : view (c_readonly c) (c_data c) (with_count (0 + 1) w)).
  { destruct Hv as (c0 & ? & ? & ?). by exists c0. }
  pose proof (run_cached_spec _ _ BEGIN_transaction BEGIN "Cannot begin transaction." _ Hv0
    (cache_ok_slot _ _ _ Hcache ltac:(in_list))
    ltac:(unfold BEGIN_transaction, PREDEFINED_CNT; lia) eq_refl) as Hrc.
  cbv zeta in Hrc. rewrite <- Hb in Hrc. destruct Hrc as (Htr & Hopen & Hslots).
  assert (Hcnt : m_transactionCount (store (dc_sqlite3_begin_transaction__ THS w).2) = 1).
  { pose proof (run_op_count OpBegin w) as Hc1. cbn [run_op] in Hc1. rewrite Hc1. lia. }
  assert (Hw1 : w1 = with_count (Z.of_nat (S n)) (dc_sqlite3_begin_transaction__ THS w).2).
  { rewrite Ew1. cbn [repeat_call]. rewrite bind_run, repeat_begin_inner by lia.
    destruct n.
    - destruct (dc_sqlite3_begin_transaction__ THS w) as [[] [[co pd k] f ts tr lg]].
      cbn in Hcnt |- *. by subst k.
    - rewrite Hcnt. f_equal. lia. }
  assert (Hinner : (repeat_call (S n - 1) (dc_sqlite3_rollback__ THS) w1).2 = with_count 1 w1).
  { rewrite repeat_rollback_inner by (rewrite Hw1, with_count_count; lia).
    replace (S n - 1)%nat with n by lia. destruct n.
    - rewrite Hw1. by rewrite with_count_twice.
    - rewrite Hw1, with_count_count, !with_count_twice. f_equal. lia. }
  assert (Hlast : stepped (trace w2) = stepped (trace w1) ++ [ROLLBACK]
                  ∧ m_transactionCount (store w2) = 0).
  { rewrite Ew2. rewrite repeat_call_snoc.
    replace (S n - 1)%nat with n in Hinner by lia. rewrite Hinner.
    destruct Hopen as [c1 Hc1].
    assert (Hvw : view (c_readonly c1) (c_data c1) (with_count 1 w1)).
    { exists c1. rewrite Hw1. split_and!; done. }
    pose proof (run_cached_spec _ _ ROLLBACK_transaction ROLLBACK "Cannot rollback transaction."
      _ Hvw
      ltac:(rewrite Hw1; apply Hslots; [by apply (cache_ok_slot _ _ _ Hcache); in_list | done])
      ltac:(unfold ROLLBACK_transaction, PREDEFINED_CNT; lia) eq_refl) as Hrc.
    cbv zeta in Hrc. destruct Hrc as (Htr2 & _).
    rewrite rollback_eq, with_count_count.
    change (1 <=? 1) with true. change (1 =? 1) with true. cbv iota zeta. cbn [snd].
    rewrite with_count_count, run_cached_count, with_count_count.
    split; [|done]. exact Htr2. }
  destruct Hlast as (Htr2 & Hcnt2).
  assert (Htr1 : stepped (trace w1) = stepped (trace w) ++ [BEGIN]).
  { rewrite Hw1. exact Htr. }
  split_and!; try done.
  rewrite Htr2, Htr1. by rewrite <- (assoc_L (++)).
Qed.

(** ** The end of a store *)

(** X21: After a close the store is closed and stays so: a second close writes its
    line in the log and nothing else, an unref has nothing left to do, and
    the files and the trace are as the first close found them. On an open
    store unref is close. *)
Theorem close_is_final (w : world) :
  let w1 := (dc_sqlite3_close__ THS w).2 in
  (dc_sqlite3_is_open THS w1).1 = 0
  ∧ files w1 = files w ∧ trace w1 = trace w
  ∧ dc_sqlite3_close__ THS w1 = (tt, add_log (Info "Database closed.") w1)
  ∧ dc_sqlite3_unref THS w1 = (tt, w1)
  ∧ (is_Some (m_cobj (store w)) → dc_sqlite3_unref THS w = dc_sqlite3_close__ THS w).
Proof.
  cbv zeta. destruct (close_spec w) as (Hc & _ & Hf & Htr & _).
  split_and!; [by apply close_is_open | done | done | | |].
  - unfold dc_sqlite3_close__ at 1. by rewrite Hc.
  - unfold dc_sqlite3_unref. by rewrite Hc.
  - intros [c Hc0]. unfold dc_sqlite3_unref. by rewrite Hc0.
Qed.

(** ** A statement handed to the engine *)


(** ** The database of a new file *)

Section Fresh.

Variable fingerprint : value → value.

Lemma exec_opening_step db L tr0 q :
  sql_writes q = true →
  q ≠ INSERT_INTO_config_kv_STATEMENT → q ≠ UPDATE_config_vk_STATEMENT →
  hoare (opening db L tr0) (dc_sqlite3_execute__ THS q) (λ _, opening (run_sql [] db q) L tr0).
Proof. intros ? ? ? w Hw. by apply exec_opening. Qed.

Lemma rung_runs db db' L tr0 dbv t body :
  dbv < t →
  hoare (opening db L tr0) body (λ _, opening db' L tr0) →
  config_ok db' = true →
  hoare (opening db L tr0) (rung THS dbv t body)
        (λ r w, r = t ∧ opening (config_set db' "dbversion" (decimal t)) (L ++ [decimal t]) tr0 w).
Proof.
  intros Hlt Hbody Hok. rewrite rung_hit by done.
  eapply hoare_bind; [exact Hbody|]. intros ?.
  eapply hoare_bind; [by apply setint_opening|]. intros ?.
  apply hoare_ret. by intros w Hw.
Qed.

Ltac exec_steps :=
  repeat (eapply hoare_bind;
          [apply exec_opening_step; [reflexivity | discriminate | discriminate]|]; intros ?).

Ltac rung_run :=
  eapply hoare_bind;
  [eapply rung_runs;
   [lia
   |unfold rung_1, rung_2, rung_7, rung_10, rung_12, rung_17, rung_18, rung_27, rung_34,
      rung_39, rung_40;
    exec_steps; try (change (0 =? 34) with false; cbv iota);
    apply hoare_ret; intros w Hw; exact Hw
   |vm_compute; reflexivity]
  |];
  intros ?; apply hoare_pre; intros ->.

(** Whatever the world, the first open of a new file makes the same
    database. *)
Lemma bootstrap_database tr0 :
  hoare (opening empty_db [] tr0) (open_readwrite fingerprint THS)
        (λ ok w, ok = true ∧ ∃ L, opening fresh_database L tr0 w).
Proof.
  unfold open_readwrite.
  eapply hoare_bind; [apply exists_opening|]. intros e. apply hoare_pre. intros ->.
  replace (table_exists_db empty_db "config" =? 0) with true by (vm_compute; reflexivity).
  cbv iota.
  eapply hoare_bind with (Q := λ ok w, ok = true ∧ opening _ _ tr0 w).
  { unfold open_init_tables.
    eapply hoare_bind; [apply log_info_opening|]. intros ?.
    exec_steps.
    eapply hoare_bind; [apply tables_missing_opening|]. intros m. apply hoare_pre. intros ->.
    match goal with |- context [tables_missing_db ?d] =>
      replace (tables_missing_db d) with false by (vm_compute; reflexivity) end.
    cbv iota.
    eapply hoare_bind; [apply setint_opening; vm_compute; reflexivity|]. intros ?.
    apply hoare_ret. intros w Hw. split; [done|]. exact Hw. }
  intros ok. apply hoare_pre. intros ->. cbv iota.
  eapply hoare_bind; [|intros ?; apply hoare_ret; intros w Hw; split; [done|]; exact Hw].
  unfold open_update. cbv zeta.
  do 11 rung_run.
  change (27 <? 34) with true. cbv iota.
  intros w Hw.
  match type of Hw with
  | opening ?X ?L _ _ =>
      exists L; replace fresh_database with X by (vm_compute; reflexivity)
  end.
  refine (recalc_opening_empty _ _ _ _ _ _ w Hw); vm_compute; reflexivity.
Qed.


End Fresh.

(** ** Open, close, open *)

Lemma threadsafe_open fingerprint ths dbfile flags w :
  threadsafe (dc_sqlite3_open__ fingerprint ths dbfile flags w).2 = threadsafe w.
Proof.
  pose (I := λ w0 : world, threadsafe w0 = threadsafe w).
  assert (I_log : ∀ l w0, I w0 → I (add_log l w0)) by done.
  assert (I_prepare : ∀ q w0, I w0 → I (sqlite3_prepare_v2 q w0).2).
  { intros q w0 H. unfold sqlite3_prepare_v2. destruct (m_cobj (store w0)) as [c|]; [|done].
    by destruct (sql_valid (c_data c) q). }
  assert (I_step : ∀ stmt w0, I w0 → I (sqlite3_step stmt w0).2).
  { intros stmt w0 H. unfold sqlite3_step. destruct stmt as [st|]; [|done].
    destruct (m_cobj (store w0)) as [c|]; [|done].
    by destruct (engine_step c (files w0) st) as [[[rc st'] c'] f']. }
  assert (I_pd : ∀ pd w0, I w0 → I (set_store (set_pd pd (store w0)) w0)) by done.
  assert (I_resave : ∀ ths0 addr w0, I w0 → I (dc_apeerstate_resave fingerprint ths0 addr w0).2).
  { intros ths0 addr w0 H. unfold dc_apeerstate_resave.
    by destruct addr, (m_cobj (store w0)). }
  assert (Hclean : ∀ w0, I w0 → I (open_cleanup ths w0).2).
  { intros w0 H0. unfold open_cleanup. run. cbn [snd]. destruct ths; [done|].
    unfold I. by rewrite close_threadsafe. }
  fold (I (dc_sqlite3_open__ fingerprint ths dbfile flags w).2).
  unfold dc_sqlite3_open__.
  destruct ths; [by apply Hclean|]. destruct dbfile as [d|]; [|by apply Hclean].
  run. unfold sqlite3_threadsafe. cbn [fst snd].
  destruct (threadsafe w =? 0); run; [by apply Hclean|].
  unfold dc_sqlite3_is_open.
  destruct (m_cobj (store w)) as [c0|] eqn:Hc0; cbn [fst snd].
  { change (negb (1 =? 0)) with true. cbv iota. run. by apply Hclean. }
  change (negb (0 =? 0)) with false. cbv iota. run.
  unfold sqlite3_busy_timeout. rewrite ?ret_run. cbn [fst snd].
  set (ro := negb (Z.land flags MR_OPEN_READONLY =? 0)).
  assert (H1 : I (sqlite3_open_v2 d ro w).2).
  { unfold sqlite3_open_v2. by destruct (files w !! d) as [[db|]|], ro. }
  destruct (negb ((sqlite3_open_v2 d ro w).1 =? SQLITE_OK)); run; [by apply Hclean|].
  subst ro. destruct (Z.land flags MR_OPEN_READONLY =? 0); run; cbn [fst snd].
  - pose proof (lift_open_readwrite I I_log I_prepare I_step I_pd fingerprint I_resave
                  THS _ H1) as H2.
    destruct (open_readwrite fingerprint THS _) as [ok w2]. cbn [fst snd] in H2 |- *.
    destruct ok; run; [done|by apply Hclean].
  - done.
Qed.


(** ** Compiling a statement *)

(** X25: [dc_sqlite3_prepare_v2_] gives a statement exactly when the store is open
    and the engine compiles the text; when the engine refuses it, one error
    goes to the log. Nothing is stepped and neither the database the
    connection sees, nor a file, nor the cache changes. *)
Theorem prepare_v2_result (w : world) (q : sql) :
  let r := dc_sqlite3_prepare_v2_ THS (Some q) w in
  (r.1 = (if compiles w q then Some (Stmt q [] None None) else None))
  ∧ (m_cobj (store w) = None → r.2 = w)
  ∧ (is_Some (m_cobj (store w)) → compiles w q = false →
     ∃ msg, log r.2 = log w ++ [Error msg])
  ∧ seen r.2 = seen w ∧ files r.2 = files w ∧ m_pd (store r.2) = m_pd (store w)
  ∧ stepped (trace r.2) = stepped (trace w).
Proof.
  cbv zeta. unfold compiles, seen.
  destruct (m_cobj (store w)) as [c|] eqn:Hc.
  - rewrite (prepare_eq _ _ _ Hc).
    destruct (sql_valid (c_data c) q); cbn [fst snd].
    + split_and!; try done.
      * cbn. by rewrite Hc.
      * cbn. rewrite stepped_app. cbn. by rewrite (right_id_L [] (++)).
    + split_and!; try done.
      * intros _ _. by eexists.
      * cbn. rewrite stepped_app. cbn. by rewrite (right_id_L [] (++)).
  - unfold dc_sqlite3_prepare_v2_. rewrite Hc. cbn [fst snd]. rewrite Hc.
    split_and!; try done.
Qed.

(** ** Resetting the cache *)

(** X26: [dc_sqlite3_reset_all_predefinitions] resets every statement of the
    cache and keeps it in its slot: a cache that obeys the rule still does,
    a second reset changes nothing more, and the connection, the files and
    the trace are not touched. *)
Theorem reset_all_keeps (w : world) :
  let w1 := (dc_sqlite3_reset_all_predefinitions THS w).2 in
  (cache_ok (m_pd (store w)) = true → cache_ok (m_pd (store w1)) = true)
  ∧ (∀ idx st, m_pd (store w) !! idx = Some (Some st) →
               m_pd (store w1) !! idx = Some (Some (sqlite3_reset st)))
  ∧ (∀ idx, m_pd (store w) !! idx = Some None → m_pd (store w1) !! idx = Some None)
  ∧ (dc_sqlite3_reset_all_predefinitions THS w1).2 = w1
  ∧ m_cobj (store w1) = m_cobj (store w) ∧ files w1 = files w ∧ trace w1 = trace w
  ∧ m_transactionCount (store w1) = m_transactionCount (store w).
Proof.
  cbv zeta. unfold dc_sqlite3_reset_all_predefinitions. cbn [snd].
  destruct w as [[co pd n] f ts tr lg].
  cbn [store set_store set_pd m_pd m_cobj files trace m_transactionCount].
  split_and!; try done.
  - unfold cache_ok. rewrite !forallb_forall. intros H [idx q] Hin. specialize (H _ Hin).
    cbn [fst snd] in *. unfold slot_ok in *. rewrite list_lookup_fmap.
    destruct (pd !! idx) as [[st|]|]; by cbn in *.
  - intros idx st H. by rewrite list_lookup_fmap, H.
  - intros idx H. by rewrite list_lookup_fmap, H.
  - unfold set_store, set_pd. cbn. rewrite <- list_fmap_compose. do 2 f_equal.
    apply list_fmap_ext. intros i [st|] _; by cbn.
Qed.

(** ** The further theorems at work *)

Lemma set_config_not_ready_witness :
  ∃ msg, (∀ value, dc_sqlite3_set_config__ THS (Some "k") value new_world
                   = (0, add_log (Error msg) new_world))
         ∧ (∀ v, dc_sqlite3_set_config_int__ THS (Some "k") v new_world
                 = (0, add_log (Error msg) new_world)).
Proof. apply (set_config_not_ready new_world (Some "k")). right. reflexivity. Defined.

Lemma get_config_not_ready_witness :
  dc_sqlite3_get_config__ THS (Some "k") (Some "d") new_world = (Some "d", new_world)
  ∧ dc_sqlite3_get_config_int__ THS (Some "k") 7 new_world = (7, new_world).
Proof. apply (get_config_not_ready new_world (Some "k") (Some "d") 7). right. reflexivity. Defined.

Lemma get_config_reads_only_witness :
  let r := dc_sqlite3_get_config__ THS (Some "dbversion") None opened_world in
  r.1 = match stored opened_world "dbversion" with Some s => Some s | None => None end
  ∧ (∀ k, stored r.2 k = stored opened_world k)
  ∧ files r.2 = files opened_world
  ∧ m_transactionCount (store r.2) = m_transactionCount (store opened_world)
  ∧ store_open r.2 = true.
Proof.
  apply (get_config_reads_only opened_world "dbversion" None). vm_compute. reflexivity.
Defined.

Lemma set_config_other_keys_witness :
  stored (dc_sqlite3_set_config__ THS (Some "k") (Some "v") opened_world).2 "dbversion"
  = stored opened_world "dbversion".
Proof.
  apply (set_config_other_keys opened_world "k" "dbversion" (Some "v"));
    [vm_compute; reflexivity | vm_compute; discriminate].
Defined.

Lemma set_config_last_wins_witness :
  let w1 := (dc_sqlite3_set_config__ THS (Some "k") (Some "a") opened_world).2 in
  let w2 := (dc_sqlite3_set_config__ THS (Some "k") (Some "b") w1).2 in
  let w3 := (dc_sqlite3_set_config__ THS (Some "k") None w1).2 in
  store_writable w1 = true
  ∧ (dc_sqlite3_get_config__ THS (Some "k") (Some "d") w2).1 = Some "b"
  ∧ (dc_sqlite3_get_config__ THS (Some "k") (Some "d") w3).1 = Some "d"
  ∧ stored w3 "k" = None.
Proof.
  apply (set_config_last_wins opened_world "k" "a" "b" (Some "d")). vm_compute. reflexivity.
Defined.


Lemma set_config_writes_through_witness :
  let w' := (dc_sqlite3_set_config__ THS (Some "k") (Some "v") opened_world).2 in
  synced w' = true ∧ in_transaction w' = false
  ∧ on_disk w' "k" = Some "v"
  ∧ (∀ p, store_path opened_world ≠ Some p → files w' !! p = files opened_world !! p).
Proof.
  apply (set_config_writes_through opened_world "k" (Some "v")); vm_compute; reflexivity.
Defined.

Lemma transaction_commit_witness :
  let w1 := (dc_sqlite3_begin_transaction__ THS opened_world).2 in
  let w2 := (dc_sqlite3_set_config__ THS (Some "k") (Some "v") w1).2 in
  let w3 := (dc_sqlite3_commit__ THS w2).2 in
  in_transaction w2 = true ∧ files w2 = files opened_world ∧ stored w2 "k" = Some "v"
  ∧ in_transaction w3 = false ∧ synced w3 = true
  ∧ stored w3 "k" = Some "v" ∧ on_disk w3 "k" = Some "v"
  ∧ m_transactionCount (store w3) = 0.
Proof.
  apply (transaction_commit opened_world "k" (Some "v")); vm_compute; reflexivity.
Defined.

Lemma transaction_rollback_witness :
  let w1 := (dc_sqlite3_begin_transaction__ THS opened_world).2 in
  let w2 := (dc_sqlite3_set_config__ THS (Some "k") (Some "v") w1).2 in
  let w3 := (dc_sqlite3_rollback__ THS w2).2 in
  stored w2 "k" = Some "v"
  ∧ files w3 = files opened_world ∧ seen w3 = seen opened_world
  ∧ (∀ k, stored w3 k = stored opened_world k)
  ∧ in_transaction w3 = false ∧ synced w3 = true ∧ store_writable w3 = true
  ∧ m_transactionCount (store w3) = 0.
Proof.
  apply (transaction_rollback opened_world "k" (Some "v")); vm_compute; reflexivity.
Defined.

Lemma inner_rollback_keeps_witness :
  let w1 := (dc_sqlite3_begin_transaction__ THS opened_world).2 in
  let w2 := (dc_sqlite3_begin_transaction__ THS w1).2 in
  let w3 := (dc_sqlite3_set_config__ THS (Some "k") (Some "v") w2).2 in
  let w4 := (dc_sqlite3_rollback__ THS w3).2 in
  let w5 := (dc_sqlite3_commit__ THS w4).2 in
  stored w4 "k" = Some "v" ∧ in_transaction w4 = true
  ∧ m_transactionCount (store w4) = 1
  ∧ stored w5 "k" = Some "v" ∧ on_disk w5 "k" = Some "v"
  ∧ in_transaction w5 = false ∧ m_transactionCount (store w5) = 0.
Proof.
  apply (inner_rollback_keeps opened_world "k" (Some "v")); vm_compute; reflexivity.
Defined.


Lemma written_value_survives_reopen_witness :
  let w1 := (dc_sqlite3_set_config__ THS (Some "k") (Some "v") opened_world).2 in
  let w2 := (dc_sqlite3_close__ THS w1).2 in
  let r := dc_sqlite3_open__ key_itself THS (Some "x.db") 1 w2 in
  (dc_sqlite3_is_open THS w2).1 = 0
  ∧ r.1 = 1
  ∧ (dc_sqlite3_get_config__ THS (Some "k") None r.2).1 = Some "v".
Proof.
  apply (written_value_survives_reopen key_itself opened_world "x.db" "k" (Some "v") None 1);
    [vm_compute; reflexivity | vm_compute; reflexivity | vm_compute; reflexivity
    | vm_compute; reflexivity | vm_compute; lia | vm_compute; lia].
Defined.

Lemma open_uptodate_quiet_witness :
  let r := dc_sqlite3_open__ key_itself THS (Some "x.db") 0 closed_world in
  r.1 = 1
  ∧ seen r.2 = Some fresh_database
  ∧ files r.2 = files closed_world
  ∧ stored r.2 "dbversion" = config_get fresh_database "dbversion"
  ∧ ∃ evs, trace r.2 = trace closed_world ++ evs ∧ dbversion_writes evs = [].
Proof.
  apply (open_uptodate_quiet key_itself "x.db" 0 fresh_database closed_world);
    [reflexivity | vm_compute; lia | vm_compute; reflexivity | vm_compute; reflexivity
    | vm_compute; reflexivity | vm_compute; reflexivity
    | apply Z.leb_le; vm_compute; reflexivity].
Defined.


Lemma predefine_reuses_witness :
  let r1 := dc_sqlite3_predefine__ THS BEGIN_transaction (Some BEGIN) opened_world in
  let r2 := dc_sqlite3_predefine__ THS BEGIN_transaction None r1.2 in
  (∃ st, r1.1 = Some st ∧ st_sql st = BEGIN ∧ r2.1 = Some st)
  ∧ prepared (trace r1.2) = prepared (trace opened_world) ++ [BEGIN]
  ∧ r2.2 = r1.2
  ∧ (∀ j, (PREDEFINED_CNT ≤ j)%nat →
          dc_sqlite3_predefine__ THS j None opened_world = (None, opened_world)).
Proof.
  apply (predefine_reuses opened_world BEGIN_transaction BEGIN None);
    [vm_compute; reflexivity | vm_compute; reflexivity | vm_compute; lia].
Defined.

Lemma readonly_never_writes_witness :
  let kept (w' : world) :=
    files w' = files readonly_world ∧ seen w' = seen readonly_world
    ∧ read_only w' = true ∧ synced w' = true in
  kept (dc_sqlite3_set_config__ THS (Some "k") (Some "v") readonly_world).2
  ∧ kept (dc_sqlite3_set_config_int__ THS (Some "k") 3 readonly_world).2
  ∧ kept (dc_sqlite3_execute__ THS (DELETE_FROM "contacts" CTrue) readonly_world).2
  ∧ kept (dc_sqlite3_begin_transaction__ THS readonly_world).2
  ∧ kept (dc_sqlite3_commit__ THS readonly_world).2
  ∧ kept (dc_sqlite3_rollback__ THS readonly_world).2.
Proof.
  apply (readonly_never_writes readonly_world "k" (Some "v") 3 (DELETE_FROM "contacts" CTrue));
    vm_compute; reflexivity.
Defined.

Lemma transactions_on_closed_store_witness :
  let w1 := (dc_sqlite3_begin_transaction__ THS new_world).2 in
  (∃ msg, w1 = add_log (Error msg) (with_count 1 new_world))
  ∧ (∃ msg, (dc_sqlite3_commit__ THS w1).2 = with_count 0 (add_log (Error msg) w1))
  ∧ (∃ msg, (dc_sqlite3_rollback__ THS w1).2 = with_count 0 (add_log (Error msg) w1)).
Proof. apply (transactions_on_closed_store new_world); reflexivity. Defined.

Lemma nested_begin_rollback_witness :
  let w1 := (repeat_call 3 (dc_sqlite3_begin_transaction__ THS) opened_world).2 in
  let w2 := (repeat_call 3 (dc_sqlite3_rollback__ THS) w1).2 in
  stepped (trace w1) = stepped (trace opened_world) ++ [BEGIN]
  ∧ (repeat_call (3 - 1) (dc_sqlite3_rollback__ THS) w1).2 = with_count 1 w1
  ∧ stepped (trace w2) = stepped (trace opened_world) ++ [BEGIN; ROLLBACK]
  ∧ m_transactionCount (store w2) = 0.
Proof.
  apply (nested_begin_rollback 3 opened_world); [lia | vm_compute; reflexivity | reflexivity].
Defined.



